(** * TruthLens front end: request lifecycle and result rendering

    A shallow embedding of [frontend/config.js], [frontend/js/api.js] and
    [frontend/js/ui.js] (the [TruthLensUI] and [TruthLensApp] classes).

    Conventions of the embedding:
    - a JS string is a [string]; a character stands for one code unit
      (code units above 255 are not represented);
    - a JS value is a [value]; a number is kept as the three observations
      the modelled code can make of it (see [number]); the conversions JS
      applies to a value ([to_string], [to_number], [to_primitive]) throw
      where JS throws;
    - code that mutates the page runs in the monad [js]: it threads the
      [World] (the two class instances, the DOM elements the code touches,
      the interval table and the log of network calls) and either completes
      or throws; the mutations made before a throw persist, as in JS;
    - an [async] function is cut at its [await]: the part before it and the
      part after it are separate transitions of the event loop ([dispatch]);
    - [console.log], [e.preventDefault()], the scrolling calls and
      [handleShare] touch nothing of the [World] and are left out; so are
      the badge icon and the text nodes whose content is
      produced by number formatting ([toFixed], [toLocaleString]): the
      percentages, the processing time, the timestamp, the character count
      (the conversion that feeds the formatting is kept, since it may
      throw);
    - one-shot timers ([setTimeout]) only consume a timer id. *)

From Stdlib Require Import String Ascii List Bool Arith PArith NArith Lia DecimalString.
Import ListNotations.
Open Scope string_scope.

(* ================================================================== *)
(** ** JavaScript values *)

(** A JS number as the modelled code observes it: whether it is [=== 0]
    (true for +0 and -0), whether it is NaN, and its [ToString] text. *)
Record number := {
  num_is_zero : bool;
  num_is_nan : bool;
  num_text : string
}.

#[local] Set Warnings "-register-all".

Inductive value :=
| VUndefined
| VNull
| VBool (b : bool)
| VNum (n : number)
| VStr (s : string)
| VArr (items : list value)
| VObj (fields : list (string * value)).

(** Exceptions: the [name] and [message] of the thrown [Error] object. *)
Record error := { err_name : string; err_message : string }.

Definition TypeError (msg : string) : error :=
  {| err_name := "TypeError"; err_message := msg |}.

(** [new Error(msg)] *)
Definition Error (msg : string) : error :=
  {| err_name := "Error"; err_message := msg |}.

(** ToBoolean *)
Definition truthy (v : value) : bool :=
  match v with
  | VUndefined | VNull => false
  | VBool b => b
  | VNum n => negb (num_is_zero n || num_is_nan n)
  | VStr s => negb (s =? "")
  | VArr _ | VObj _ => true
  end.

(** Whether an object made by [JSON.parse] has an own property [key]. *)
Definition has_own (fields : list (string * value)) (key : string) : bool :=
  existsb (fun kv => fst kv =? key) fields.

(** What a conversion throws when neither [toString] nor [valueOf] gives
    a primitive. *)
Definition cannot_convert : error :=
  TypeError "Cannot convert object to primitive value".

(** ToString, as a template literal, [new Error(v)] or an attribute of
    type DOMString applies it.  A value made by [JSON.parse] holds no
    function.  An object is converted through its [toString]: an own
    [toString] key hides [Object.prototype.toString] and is not callable,
    and [valueOf] (own: not callable either; inherited: it returns the
    object itself) gives no primitive, so the conversion throws a
    TypeError; without such a key the inherited method gives
    "[object Object]".  An array is converted through
    [Array.prototype.join], which converts the elements in turn, [null]
    and [undefined] elements printing as the empty string. *)
Fixpoint to_string (v : value) : error + string :=
  match v with
  | VUndefined => inr "undefined"
  | VNull => inr "null"
  | VBool true => inr "true"
  | VBool false => inr "false"
  | VNum n => inr (num_text n)
  | VStr s => inr s
  | VArr items =>
      (fix join (l : list value) : error + string :=
         match l with
         | [] => inr ""
         | x :: rest =>
             match (match x with
                    | VUndefined | VNull => inr ""
                    | _ => to_string x
                    end) with
             | inl e => inl e
             | inr here =>
                 match rest with
                 | [] => inr here
                 | _ :: _ =>
                     match join rest with
                     | inl e => inl e
                     | inr more => inr (here ++ "," ++ more)
                     end
                 end
             end
         end) items
  | VObj fields =>
      if has_own fields "toString" then inl cannot_convert
      else inr "[object Object]"
  end.

(** ToPrimitive.  On a value made by [JSON.parse] the hint makes no
    difference: [valueOf] never gives a primitive, so an object or an
    array becomes the string its [toString] gives, or the conversion
    throws. *)
Definition to_primitive (v : value) : error + value :=
  match v with
  | VArr _ | VObj _ =>
      match to_string v with
      | inl e => inl e
      | inr s => inr (VStr s)
      end
  | _ => inr v
  end.

(** ToNumber, as [*] and [/] apply it.  The number obtained only goes
    into [toFixed], whose text is not modelled; what is kept of the
    conversion is whether it throws. *)
Definition to_number (v : value) : error + unit :=
  match to_primitive v with
  | inl e => inl e
  | inr _ => inr tt
  end.

(** Own property of an object literal produced by [JSON.parse]: with a
    duplicated key the last occurrence wins. *)
Definition own_prop (fields : list (string * value)) (key : string) : value :=
  fold_left (fun acc kv => if fst kv =? key then snd kv else acc)
            fields VUndefined.

(** [v.key] for the keys the code reads off parsed JSON (none of them is
    provided by a prototype): reading off [null] or [undefined] throws,
    a primitive or an array has no such property. *)
Definition get_prop (v : value) (key : string) : error + value :=
  match v with
  | VNull =>
      inl (TypeError ("Cannot read properties of null (reading '" ++ key ++ "')"))
  | VUndefined =>
      inl (TypeError ("Cannot read properties of undefined (reading '" ++ key ++ "')"))
  | VObj fields => inr (own_prop fields key)
  | _ => inr VUndefined
  end.

(** [v.length === 0] *)
Definition length_is_zero (v : value) : bool :=
  match v with
  | VArr items => match items with [] => true | _ => false end
  | VStr s => s =? ""
  | VObj fields =>
      match own_prop fields "length" with
      | VNum n => num_is_zero n
      | _ => false
      end
  | _ => false
  end.

(** [a === b] where [a] is a string or [undefined] (a [dataset] entry). *)
Definition tab_eq (a : option string) (b : value) : bool :=
  match a, b with
  | Some s, VStr t => s =? t
  | None, VUndefined => true
  | _, _ => false
  end.

Definition opt_string_eqb (a b : option string) : bool :=
  match a, b with
  | Some s, Some t => s =? t
  | None, None => true
  | _, _ => false
  end.

(* ================================================================== *)
(** ** Strings *)

(** [String.prototype.trim] strips WhiteSpace and LineTerminator code
    units; below 256 these are 9..13, 32 and 160. *)
Definition is_js_space (c : ascii) : bool :=
  let n := nat_of_ascii c in
  (((9 <=? n) && (n <=? 13)) || (n =? 32) || (n =? 160))%nat.

Fixpoint trim_start (s : string) : string :=
  match s with
  | EmptyString => EmptyString
  | String c rest => if is_js_space c then trim_start rest else s
  end.

Fixpoint trim_end (s : string) : string :=
  match s with
  | EmptyString => EmptyString
  | String c rest =>
      match trim_end rest with
      | EmptyString => if is_js_space c then EmptyString else String c EmptyString
      | kept => String c kept
      end
  end.

Definition trim (s : string) : string := trim_end (trim_start s).

(** The tokens of a [class] attribute: split on ASCII whitespace
    (9, 10, 12, 13, 32). *)
Definition is_class_sep (c : ascii) : bool :=
  let n := nat_of_ascii c in
  ((n =? 9) || (n =? 10) || (n =? 12) || (n =? 13) || (n =? 32))%nat.

Fixpoint class_tokens_from (cur : string) (s : string) : list string :=
  match s with
  | EmptyString => if cur =? "" then [] else [cur]
  | String c rest =>
      if is_class_sep c
      then (if cur =? "" then class_tokens_from "" rest
            else cur :: class_tokens_from "" rest)
      else class_tokens_from (cur ++ String c EmptyString) rest
  end.

Definition class_tokens (className : string) : list string :=
  class_tokens_from "" className.

(** [element.classList.contains(token)] *)
Definition classList_contains (className token : string) : bool :=
  existsb (String.eqb token) (class_tokens className).

(** Serialisation of a text node by [innerHTML]. *)
Fixpoint html_text (s : string) : string :=
  match s with
  | EmptyString => EmptyString
  | String c rest =>
      (if (c =? "&")%char then "&amp;"
       else if (c =? "<")%char then "&lt;"
       else if (c =? ">")%char then "&gt;"
       else if (nat_of_ascii c =? 160)%nat then "&nbsp;"
       else String c EmptyString) ++ html_text rest
  end.

(** [escapeHtml(text)]: assign to [textContent] ([null] and [undefined]
    give the empty text, any other value goes through ToString, which may
    throw), read [innerHTML] back. *)
Definition escapeHtml (text : value) : error + string :=
  match text with
  | VUndefined | VNull => inr ""
  | _ =>
      match to_string text with
      | inl e => inl e
      | inr s => inr (html_text s)
      end
  end.

(** Decimal text of a non-negative integer, as a template literal prints it. *)
Definition decimal (n : N) : string := NilEmpty.string_of_uint (N.to_uint n).

(* ================================================================== *)
(** ** config.js *)

Module CONFIG.
Definition API_BASE_URL : string := "http://localhost:8000".
Definition DETECT : string := "/api/detect".
Definition HEALTH : string := "/api/health".
Definition ROOT : string := "/".
(** milliseconds *)
Definition REQUEST_TIMEOUT : N := 600000.
Definition LOADING_MESSAGES : list string :=
  [ "Running AI model prediction...";
    "Analyzing text patterns...";
    "Generating word importance scores...";
    "Creating human-readable explanation..." ].
Definition TYPING_DELAY : N := 50.
End CONFIG.

(* ================================================================== *)
(** ** The page and the platform *)

(** Which of the four sections carry the [hidden] class. *)
Record sections := {
  form_hidden : bool;      (* #detectionForm *)
  loading_hidden : bool;   (* #loadingState *)
  results_hidden : bool;   (* #resultsSection *)
  error_hidden : bool      (* #errorState *)
}.

(** A [div] appended to [#highlightsGrid] by [updateWordHighlights]. *)
Record highlight_elem := {
  className : string;
  delay_index : nat;        (* style.animationDelay is index * 0.05 s *)
  word_html : string;       (* escapeHtml(item.word), the markup put into
                               span.highlight-word *)
  score_of : value;         (* the importance span.score-badge is formatted from *)
  marked_fake : bool;       (* the cross mark rather than the check mark *)
  display : string          (* style.display *)
}.

(** Children of [#highlightsGrid]: the [p.text-center] note
    "No word highlights available", or a highlight item. *)
Inductive grid_child :=
| NoHighlightsNote
| HighlightItem (h : highlight_elem).

(** A [button.tab-btn]: its [data-tab] attribute and whether it carries
    the [active] class. *)
Record tab_btn := { data_tab : option string; active : bool }.

(** What a [setInterval] timer runs. *)
Inductive interval_kind :=
| MessageRotation (messageIndex : nat)   (* showLoading, every 30000 ms *)
| TypingEffect (text : value).           (* updateExplanation, every TYPING_DELAY ms *)

(** Timer ids are the positive integers the platform hands out. *)
Record interval := {
  timer_id : positive;
  period_ms : N;
  kind : interval_kind
}.

(** A call of [fetch]: URL, method, and the object given to
    [JSON.stringify] for the body. *)
Record request := {
  req_url : string;
  req_method : string;
  req_payload : option value
}.

Record World := {
  (* TruthLensUI instance *)
  currentTab : option string;
  currentResults : value;
  loadingInterval : option positive;   (* None: undefined or null *)
  (* TruthLensApp instance *)
  isAnalyzing : bool;
  (* DOM *)
  shown : sections;
  loadingStep : string;
  errorMessage : string;
  badgeClass : string;             (* #resultBadge className *)
  badgeText : string;
  requestIdText : string;
  requestIdTitle : string;
  highlightsGrid : list grid_child;
  tabButtons : list tab_btn;
  newsTitle : string;
  newsText : string;
  (* platform *)
  intervals : list interval;       (* the timers set and not yet cleared *)
  next_timer : positive;           (* the id the next timer receives *)
  requests : list request;         (* every fetch issued, latest first *)
  in_flight : nat                  (* detectFakeNews promises not yet settled *)
}.

Definition with_ui (tab : option string) (res : value) (li : option positive)
    (w : World) : World :=
  {| currentTab := tab; currentResults := res; loadingInterval := li;
     isAnalyzing := isAnalyzing w; shown := shown w;
     loadingStep := loadingStep w; errorMessage := errorMessage w;
     badgeClass := badgeClass w; badgeText := badgeText w;
     requestIdText := requestIdText w; requestIdTitle := requestIdTitle w;
     highlightsGrid := highlightsGrid w; tabButtons := tabButtons w;
     newsTitle := newsTitle w; newsText := newsText w;
     intervals := intervals w;
     next_timer := next_timer w; requests := requests w;
     in_flight := in_flight w |}.

Definition set_currentTab (tab : option string) (w : World) : World :=
  with_ui tab (currentResults w) (loadingInterval w) w.

Definition set_currentResults (res : value) (w : World) : World :=
  with_ui (currentTab w) res (loadingInterval w) w.

Definition set_loadingInterval (li : option positive) (w : World) : World :=
  with_ui (currentTab w) (currentResults w) li w.

Definition set_isAnalyzing (b : bool) (w : World) : World :=
  {| currentTab := currentTab w; currentResults := currentResults w;
     loadingInterval := loadingInterval w;
     isAnalyzing := b; shown := shown w;
     loadingStep := loadingStep w; errorMessage := errorMessage w;
     badgeClass := badgeClass w; badgeText := badgeText w;
     requestIdText := requestIdText w; requestIdTitle := requestIdTitle w;
     highlightsGrid := highlightsGrid w; tabButtons := tabButtons w;
     newsTitle := newsTitle w; newsText := newsText w;
     intervals := intervals w;
     next_timer := next_timer w; requests := requests w;
     in_flight := in_flight w |}.

(** The DOM part of the world, replaced as a whole. *)
Record dom := {
  d_shown : sections;
  d_loadingStep : string;
  d_errorMessage : string;
  d_badgeClass : string;
  d_badgeText : string;
  d_requestIdText : string;
  d_requestIdTitle : string;
  d_highlightsGrid : list grid_child;
  d_tabButtons : list tab_btn;
  d_newsTitle : string;
  d_newsText : string
}.

Definition dom_of (w : World) : dom :=
  {| d_shown := shown w; d_loadingStep := loadingStep w;
     d_errorMessage := errorMessage w; d_badgeClass := badgeClass w;
     d_badgeText := badgeText w; d_requestIdText := requestIdText w;
     d_requestIdTitle := requestIdTitle w;
     d_highlightsGrid := highlightsGrid w; d_tabButtons := tabButtons w;
     d_newsTitle := newsTitle w; d_newsText := newsText w |}.

Definition with_dom (d : dom) (w : World) : World :=
  {| currentTab := currentTab w; currentResults := currentResults w;
     loadingInterval := loadingInterval w; isAnalyzing := isAnalyzing w;
     shown := d_shown d; loadingStep := d_loadingStep d;
     errorMessage := d_errorMessage d; badgeClass := d_badgeClass d;
     badgeText := d_badgeText d; requestIdText := d_requestIdText d;
     requestIdTitle := d_requestIdTitle d;
     highlightsGrid := d_highlightsGrid d; tabButtons := d_tabButtons d;
     newsTitle := d_newsTitle d; newsText := d_newsText d;
     intervals := intervals w;
     next_timer := next_timer w; requests := requests w;
     in_flight := in_flight w |}.

Definition with_platform (iv : list interval) (nt : positive) (rq : list request)
    (fl : nat) (w : World) : World :=
  {| currentTab := currentTab w; currentResults := currentResults w;
     loadingInterval := loadingInterval w; isAnalyzing := isAnalyzing w;
     shown := shown w; loadingStep := loadingStep w;
     errorMessage := errorMessage w; badgeClass := badgeClass w;
     badgeText := badgeText w; requestIdText := requestIdText w;
     requestIdTitle := requestIdTitle w;
     highlightsGrid := highlightsGrid w; tabButtons := tabButtons w;
     newsTitle := newsTitle w; newsText := newsText w;
     intervals := iv;
     next_timer := nt; requests := rq; in_flight := fl |}.

Definition set_dom (f : dom -> dom) (w : World) : World :=
  with_dom (f (dom_of w)) w.

Definition set_shown (s : sections) (d : dom) : dom :=
  {| d_shown := s; d_loadingStep := d_loadingStep d;
     d_errorMessage := d_errorMessage d; d_badgeClass := d_badgeClass d;
     d_badgeText := d_badgeText d; d_requestIdText := d_requestIdText d;
     d_requestIdTitle := d_requestIdTitle d;
     d_highlightsGrid := d_highlightsGrid d; d_tabButtons := d_tabButtons d;
     d_newsTitle := d_newsTitle d; d_newsText := d_newsText d |}.

Definition set_loadingStep (s : string) (d : dom) : dom :=
  {| d_shown := d_shown d; d_loadingStep := s;
     d_errorMessage := d_errorMessage d; d_badgeClass := d_badgeClass d;
     d_badgeText := d_badgeText d; d_requestIdText := d_requestIdText d;
     d_requestIdTitle := d_requestIdTitle d;
     d_highlightsGrid := d_highlightsGrid d; d_tabButtons := d_tabButtons d;
     d_newsTitle := d_newsTitle d; d_newsText := d_newsText d |}.

Definition set_errorMessage (s : string) (d : dom) : dom :=
  {| d_shown := d_shown d; d_loadingStep := d_loadingStep d;
     d_errorMessage := s; d_badgeClass := d_badgeClass d;
     d_badgeText := d_badgeText d; d_requestIdText := d_requestIdText d;
     d_requestIdTitle := d_requestIdTitle d;
     d_highlightsGrid := d_highlightsGrid d; d_tabButtons := d_tabButtons d;
     d_newsTitle := d_newsTitle d; d_newsText := d_newsText d |}.

Definition set_badge (cls txt : string) (d : dom) : dom :=
  {| d_shown := d_shown d; d_loadingStep := d_loadingStep d;
     d_errorMessage := d_errorMessage d; d_badgeClass := cls;
     d_badgeText := txt; d_requestIdText := d_requestIdText d;
     d_requestIdTitle := d_requestIdTitle d;
     d_highlightsGrid := d_highlightsGrid d; d_tabButtons := d_tabButtons d;
     d_newsTitle := d_newsTitle d; d_newsText := d_newsText d |}.

Definition set_requestIdText (txt : string) (d : dom) : dom :=
  {| d_shown := d_shown d; d_loadingStep := d_loadingStep d;
     d_errorMessage := d_errorMessage d; d_badgeClass := d_badgeClass d;
     d_badgeText := d_badgeText d; d_requestIdText := txt;
     d_requestIdTitle := d_requestIdTitle d;
     d_highlightsGrid := d_highlightsGrid d; d_tabButtons := d_tabButtons d;
     d_newsTitle := d_newsTitle d; d_newsText := d_newsText d |}.

Definition set_requestIdTitle (txt : string) (d : dom) : dom :=
  {| d_shown := d_shown d; d_loadingStep := d_loadingStep d;
     d_errorMessage := d_errorMessage d; d_badgeClass := d_badgeClass d;
     d_badgeText := d_badgeText d; d_requestIdText := d_requestIdText d;
     d_requestIdTitle := txt;
     d_highlightsGrid := d_highlightsGrid d; d_tabButtons := d_tabButtons d;
     d_newsTitle := d_newsTitle d; d_newsText := d_newsText d |}.

Definition set_highlightsGrid (g : list grid_child) (d : dom) : dom :=
  {| d_shown := d_shown d; d_loadingStep := d_loadingStep d;
     d_errorMessage := d_errorMessage d; d_badgeClass := d_badgeClass d;
     d_badgeText := d_badgeText d; d_requestIdText := d_requestIdText d;
     d_requestIdTitle := d_requestIdTitle d;
     d_highlightsGrid := g; d_tabButtons := d_tabButtons d;
     d_newsTitle := d_newsTitle d; d_newsText := d_newsText d |}.

Definition set_tabButtons (b : list tab_btn) (d : dom) : dom :=
  {| d_shown := d_shown d; d_loadingStep := d_loadingStep d;
     d_errorMessage := d_errorMessage d; d_badgeClass := d_badgeClass d;
     d_badgeText := d_badgeText d; d_requestIdText := d_requestIdText d;
     d_requestIdTitle := d_requestIdTitle d;
     d_highlightsGrid := d_highlightsGrid d; d_tabButtons := b;
     d_newsTitle := d_newsTitle d; d_newsText := d_newsText d |}.

Definition set_form_fields (title text : string) (d : dom) : dom :=
  {| d_shown := d_shown d; d_loadingStep := d_loadingStep d;
     d_errorMessage := d_errorMessage d; d_badgeClass := d_badgeClass d;
     d_badgeText := d_badgeText d; d_requestIdText := d_requestIdText d;
     d_requestIdTitle := d_requestIdTitle d;
     d_highlightsGrid := d_highlightsGrid d; d_tabButtons := d_tabButtons d;
     d_newsTitle := title; d_newsText := text |}.

(* ================================================================== *)
(** ** Running code: state and exceptions *)

Inductive completion (A : Type) :=
| Normal (a : A)
| Throw (e : error).
Arguments Normal {A} a.
Arguments Throw {A} e.

Definition js (A : Type) : Type := World -> completion A * World.

Definition ret {A} (a : A) : js A := fun w => (Normal a, w).

Definition bind {A B} (c : js A) (k : A -> js B) : js B :=
  fun w => match c w with
           | (Normal a, w') => k a w'
           | (Throw e, w') => (Throw e, w')
           end.

Definition throw {A} (e : error) : js A := fun w => (Throw e, w).

Definition modify (f : World -> World) : js unit := fun w => (Normal tt, f w).

Definition gets {A} (f : World -> A) : js A := fun w => (Normal (f w), w).

(** Lift a property read or a conversion that may throw. *)
Definition read {A} (r : error + A) : js A :=
  match r with
  | inl e => throw e
  | inr v => ret v
  end.

Notation "x <- c1 ;; c2" := (bind c1 (fun x => c2))
  (at level 61, c1 at next level, right associativity).
Notation "c1 ;; c2" := (bind c1 (fun _ => c2))
  (at level 61, right associativity).

(** [try { body } catch (e) { handler(e) }] *)
Definition try_catch {A} (body : js A) (handler : error -> js A) : js A :=
  fun w => match body w with
           | (Normal a, w') => (Normal a, w')
           | (Throw e, w') => handler e w'
           end.

(** [try { body } finally { cleanup }]: the cleanup runs on both exits; if
    it throws, its exception replaces the outcome of the body. *)
Definition try_finally {A} (body : js A) (cleanup : js unit) : js A :=
  fun w => match body w with
           | (r, w') =>
               match cleanup w' with
               | (Normal _, w'') => (r, w'')
               | (Throw e, w'') => (Throw e, w'')
               end
           end.

(** The world a computation leaves behind, however it completes. *)
Definition after {A} (c : js A) (w : World) : World := snd (c w).

(** The platform: [setInterval] hands out the next id and records the
    timer; [clearInterval] drops the timer with that id. *)
Definition setInterval (period : N) (k : interval_kind) : js positive :=
  fun w =>
    let id := next_timer w in
    (Normal id,
     with_platform
       ({| timer_id := id; period_ms := period; kind := k |} :: intervals w)
       (Pos.succ id) (requests w) (in_flight w) w).

(** [setTimeout]: the one-shot timer is not tracked, its id is used up. *)
Definition setTimeout : js positive :=
  fun w =>
    let id := next_timer w in
    (Normal id,
     with_platform (intervals w) (Pos.succ id) (requests w) (in_flight w) w).

Definition clearInterval (id : positive) : js unit :=
  modify (fun w =>
    with_platform
      (filter (fun t => negb (timer_id t =? id)%positive) (intervals w))
      (next_timer w) (requests w) (in_flight w) w).

(* ================================================================== *)
(** ** ui.js: class TruthLensUI *)

Definition only_loading : sections :=
  {| form_hidden := true; loading_hidden := false;
     results_hidden := true; error_hidden := true |}.

Definition only_results : sections :=
  {| form_hidden := true; loading_hidden := true;
     results_hidden := false; error_hidden := true |}.

Definition only_error : sections :=
  {| form_hidden := true; loading_hidden := true;
     results_hidden := true; error_hidden := false |}.

Definition only_form : sections :=
  {| form_hidden := false; loading_hidden := true;
     results_hidden := true; error_hidden := true |}.

(** [v === s] for a string literal [s] *)
Definition is_str (v : value) (s : string) : bool :=
  match v with
  | VStr t => t =? s
  | _ => false
  end.

Definition showLoading : js unit :=
  modify (set_dom (set_shown only_loading)) ;;
  messageInterval <- setInterval 30000 (MessageRotation 0) ;;
  modify (set_loadingInterval (Some messageInterval)).

(** A timer id, being positive, is truthy. *)
Definition hideLoading : js unit :=
  li <- gets loadingInterval ;;
  match li with
  | Some id => clearInterval id ;; modify (set_loadingInterval None)
  | None => ret tt
  end.

Definition updateResultHeader (data : value) : js unit :=
  prediction <- read (get_prop data "prediction") ;;
  let isFake := is_str prediction "Fake" in
  modify (set_dom (set_badge
            (if isFake then "result-badge fake" else "result-badge real")
            (if isFake then "Fake News Detected" else "Likely Credible"))) ;;
  confidence <- read (get_prop data "confidence") ;;
  _ <- read (to_number confidence) ;;
  ret tt.

(** The two percentages and the delayed bar widths are formatted numbers;
    what remains is the two property reads, each followed by the
    conversion [* 100] makes, and the timer. *)
Definition updateProbabilityBars (data : value) : js unit :=
  fake_probability <- read (get_prop data "fake_probability") ;;
  _ <- read (to_number fake_probability) ;;
  real_probability <- read (get_prop data "real_probability") ;;
  _ <- read (to_number real_probability) ;;
  _ <- setTimeout ;;
  ret tt.

Definition updateExplanation (data : value) : js unit :=
  text <- read (get_prop data "explanation") ;;
  _ <- setInterval CONFIG.TYPING_DELAY (TypingEffect text) ;;
  ret tt.

Definition append_child (c : grid_child) : js unit :=
  modify (set_dom (fun d => set_highlightsGrid (d_highlightsGrid d ++ [c]) d)).

(** The callback of [highlights.forEach], applied from [index] on: the
    class name converts [item.direction] to a string, the score converts
    [item.importance] to a number, [escapeHtml] converts [item.word]; an
    item is appended once all three have gone through. *)
Fixpoint forEach_highlight (items : list value) (index : nat) : js unit :=
  match items with
  | [] => ret tt
  | item :: rest =>
      direction <- read (get_prop item "direction") ;;
      direction_text <- read (to_string direction) ;;
      importance <- read (get_prop item "importance") ;;
      _ <- read (to_number importance) ;;
      word <- read (get_prop item "word") ;;
      word_markup <- read (escapeHtml word) ;;
      tab <- gets currentTab ;;
      append_child (HighlightItem
        {| className := "highlight-item " ++ direction_text;
           delay_index := index;
           word_html := word_markup;
           score_of := importance;
           marked_fake := is_str direction "fake";
           display := if opt_string_eqb tab (Some "all") || tab_eq tab direction
                      then "flex" else "none" |}) ;;
      forEach_highlight rest (S index)
  end.

Definition updateWordHighlights (data : value) : js unit :=
  wh <- read (get_prop data "word_highlights") ;;
  let highlights := if truthy wh then wh else VArr [] in
  modify (set_dom (set_highlightsGrid [])) ;;
  if length_is_zero highlights then
    modify (set_dom (set_highlightsGrid [NoHighlightsNote]))
  else
    match highlights with
    | VArr items => forEach_highlight items 0
    | _ => throw (TypeError "highlights.forEach is not a function")
    end.

(** [/ 1000] converts [data.processing_time_ms] to a number and
    [new Date(data.timestamp)] converts the timestamp to a primitive; the
    texts made from them are not modelled. *)
Definition updateMetadata (data : value) : js unit :=
  processing_time_ms <- read (get_prop data "processing_time_ms") ;;
  _ <- read (to_number processing_time_ms) ;;
  request_id <- read (get_prop data "request_id") ;;
  match request_id with
  | VStr id =>
      modify (set_dom (set_requestIdText (substring 0 13 id ++ "..."))) ;;
      modify (set_dom (set_requestIdTitle id)) ;;
      timestamp <- read (get_prop data "timestamp") ;;
      _ <- read (to_primitive timestamp) ;;
      ret tt
  | VUndefined =>
      throw (TypeError "Cannot read properties of undefined (reading 'substring')")
  | VNull =>
      throw (TypeError "Cannot read properties of null (reading 'substring')")
  | _ => throw (TypeError "data.request_id.substring is not a function")
  end.

Definition showResults (data : value) : js unit :=
  hideLoading ;;
  modify (set_currentResults data) ;;
  modify (set_dom (set_shown only_results)) ;;
  updateResultHeader data ;;
  updateProbabilityBars data ;;
  updateExplanation data ;;
  updateWordHighlights data ;;
  updateMetadata data.

Definition showError (message : string) : js unit :=
  hideLoading ;;
  modify (set_dom (set_shown only_error)) ;;
  modify (set_dom (set_errorMessage message)).

Definition resetToForm : js unit :=
  hideLoading ;;
  modify (set_dom (set_shown only_form)) ;;
  modify (set_dom (set_form_fields "" "")).

(** The elements [document.querySelectorAll('.highlight-item')] selects
    are the grid children carrying that class token. *)
Definition is_highlight_item (c : grid_child) : bool :=
  match c with
  | HighlightItem h => classList_contains (className h) "highlight-item"
  | NoHighlightsNote => false
  end.

Definition set_display (v : string) (h : highlight_elem) : highlight_elem :=
  {| className := className h; delay_index := delay_index h;
     word_html := word_html h; score_of := score_of h;
     marked_fake := marked_fake h; display := v |}.

(** The body of the first [forEach] of [filterHighlights], on one child. *)
Definition filter_child (tab : option string) (c : grid_child) : grid_child :=
  match c with
  | HighlightItem h =>
      if is_highlight_item c then
        let direction :=
          if classList_contains (className h) "fake" then "fake" else "real" in
        if opt_string_eqb tab (Some "all") || opt_string_eqb tab (Some direction)
        then HighlightItem (set_display "flex" h)
        else HighlightItem (set_display "none" h)
      else c
  | NoHighlightsNote => c
  end.

(** The body of the second [forEach], on one tab button. *)
Definition mark_tab (tab : option string) (b : tab_btn) : tab_btn :=
  {| data_tab := data_tab b;
     active := if opt_string_eqb (data_tab b) tab then true else false |}.

Definition filterHighlights (tab : option string) : js unit :=
  modify (set_currentTab tab) ;;
  res <- gets currentResults ;;
  if negb (truthy res) then ret tt
  else
    modify (set_dom (fun d =>
      set_highlightsGrid (map (filter_child tab) (d_highlightsGrid d)) d)) ;;
    modify (set_dom (fun d =>
      set_tabButtons (map (mark_tab tab) (d_tabButtons d)) d)).

(* ================================================================== *)
(** ** api.js: class TruthLensAPI *)

(** What [response.json()] does: it resolves with the parsed body,
    rejects (the body is not JSON: a SyntaxError), or never settles. *)
Inductive body_read :=
| BodyJson (v : value)
| BodyBad (e : error)
| BodyStalls.

Record response := { status : N; body : body_read }.

(** [response.ok] *)
Definition ok (r : response) : bool :=
  ((200 <=? status r) && (status r <=? 299))%N.

(** What the network does with one request, left alone: answer with a
    response after [at_ms] milliseconds, fail after [at_ms] milliseconds,
    or stay silent for ever. *)
Inductive network :=
| Responds (at_ms : N) (r : response)
| Fails (at_ms : N) (e : error)
| Silent.

(** How a promise ends. *)
Inductive settled (A : Type) :=
| Resolved (a : A)
| Rejected (e : error)
| Pending.
Arguments Resolved {A} a.
Arguments Rejected {A} e.
Arguments Pending {A}.

(** The exception an aborted [fetch] rejects with. *)
Definition AbortError : error :=
  {| err_name := "AbortError"; err_message := "signal is aborted without reason" |}.

(** [fetch(url, {signal})] raced against
    [setTimeout(() => controller.abort(), timeout)]: what the network
    delivers up to [timeout] ms settles the promise, otherwise the timer
    fires first and the abort rejects it. *)
Definition fetch (timeout : N) (net : network) : settled response :=
  match net with
  | Responds at_ms r =>
      if (at_ms <=? timeout)%N then Resolved r else Rejected AbortError
  | Fails at_ms e =>
      if (at_ms <=? timeout)%N then Rejected e else Rejected AbortError
  | Silent => Rejected AbortError
  end.

(** [await response.json()] followed by [k] *)
Definition await_json (r : response) (k : value -> settled value)
  : settled value :=
  match body r with
  | BodyJson v => k v
  | BodyBad e => Rejected e
  | BodyStalls => Pending
  end.

Record TruthLensAPI := { baseURL : string; timeout : N }.

(** [new TruthLensAPI()] *)
Definition api : TruthLensAPI :=
  {| baseURL := CONFIG.API_BASE_URL; timeout := CONFIG.REQUEST_TIMEOUT |}.

Definition timeout_message : string :=
  "Request timed out. The analysis is taking longer than expected.".

(** The [try] block of [makeRequest].  The timer is cleared once [fetch]
    has resolved, so reading the body is not bounded by it.
    [new Error(message)] converts a message that is not a string, which
    may throw in its turn. *)
Definition makeRequest_try (this : TruthLensAPI) (net : network)
  : settled value :=
  match fetch (timeout this) net with
  | Resolved response =>
      if negb (ok response) then
        await_json response (fun errorData =>
          match get_prop errorData "error" with
          | inl e => Rejected e
          | inr err =>
              if truthy err then
                match to_string err with
                | inl e => Rejected e
                | inr message => Rejected (Error message)
                end
              else
                Rejected (Error ("HTTP error! status: "
                                 ++ decimal (status response)))
          end)
      else await_json response (fun v => Resolved v)
  | Rejected e => Rejected e
  | Pending => Pending
  end.

Definition makeRequest (this : TruthLensAPI) (net : network) : settled value :=
  match makeRequest_try this net with
  | Rejected error =>
      if err_name error =? "AbortError"
      then Rejected (Error timeout_message)
      else Rejected error
  | other => other
  end.

(** RequestOutcome: [{success: true, data}] or [{success: false, error}]. *)
Inductive RequestOutcome :=
| Success (data : value)
| Failure (error : string).

(** The promise of [detectFakeNews]: it resolves with an outcome, or never
    settles ([None]); it is never rejected.  The two [console.log] lines
    after the request read [response.prediction] and
    [response.confidence], which throws on a [null] body. *)
Definition detectFakeNews (this : TruthLensAPI) (net : network)
  : option RequestOutcome :=
  match makeRequest this net with
  | Resolved response =>
      match get_prop response "prediction" with
      | inl error => Some (Failure (err_message error))
      | inr _ =>
          match get_prop response "confidence" with
          | inl error => Some (Failure (err_message error))
          | inr _ => Some (Success response)
          end
      end
  | Rejected error => Some (Failure (err_message error))
  | Pending => None
  end.

(** The synchronous part of a call of [detectFakeNews(title, text)]:
    [makeRequest] arms the abort timer and issues the [fetch]. *)
Definition issue_detect (this : TruthLensAPI) (title text : string) : js unit :=
  _ <- setTimeout ;;
  modify (fun w =>
    with_platform (intervals w) (next_timer w)
      ({| req_url := baseURL this ++ CONFIG.DETECT;
          req_method := "POST";
          req_payload := Some (VObj [("title", VStr title); ("text", VStr text)]) |}
       :: requests w)
      (S (in_flight w)) w).

(** The request [checkHealth] has issued by the time the listeners are set up. *)
Definition health_request (this : TruthLensAPI) : request :=
  {| req_url := baseURL this ++ CONFIG.HEALTH;
     req_method := "GET";
     req_payload := None |}.

(* ================================================================== *)
(** ** ui.js: class TruthLensApp *)

(** [s.length] *)
Definition strlen (s : string) : N := N.of_nat (String.length s).

Definition validateInputs (title text : string) : js bool :=
  if (strlen title <? 5)%N then
    showError "Title must be at least 5 characters long" ;; ret false
  else if (500 <? strlen title)%N then
    showError "Title must be less than 500 characters" ;; ret false
  else if (strlen text <? 20)%N then
    showError "Article text must be at least 20 characters long" ;; ret false
  else if (10000 <? strlen text)%N then
    showError "Article text must be less than 10,000 characters" ;; ret false
  else ret true.

(** Where a call of [handleFormSubmit] stands when it hands control back
    to the event loop: it returned at the [isAnalyzing] guard, it returned
    after a failed validation, or it is suspended at
    [await api.detectFakeNews(title, text)]. *)
Inductive submit_phase :=
| Ignored
| Invalid
| Awaiting (title text : string).

(** [handleFormSubmit] up to its [await]. *)
Definition handleFormSubmit_begin : js submit_phase :=
  busy <- gets isAnalyzing ;;
  if busy then ret Ignored
  else
    title <- gets (fun w => trim (newsTitle w)) ;;
    text <- gets (fun w => trim (newsText w)) ;;
    valid <- validateInputs title text ;;
    if negb valid then ret Invalid
    else
      modify (set_isAnalyzing true) ;;
      showLoading ;;
      issue_detect api title text ;;
      ret (Awaiting title text).

(** [handleFormSubmit] from the moment the awaited promise has resolved
    with [result]: the rest of the [try], the [catch], the [finally]. *)
Definition handleFormSubmit_resume (result : RequestOutcome) : js unit :=
  try_finally
    (try_catch
       (match result with
        | Success data => showResults data
        | Failure error => showError error
        end)
       (fun _ => showError "An unexpected error occurred. Please try again."))
    (modify (set_isAnalyzing false)).

(* ================================================================== *)
(** ** The event loop *)

(** The callback of the message-rotation timer. *)
Definition rotate_message (id : positive) (messageIndex : nat) : js unit :=
  let next := (messageIndex + 1) mod length CONFIG.LOADING_MESSAGES in
  modify (fun w =>
    with_platform
      (map (fun t => if (timer_id t =? id)%positive
                     then {| timer_id := id; period_ms := period_ms t;
                             kind := MessageRotation next |}
                     else t) (intervals w))
      (next_timer w) (requests w) (in_flight w) w) ;;
  modify (set_dom (set_loadingStep (nth next CONFIG.LOADING_MESSAGES ""))).

Fixpoint find_interval (id : positive) (l : list interval) : option interval :=
  match l with
  | [] => None
  | t :: rest => if (timer_id t =? id)%positive then Some t else find_interval id rest
  end.

(** What the listeners installed by [setupEventListeners], the timers and
    the network deliver.  [IntervalFires id done]: timer [id] ticks; for
    the typing effect, whose text node is not part of the [World], [done]
    tells whether this tick is the one that clears the timer. *)
Inductive event :=
| UserEdits (title text : string)
| Submit
| TransportSettles (net : network)
| TabClick (tab : option string)
| ResetClick
| IntervalFires (id : positive) (done : bool).

Definition settle_one : js unit :=
  modify (fun w =>
    with_platform (intervals w) (next_timer w) (requests w)
                  (pred (in_flight w)) w).

Definition handle (e : event) : js unit :=
  match e with
  | UserEdits title text => modify (set_dom (set_form_fields title text))
  | Submit => _ <- handleFormSubmit_begin ;; ret tt
  | TransportSettles net =>
      waiting <- gets in_flight ;;
      match waiting with
      | O => ret tt
      | S _ =>
          match detectFakeNews api net with
          | Some result => settle_one ;; handleFormSubmit_resume result
          | None => ret tt
          end
      end
  | TabClick tab => filterHighlights tab
  | ResetClick => resetToForm
  | IntervalFires id done =>
      timers <- gets intervals ;;
      match find_interval id timers with
      | Some t =>
          match kind t with
          | MessageRotation messageIndex => rotate_message id messageIndex
          | TypingEffect _ => if done then clearInterval id else ret tt
          end
      | None => ret tt
      end
  end.

(** One turn of the event loop; an exception escaping a handler is
    reported by the platform and the loop goes on. *)
Definition dispatch (e : event) (w : World) : World := after (handle e) w.

Definition run (events : list event) (w : World) : World :=
  fold_left (fun acc e => dispatch e acc) events w.

(** The world when the listeners have just been installed: a fresh
    [TruthLensUI] and [TruthLensApp], the static page [page], no interval
    set, the health check made. *)
Definition initial_world (page : dom) : World :=
  {| currentTab := Some "all"; currentResults := VNull;
     loadingInterval := None; isAnalyzing := false;
     shown := d_shown page; loadingStep := d_loadingStep page;
     errorMessage := d_errorMessage page; badgeClass := d_badgeClass page;
     badgeText := d_badgeText page; requestIdText := d_requestIdText page;
     requestIdTitle := d_requestIdTitle page;
     highlightsGrid := d_highlightsGrid page; tabButtons := d_tabButtons page;
     newsTitle := d_newsTitle page; newsText := d_newsText page;
     intervals := []; next_timer := 2%positive;
     requests := [health_request api]; in_flight := 0 |}.

(** The rotation timers currently set. *)
Definition is_rotation (t : interval) : bool :=
  match kind t with
  | MessageRotation _ => true
  | TypingEffect _ => false
  end.

Definition rotation_timers (w : World) : list interval :=
  filter is_rotation (intervals w).

(** The presentation state, read off the page. *)
Definition in_loading (w : World) : bool := negb (loading_hidden (shown w)).

(* ================================================================== *)
(** ** What the claims speak about *)

(** [null] or [undefined] *)
Definition nullish (v : value) : bool :=
  match v with
  | VUndefined | VNull => true
  | _ => false
  end.

(** [item.key] for an [item] that is not nullish *)
Definition field (item : value) (key : string) : value :=
  match item with
  | VObj fields => own_prop fields key
  | _ => VUndefined
  end.

(** Whether tab [tab] lets an item of direction [direction] through. *)
Definition passes_filter (tab : option string) (direction : value) : bool :=
  opt_string_eqb tab (Some "all") || tab_eq tab direction.

(** Whether the conversion of [v] to a string or to a number returns. *)
Definition converts (v : value) : bool :=
  match to_string v with
  | inr _ => true
  | inl _ => false
  end.

(** The text a conversion has returned; nothing where it has thrown. *)
Definition or_empty (r : error + string) : string :=
  match r with
  | inr s => s
  | inl _ => ""
  end.

(** The items the callback of [highlights.forEach] gets through: neither
    [null] nor [undefined], with a [direction], an [importance] and a
    [word] that convert. *)
Definition item_renders (item : value) : bool :=
  negb (nullish item)
  && converts (field item "direction")
  && converts (field item "importance")
  && converts (field item "word").

(** The element [updateWordHighlights] builds for [item] at [index]
    while the current tab is [tab], for an item it gets through
    ([item_renders]); for any other item the callback throws and builds
    nothing. *)
Definition render_item (tab : option string) (index : nat) (item : value)
  : grid_child :=
  HighlightItem
    {| className :=
         "highlight-item " ++ or_empty (to_string (field item "direction"));
       delay_index := index;
       word_html := or_empty (escapeHtml (field item "word"));
       score_of := field item "importance";
       marked_fake := is_str (field item "direction") "fake";
       display := if passes_filter tab (field item "direction")
                  then "flex" else "none" |}.

Fixpoint render_items (tab : option string) (index : nat) (items : list value)
  : list grid_child :=
  match items with
  | [] => []
  | item :: rest => render_item tab index item :: render_items tab (S index) rest
  end.

(** A highlight as the data model has it: an object whose [direction] is
    the string "fake" or the string "real". *)
Definition well_typed_highlight (item : value) : Prop :=
  nullish item = false /\
  (field item "direction" = VStr "fake" \/ field item "direction" = VStr "real").

(** A highlight item that shows, and one that is hidden. *)
Definition visible (c : grid_child) : bool :=
  match c with
  | HighlightItem h => display h =? "flex"
  | NoHighlightsNote => false
  end.

Definition hidden (c : grid_child) : bool :=
  match c with
  | HighlightItem h => display h =? "none"
  | NoHighlightsNote => false
  end.

Definition is_note (c : grid_child) : bool :=
  match c with
  | NoHighlightsNote => true
  | HighlightItem _ => false
  end.

(** Whether what the network delivers comes within the timeout. *)
Definition arrives_within (limit : N) (net : network) : bool :=
  match net with
  | Responds at_ms _ | Fails at_ms _ => (at_ms <=? limit)%N
  | Silent => false
  end.

(** The validator as section 4.2 of the specification words it: the
    rules in order, the first failure wins; [None] is "ok". *)
Definition validate_spec (title text : string) : option string :=
  if (strlen title <? 5)%N then
    Some "Title must be at least 5 characters long"
  else if (500 <? strlen title)%N then
    Some "Title must be less than 500 characters"
  else if (strlen text <? 20)%N then
    Some "Article text must be at least 20 characters long"
  else if (10000 <? strlen text)%N then
    Some "Article text must be less than 10,000 characters"
  else None.

(** What the five [update...] methods leave alone. *)
Definition steady (w : World) :=
  (currentTab w, currentResults w, loadingInterval w, isAnalyzing w,
   (shown w, errorMessage w, loadingStep w, tabButtons w),
   (newsTitle w, newsText w),
   rotation_timers w, requests w, in_flight w).

(** The timers agree with the [TruthLensUI] and [TruthLensApp] fields:
    every rotation timer set is the one [loadingInterval] holds, it is
    held only while the loading section shows, and only while an analysis
    runs; one request is in flight exactly while an analysis runs. *)
Record consistent (w : World) : Prop := {
  rotation_is_held :
    forall t, In t (rotation_timers w) ->
              loadingInterval w = Some (timer_id t);
  held_while_loading :
    forall id, loadingInterval w = Some id -> in_loading w = true;
  held_while_analyzing :
    isAnalyzing w = false -> loadingInterval w = None;
  one_in_flight :
    in_flight w = if isAnalyzing w then 1 else 0
}.

(** [c] does not change what [f] observes, however it completes. *)
Definition stable {X A} (f : World -> X) (c : js A) : Prop :=
  forall w, f (after c w) = f w.

(** [c] completes normally from every world. *)
Definition completes {A} (c : js A) : Prop :=
  forall w, exists a, fst (c w) = Normal a.

(** Everything but the interval table and [loadingInterval]. *)
Definition beyond_timers (w : World) :=
  (currentTab w, currentResults w, isAnalyzing w, dom_of w,
   requests w, in_flight w).

(** The tail of [showResults]: the five updates in order. *)
Definition updates (data : value) : js unit :=
  updateResultHeader data ;;
  updateProbabilityBars data ;;
  updateExplanation data ;;
  updateWordHighlights data ;;
  updateMetadata data.

(** What the grid holds once the highlights of a result are rendered. *)
Definition rendered_grid (tab : option string) (items : list value)
  : list grid_child :=
  match items with
  | [] => [NoHighlightsNote]
  | _ :: _ => render_items tab 0 items
  end.

(** What [w'] shares with [w] when only [currentTab] may differ. *)
Definition differs_only_in_tab (w w' : World) : Prop :=
  currentResults w' = currentResults w
  /\ loadingInterval w' = loadingInterval w
  /\ isAnalyzing w' = isAnalyzing w
  /\ dom_of w' = dom_of w
  /\ intervals w' = intervals w
  /\ next_timer w' = next_timer w
  /\ requests w' = requests w
  /\ in_flight w' = in_flight w.

(** What [consistent] depends on. *)
Definition gist (w : World) :=
  (rotation_timers w, loadingInterval w, shown w, isAnalyzing w, in_flight w).

(** No rotation timer is set and none is held. *)
Definition quiet (w : World) : Prop :=
  rotation_timers w = [] /\ loadingInterval w = None.

(** [c] leaves no rotation timer behind, and keeps the flag and the
    count of requests in flight. *)
Definition settles {A} (c : js A) : Prop :=
  forall w,
    (forall t, In t (rotation_timers w) ->
               loadingInterval w = Some (timer_id t)) ->
    quiet (after c w)
    /\ isAnalyzing (after c w) = isAnalyzing w
    /\ in_flight (after c w) = in_flight w.

(* ================================================================== *)
(** ** Sample page, results and runs *)

Module Samples.

(** The static page: the form showing, three tab buttons, "all" active. *)
Definition page : dom :=
  {| d_shown := only_form;
     d_loadingStep := "Running AI model prediction...";
     d_errorMessage := ""; d_badgeClass := "result-badge";
     d_badgeText := ""; d_requestIdText := ""; d_requestIdTitle := "";
     d_highlightsGrid := [];
     d_tabButtons := [ {| data_tab := Some "all"; active := true |};
                       {| data_tab := Some "fake"; active := false |};
                       {| data_tab := Some "real"; active := false |} ];
     d_newsTitle := ""; d_newsText := "" |}.

Definition num (text : string) : value :=
  VNum {| num_is_zero := false; num_is_nan := false; num_text := text |}.

Definition highlight (word importance direction : string) : value :=
  VObj [("word", VStr word); ("importance", num importance);
        ("direction", VStr direction)].

Definition result (prediction request_id : string) (highlights : list value)
  : value :=
  VObj [("prediction", VStr prediction); ("confidence", num "0.82");
        ("fake_probability", num "0.82"); ("real_probability", num "0.18");
        ("explanation", VStr "Sensational wording.");
        ("word_highlights", VArr highlights);
        ("processing_time_ms", num "5120");
        ("request_id", VStr request_id);
        ("timestamp", VStr "2024-05-01T10:00:00Z")].

(** Three highlights, two of them fake. *)
Definition three : list value :=
  [ highlight "shocking" "0.91" "fake";
    highlight "secret" "0.64" "fake";
    highlight "confirmed" "0.40" "real" ].

Definition first_result : value := result "Fake" "1b9d6bcd-bbfd-4b2d" three.

Definition second_result : value :=
  result "Real" "7c9e6679-7425-40de" [ highlight "reported" "0.55" "real" ].

Definition no_highlights : value := result "Real" "00000000-0000-0000" [].

(** The JSON text [{"toString": 0}]: an object no conversion gets through. *)
Definition unconvertible : value :=
  VObj [("toString",
         VNum {| num_is_zero := true; num_is_nan := false; num_text := "0" |})].

(** A result without highlights whose [confidence] does not convert. *)
Definition odd_confidence : value :=
  VObj [("prediction", VStr "Fake"); ("confidence", unconvertible);
        ("fake_probability", num "0.82"); ("real_probability", num "0.18");
        ("explanation", VStr "Sensational wording.");
        ("word_highlights", VArr []);
        ("processing_time_ms", num "5120");
        ("request_id", VStr "r-1");
        ("timestamp", VStr "2024-05-01T10:00:00Z")].

Definition answers (v : value) : network :=
  Responds 4000 {| status := 200; body := BodyJson v |}.

(** A valid article is typed in and submitted. *)
Definition submit_article : list event :=
  [ UserEdits "  Miracle cure found  "
              "Anonymous sources reveal the shocking truth about it.";
    Submit ].

Definition article_typed : World :=
  dispatch (UserEdits "  Miracle cure found  "
              "Anonymous sources reveal the shocking truth about it.")
           (initial_world page).

Definition analysing : World := run submit_article (initial_world page).

Definition showing_first : World :=
  run [TransportSettles (answers first_result)] analysing.

End Samples.

(* ================================================================== *)
(** ** api.js: the other calls; start-up *)

(** [checkHealth()]: the same request wrapper as [detectFakeNews], without
    the two property reads. *)
Definition checkHealth (this : TruthLensAPI) (net : network)
  : option RequestOutcome :=
  match makeRequest this net with
  | Resolved response => Some (Success response)
  | Rejected error => Some (Failure (err_message error))
  | Pending => None
  end.

(** [getInfo()] *)
Definition getInfo (this : TruthLensAPI) (net : network)
  : option RequestOutcome :=
  match makeRequest this net with
  | Resolved response => Some (Success response)
  | Rejected error => Some (Failure (err_message error))
  | Pending => None
  end.

(** How [TruthLensApp.init] ends: [setupEventListeners] has run, or the
    promise of [init] is rejected before it, or it never settles. *)
Inductive startup :=
| ListenersInstalled
| InitRejected (e : error)
| InitPending.

(** [checkBackendHealth] given the outcome of [api.checkHealth()]: on
    success it logs [result.data.is_model_loaded]. *)
Definition checkBackendHealth (result : RequestOutcome) : error + unit :=
  match result with
  | Success data =>
      match get_prop data "is_model_loaded" with
      | inl e => inl e
      | inr _ => inr tt
      end
  | Failure _ => inr tt
  end.

(** [init]: [await this.checkBackendHealth(); this.setupEventListeners()],
    for what the network does with the health request. *)
Definition init (net : network) : startup :=
  match checkHealth api net with
  | Some result =>
      match checkBackendHealth result with
      | inl e => InitRejected e
      | inr _ => ListenersInstalled
      end
  | None => InitPending
  end.

(* ================================================================== *)
(** ** ui.js: samples and character count *)











(** The colour [updateCharCount] gives the counter, for the value of the
    text area. *)
Definition charCount_color (text : string) : string :=
  if (10000 <? strlen text)%N then "var(--fake-red)"
  else if (8000 <? strlen text)%N then "var(--text-secondary)"
  else "var(--text-tertiary)".

(* ================================================================== *)
(** ** ui.js: the typing effect *)



(* ================================================================== *)
(** ** Further notions the properties use *)

(** The typing-effect timers currently set. *)
Definition typing_timers (w : World) : list interval :=
  filter (fun t => negb (is_rotation t)) (intervals w).

(** Timer ids are pairwise distinct and below the next id; the id held in
    [loadingInterval] is below it too and belongs to rotation timers. *)
Record timers_ok (w : World) : Prop := {
  ids_distinct : NoDup (map timer_id (intervals w));
  ids_below_next :
    forall t, In t (intervals w) -> (timer_id t < next_timer w)%positive;
  held_below_next :
    forall id, loadingInterval w = Some id -> (id < next_timer w)%positive;
  held_is_rotation :
    forall id t, loadingInterval w = Some id -> In t (intervals w) ->
                 timer_id t = id -> is_rotation t = true
}.

(** Exactly one of the four sections shows. *)
Definition one_section_shows (s : sections) : Prop :=
  s = only_form \/ s = only_loading \/ s = only_results \/ s = only_error.

(** No [<] and no [>] in a piece of markup. *)
Fixpoint no_angle (s : string) : bool :=
  match s with
  | EmptyString => true
  | String c rest =>
      negb (c =? "<")%char && negb (c =? ">")%char && no_angle rest
  end.

Definition word_is_escaped (c : grid_child) : bool :=
  match c with
  | HighlightItem h => no_angle (word_html h)
  | NoHighlightsNote => true
  end.

(** [P] survives [c], however [c] completes. *)
Definition keeps {A} (P : World -> Prop) (c : js A) : Prop :=
  forall w, P w -> P (after c w).

Definition is_string (v : value) : bool :=
  match v with
  | VStr _ => true
  | _ => false
  end.

(** The [word_highlights] the highlight renderer gets through: a falsy
    one, one of length zero, or an array of items that render. *)
Definition highlights_render (wh : value) : bool :=
  if truthy wh then
    length_is_zero wh
    || match wh with
       | VArr items => forallb item_renders items
       | _ => false
       end
  else true.

(** The three numbers shown as percentages convert: [updateResultHeader]
    and [updateProbabilityBars] get through. *)
Definition percentages_convert (data : value) : bool :=
  converts (field data "confidence")
  && converts (field data "fake_probability")
  && converts (field data "real_probability").

(** What [updateMetadata] gets through: a processing time and a
    timestamp that convert, a request id that is a string. *)
Definition metadata_renders (data : value) : bool :=
  converts (field data "processing_time_ms")
  && is_string (field data "request_id")
  && converts (field data "timestamp").

(** The payloads [showResults] renders without throwing. *)
Definition renders_cleanly (data : value) : bool :=
  negb (nullish data)
  && percentages_convert data
  && highlights_render (field data "word_highlights")
  && metadata_renders data.

(** Whether an event is a click on a tab button. *)
Definition is_tab_click (e : event) : bool :=
  match e with
  | TabClick _ => true
  | _ => false
  end.

Definition all_space (s : string) : bool :=
  (fix go (s : string) : bool :=
     match s with
     | EmptyString => true
     | String c rest => is_js_space c && go rest
     end) s.

(** The class and the text of [#resultBadge]. *)
Definition badge (w : World) : string * string := (badgeClass w, badgeText w).

(** The word of every highlight item in the grid is free of [<] and [>]. *)
Definition grid_is_escaped (w : World) : Prop :=
  forallb word_is_escaped (highlightsGrid w) = true.

(** One section shows, and while an analysis runs it is the loading
    section or the form. *)
Definition presentation_ok (w : World) : Prop :=
  one_section_shows (shown w)
  /\ (isAnalyzing w = true -> shown w = only_loading \/ shown w = only_form).

(** What [timers_ok] depends on. *)
Definition timer_state (w : World) :=
  (intervals w, next_timer w, loadingInterval w).


(** A string of [n] times the character [c]. *)
Definition filler (c : ascii) (n : N) : string :=
  string_of_list_ascii (repeat c (N.to_nat n)).

(* ================================================================== *)
(** ** Reasoning about [js] computations *)

Lemma after_bind {A B} (c : js A) (k : A -> js B) (w : World) :
  after (bind c k) w =
  match c w with
  | (Normal a, w') => after (k a) w'
  | (Throw _, w') => w'
  end.
Proof.
  unfold after, bind. destruct (c w) as [[a|e] w']; reflexivity.
Qed.

Lemma stable_ret {X A} (f : World -> X) (a : A) : stable f (ret a).
Proof. intro w; reflexivity. Qed.

Lemma stable_throw {X A} (f : World -> X) (e : error) : stable f (@throw A e).
Proof. intro w; reflexivity. Qed.

Lemma stable_gets {X A} (f : World -> X) (g : World -> A) : stable f (gets g).
Proof. intro w; reflexivity. Qed.

Lemma stable_read {X A} (f : World -> X) (r : error + A) : stable f (read r).
Proof. destruct r; intro w; reflexivity. Qed.

Lemma stable_modify {X} (f : World -> X) (g : World -> World) :
  (forall w, f (g w) = f w) -> stable f (modify g).
Proof. intros H w; apply H. Qed.

Lemma stable_bind {X A B} (f : World -> X) (c : js A) (k : A -> js B) :
  stable f c -> (forall a, stable f (k a)) -> stable f (bind c k).
Proof.
  intros Hc Hk w. rewrite after_bind.
  specialize (Hc w). unfold after in Hc.
  destruct (c w) as [[a|e] w']; simpl in Hc.
  - rewrite Hk. exact Hc.
  - exact Hc.
Qed.

Lemma stable_try_catch {X A} (f : World -> X) (c : js A) (h : error -> js A) :
  stable f c -> (forall e, stable f (h e)) -> stable f (try_catch c h).
Proof.
  intros Hc Hh w. specialize (Hc w). unfold after, try_catch in *.
  destruct (c w) as [[a|e] w']; simpl in *.
  - exact Hc.
  - rewrite <- Hc. apply (Hh e w').
Qed.

Ltac stable_step :=
  first [ apply stable_ret | apply stable_throw | apply stable_gets
        | apply stable_read
        | apply stable_bind; [ | intros ? ]
        | apply stable_modify; intros ?; reflexivity ].

Lemma after_seq {A} (c : js unit) (k : js A) (w : World) :
  completes c -> after (c ;; k) w = after k (after c w).
Proof.
  intros Hc. rewrite after_bind. unfold after.
  destruct (Hc w) as [a Ha]. destruct (c w) as [[u|e] w']; simpl in *.
  - reflexivity.
  - discriminate.
Qed.

Lemma fst_seq {A} (c : js unit) (k : js A) (w : World) :
  completes c -> fst ((c ;; k) w) = fst (k (after c w)).
Proof.
  intros Hc. unfold bind, after.
  destruct (Hc w) as [a Ha]. destruct (c w) as [[u|e] w']; simpl in *.
  - reflexivity.
  - discriminate.
Qed.

Lemma completes_modify (g : World -> World) : completes (modify g).
Proof. intro w; exists tt; reflexivity. Qed.

Lemma completes_seq (c k : js unit) :
  completes c -> completes k -> completes (c ;; k).
Proof.
  intros Hc Hk w. rewrite (fst_seq c k w Hc). apply Hk.
Qed.

(* ================================================================== *)
(** ** TruthLensUI: what each method changes *)

Lemma hideLoading_completes : completes hideLoading.
Proof.
  intro w. exists tt. unfold hideLoading, bind, gets.
  destruct (loadingInterval w); reflexivity.
Qed.

Lemma hideLoading_frame : stable beyond_timers hideLoading.
Proof.
  intro w. unfold after, hideLoading, bind, gets.
  destruct (loadingInterval w); reflexivity.
Qed.

Lemma hideLoading_clears_field (w : World) :
  loadingInterval (after hideLoading w) = None.
Proof.
  unfold after, hideLoading, bind, gets.
  destruct (loadingInterval w) eqn:E; simpl; [reflexivity | exact E].
Qed.

Lemma filter_none {A} (p : A -> bool) (l : list A) :
  (forall x, In x l -> p x = false) -> filter p l = [].
Proof.
  induction l as [|x l IH]; intros H; simpl.
  - reflexivity.
  - rewrite (H x (or_introl eq_refl)). apply IH.
    intros y Hy. apply H. right. exact Hy.
Qed.

Lemma hideLoading_clears_rotation (w : World) :
  (forall t, In t (rotation_timers w) ->
             loadingInterval w = Some (timer_id t)) ->
  rotation_timers (after hideLoading w) = [].
Proof.
  intros H. unfold rotation_timers. apply filter_none.
  intros t Ht. destruct (is_rotation t) eqn:R; [exfalso | reflexivity].
  assert (Hheld : In t (intervals w) -> loadingInterval w = Some (timer_id t)).
  { intros Hin. apply H. unfold rotation_timers. apply filter_In.
    split; assumption. }
  revert Ht. unfold after, hideLoading, bind, gets.
  destruct (loadingInterval w) as [id|] eqn:E; simpl.
  - rewrite filter_In. intros [Hin Hne].
    specialize (Hheld Hin). injection Hheld as ->.
    rewrite Pos.eqb_refl in Hne. discriminate.
  - intros Hin. specialize (Hheld Hin). discriminate.
Qed.

Lemma updateResultHeader_steady data : stable steady (updateResultHeader data).
Proof. unfold updateResultHeader. repeat stable_step. Qed.

Lemma setTimeout_steady : stable steady setTimeout.
Proof. intro w; reflexivity. Qed.

Lemma updateProbabilityBars_steady data :
  stable steady (updateProbabilityBars data).
Proof.
  unfold updateProbabilityBars.
  repeat (first [ apply setTimeout_steady | stable_step ]).
Qed.

Lemma updateExplanation_steady data : stable steady (updateExplanation data).
Proof.
  unfold updateExplanation.
  repeat stable_step.
Qed.

Lemma forEach_highlight_steady items :
  forall index, stable steady (forEach_highlight items index).
Proof.
  induction items as [|item rest IH]; intros index; simpl.
  - stable_step.
  - repeat stable_step. apply IH.
Qed.

Lemma updateWordHighlights_steady data :
  stable steady (updateWordHighlights data).
Proof.
  unfold updateWordHighlights. repeat stable_step.
  destruct (length_is_zero _).
  - stable_step.
  - destruct (if truthy _ then _ else _); try stable_step.
    apply forEach_highlight_steady.
Qed.

Lemma updateMetadata_steady data : stable steady (updateMetadata data).
Proof.
  unfold updateMetadata. repeat stable_step.
  match goal with |- stable _ (match ?v with _ => _ end) => destruct v end;
    repeat stable_step.
Qed.

Lemma updates_steady data : stable steady (updates data).
Proof.
  unfold updates.
  apply stable_bind; [apply updateResultHeader_steady | intros _].
  apply stable_bind; [apply updateProbabilityBars_steady | intros _].
  apply stable_bind; [apply updateExplanation_steady | intros _].
  apply stable_bind; [apply updateWordHighlights_steady | intros _].
  apply updateMetadata_steady.
Qed.

Lemma showResults_split data w :
  after (showResults data) w =
  after (updates data)
    (with_dom (set_shown only_results (dom_of (after hideLoading w)))
       (set_currentResults data (after hideLoading w))).
Proof.
  unfold showResults.
  rewrite (after_seq hideLoading _ w hideLoading_completes).
  rewrite after_seq by apply completes_modify.
  rewrite after_seq by apply completes_modify.
  reflexivity.
Qed.

Lemma steady_currentTab {A} (c : js A) :
  stable steady c -> stable currentTab c.
Proof.
  intros H w. specialize (H w). unfold steady in H. congruence.
Qed.

Lemma get_prop_field item key :
  nullish item = false -> get_prop item key = inr (field item key).
Proof. destruct item; simpl; intros H; try discriminate; reflexivity. Qed.

Lemma to_number_to_string v :
  to_number v = match to_string v with
                | inl e => inl e
                | inr _ => inr tt
                end.
Proof.
  unfold to_number, to_primitive.
  destruct v as [| |b|n|s|items|fields]; try reflexivity.
  - destruct b; reflexivity.
  - destruct (to_string (VArr items)); reflexivity.
  - destruct (to_string (VObj fields)); reflexivity.
Qed.

Lemma conversion_returns v :
  converts v = true ->
  to_string v = inr (or_empty (to_string v))
  /\ to_number v = inr tt
  /\ (exists p, to_primitive v = inr p)
  /\ escapeHtml v = inr (or_empty (escapeHtml v)).
Proof.
  unfold converts. intros H.
  destruct (to_string v) as [e|s] eqn:E; [discriminate|].
  split; [reflexivity|].
  split; [rewrite to_number_to_string, E; reflexivity|]. split.
  - unfold to_primitive.
    destruct v; try (eexists; reflexivity); rewrite E; eexists; reflexivity.
  - unfold escapeHtml. destruct v; try reflexivity; rewrite E; reflexivity.
Qed.

Lemma conversion_throws v :
  converts v = false ->
  exists e, to_string v = inl e /\ to_number v = inl e
            /\ to_primitive v = inl e /\ escapeHtml v = inl e.
Proof.
  unfold converts. intros H.
  destruct (to_string v) as [e|s] eqn:E; [|discriminate].
  exists e. split; [reflexivity|].
  split; [rewrite to_number_to_string, E; reflexivity|].
  unfold to_primitive, escapeHtml.
  destruct v as [| |b|n|s|items|fields]; try discriminate E;
    try (destruct b; discriminate E); rewrite E; split; reflexivity.
Qed.

Lemma forEach_highlight_runs items :
  forallb item_renders items = true ->
  forall index w,
    fst (forEach_highlight items index w) = Normal tt /\
    highlightsGrid (after (forEach_highlight items index) w) =
    (highlightsGrid w ++ render_items (currentTab w) index items)%list.
Proof.
  induction items as [|item rest IH]; intros Hitems index w.
  - simpl. split; [reflexivity | symmetry; apply app_nil_r].
  - simpl in Hitems. apply andb_prop in Hitems.
    destruct Hitems as [Hitem Hrest]. unfold item_renders in Hitem.
    apply andb_prop in Hitem. destruct Hitem as [Hitem Hw].
    apply andb_prop in Hitem. destruct Hitem as [Hitem Hi].
    apply andb_prop in Hitem. destruct Hitem as [Hn Hd].
    apply negb_true_iff in Hn.
    destruct (conversion_returns _ Hd) as (Ed & _).
    destruct (conversion_returns _ Hi) as (_ & Ei & _).
    destruct (conversion_returns _ Hw) as (_ & _ & _ & Ew).
    simpl forEach_highlight. unfold after, bind.
    rewrite !(get_prop_field item _ Hn). cbn [read ret].
    rewrite Ed. cbn [read ret]. rewrite Ei. cbn [read ret].
    rewrite Ew. cbn [read ret]. unfold gets, append_child, modify.
    match goal with
    | |- context [forEach_highlight rest (S index) ?W] =>
        destruct (IH Hrest (S index) W) as [Hnorm Hg]
    end.
    split; [exact Hnorm|].
    unfold after in Hg. rewrite Hg. simpl highlightsGrid. simpl currentTab.
    rewrite <- app_assoc. reflexivity.
Qed.

Lemma updateWordHighlights_runs data items w :
  nullish data = false ->
  field data "word_highlights" = VArr items ->
  forallb item_renders items = true ->
  fst (updateWordHighlights data w) = Normal tt /\
  highlightsGrid (after (updateWordHighlights data) w) =
  rendered_grid (currentTab w) items.
Proof.
  intros Hd Hwh Hitems. unfold updateWordHighlights, after, bind.
  rewrite (get_prop_field data _ Hd), Hwh. simpl read. unfold ret, modify.
  destruct items as [|item rest]; cbn [truthy length_is_zero]; cbv beta iota.
  - split; reflexivity.
  - match goal with
    | |- context [forEach_highlight _ 0 ?W] =>
        destruct (forEach_highlight_runs _ Hitems 0 W) as [Hn Hg]
    end.
    split; [exact Hn|]. unfold after in Hg. rewrite Hg. reflexivity.
Qed.

Lemma updateResultHeader_completes_iff data w :
  nullish data = false ->
  fst (updateResultHeader data w) = Normal tt <->
  converts (field data "confidence") = true.
Proof.
  intros Hd. unfold updateResultHeader, bind.
  rewrite !(get_prop_field data _ Hd). cbn [read ret]. unfold modify.
  destruct (converts (field data "confidence")) eqn:Hc.
  - destruct (conversion_returns _ Hc) as (_ & -> & _).
    split; reflexivity.
  - destruct (conversion_throws _ Hc) as (e & _ & -> & _).
    split; discriminate.
Qed.

Lemma updateProbabilityBars_completes_iff data w :
  nullish data = false ->
  fst (updateProbabilityBars data w) = Normal tt <->
  converts (field data "fake_probability") = true
  /\ converts (field data "real_probability") = true.
Proof.
  intros Hd. unfold updateProbabilityBars, bind.
  rewrite !(get_prop_field data _ Hd). cbn [read ret].
  destruct (converts (field data "fake_probability")) eqn:Hf.
  - destruct (conversion_returns _ Hf) as (_ & -> & _). cbn [read ret].
    destruct (converts (field data "real_probability")) eqn:Hr.
    + destruct (conversion_returns _ Hr) as (_ & -> & _).
      split; [auto | reflexivity].
    + destruct (conversion_throws _ Hr) as (e & _ & -> & _).
      split; [discriminate | intros [_ H]; discriminate].
  - destruct (conversion_throws _ Hf) as (e & _ & -> & _).
    split; [discriminate | intros [H _]; discriminate].
Qed.

Lemma updateResultHeader_completes data :
  nullish data = false -> percentages_convert data = true ->
  completes (updateResultHeader data).
Proof.
  intros Hd Hp w. exists tt.
  apply (updateResultHeader_completes_iff data w Hd).
  unfold percentages_convert in Hp.
  apply andb_prop in Hp. destruct Hp as [Hp _].
  apply andb_prop in Hp. tauto.
Qed.

Lemma updateProbabilityBars_completes data :
  nullish data = false -> percentages_convert data = true ->
  completes (updateProbabilityBars data).
Proof.
  intros Hd Hp w. exists tt.
  apply (updateProbabilityBars_completes_iff data w Hd).
  unfold percentages_convert in Hp.
  apply andb_prop in Hp. destruct Hp as [Hp Hr].
  apply andb_prop in Hp. tauto.
Qed.

Lemma updateExplanation_completes data :
  nullish data = false -> completes (updateExplanation data).
Proof.
  intros Hd w. exists tt. unfold updateExplanation, bind.
  rewrite !(get_prop_field data _ Hd). reflexivity.
Qed.

Lemma updateMetadata_keeps_grid data :
  stable highlightsGrid (updateMetadata data).
Proof.
  unfold updateMetadata. repeat stable_step.
  match goal with |- stable _ (match ?v with _ => _ end) => destruct v end;
    repeat stable_step.
Qed.

Lemma updates_grid data items w :
  nullish data = false ->
  percentages_convert data = true ->
  field data "word_highlights" = VArr items ->
  forallb item_renders items = true ->
  highlightsGrid (after (updates data) w) = rendered_grid (currentTab w) items.
Proof.
  intros Hd Hp Hwh Hitems. unfold updates.
  rewrite after_seq by (apply updateResultHeader_completes; assumption).
  rewrite after_seq by (apply updateProbabilityBars_completes; assumption).
  rewrite after_seq by (apply updateExplanation_completes; exact Hd).
  set (w3 := after (updateExplanation data) _).
  assert (Htab : currentTab w3 = currentTab w).
  { unfold w3.
    rewrite (steady_currentTab _ (updateExplanation_steady data)).
    rewrite (steady_currentTab _ (updateProbabilityBars_steady data)).
    apply (steady_currentTab _ (updateResultHeader_steady data)). }
  destruct (updateWordHighlights_runs data items w3 Hd Hwh Hitems) as [Hn Hg].
  rewrite after_bind. unfold after in Hg.
  destruct (updateWordHighlights data w3) as [[u|e] w4]; simpl in Hn, Hg.
  - rewrite updateMetadata_keeps_grid. rewrite Hg, Htab. reflexivity.
  - discriminate.
Qed.

Lemma showResults_keeps_tab data w :
  currentTab (after (showResults data) w) = currentTab w.
Proof.
  rewrite showResults_split.
  rewrite (steady_currentTab _ (updates_steady data)). simpl.
  pose proof (hideLoading_frame w) as H. unfold beyond_timers in H. congruence.
Qed.

Lemma showResults_grid data items w :
  nullish data = false ->
  percentages_convert data = true ->
  field data "word_highlights" = VArr items ->
  forallb item_renders items = true ->
  highlightsGrid (after (showResults data) w) =
  rendered_grid (currentTab w) items.
Proof.
  intros Hd Hp Hwh Hitems. rewrite showResults_split.
  rewrite (updates_grid data items _ Hd Hp Hwh Hitems). simpl.
  pose proof (hideLoading_frame w) as H. unfold beyond_timers in H.
  f_equal. congruence.
Qed.

(** The grid is only written by [updateWordHighlights]. *)
Lemma updateResultHeader_keeps_grid data :
  stable highlightsGrid (updateResultHeader data).
Proof. unfold updateResultHeader. repeat stable_step. Qed.

Lemma updateProbabilityBars_keeps_grid data :
  stable highlightsGrid (updateProbabilityBars data).
Proof.
  unfold updateProbabilityBars. repeat stable_step; try (intro; reflexivity).
Qed.

Lemma percentages_fail data w :
  nullish data = false -> percentages_convert data = false ->
  exists e w1,
    (updateResultHeader data ;; updateProbabilityBars data) w = (Throw e, w1).
Proof.
  intros Hd Hp. unfold bind.
  pose proof (updateResultHeader_completes_iff data w Hd) as Hh.
  destruct (updateResultHeader data w) as [[u|e] w1]; [|eauto].
  pose proof (updateProbabilityBars_completes_iff data w1 Hd) as Hb.
  destruct (updateProbabilityBars data w1) as [[v|e] w2]; [|eauto].
  exfalso. simpl in Hh, Hb. destruct u, v.
  unfold percentages_convert in Hp.
  rewrite (proj1 Hh eq_refl) in Hp.
  destruct (proj1 Hb eq_refl) as [Hf Hr]. rewrite Hf, Hr in Hp.
  discriminate.
Qed.

(** When a percentage does not convert, [showResults] stops before the
    explanation and the highlights. *)
Lemma showResults_stops_early data w :
  nullish data = false -> percentages_convert data = false ->
  after (showResults data) w =
  after (updateResultHeader data ;; updateProbabilityBars data)
    (with_dom (set_shown only_results (dom_of (after hideLoading w)))
       (set_currentResults data (after hideLoading w))).
Proof.
  intros Hd Hp. rewrite showResults_split.
  set (w0 := with_dom _ _).
  destruct (percentages_fail data w0 Hd Hp) as (e & w1 & Hfail).
  unfold after, updates. revert Hfail. unfold bind.
  destruct (updateResultHeader data w0) as [[u|e1] w2]; [|reflexivity].
  destruct (updateProbabilityBars data w2) as [[v|e2] w3];
    [discriminate | reflexivity].
Qed.

Lemma showResults_keeps_grid_early data w :
  nullish data = false -> percentages_convert data = false ->
  highlightsGrid (after (showResults data) w) = highlightsGrid w.
Proof.
  intros Hd Hp. rewrite (showResults_stops_early data w Hd Hp).
  assert (Hs : stable highlightsGrid
                 (updateResultHeader data ;; updateProbabilityBars data)).
  { apply stable_bind; [apply updateResultHeader_keeps_grid | intros _].
    apply updateProbabilityBars_keeps_grid. }
  rewrite Hs. simpl.
  pose proof (hideLoading_frame w) as F. unfold beyond_timers, dom_of in F.
  injection F; intros. assumption.
Qed.

(* ================================================================== *)
(** ** The highlight filter *)

Lemma filter_child_render tab0 tab index item :
  well_typed_highlight item ->
  filter_child tab (render_item tab0 index item) = render_item tab index item.
Proof.
  intros [_ [Hd|Hd]]; unfold render_item; rewrite Hd;
    destruct tab as [t|]; simpl; try reflexivity;
    unfold filter_child, passes_filter, set_display; simpl;
    destruct (_ || _); reflexivity.
Qed.

Lemma filter_render_items tab0 tab items :
  Forall well_typed_highlight items ->
  forall index,
    map (filter_child tab) (render_items tab0 index items) =
    render_items tab index items.
Proof.
  induction 1 as [|item rest Hitem _ IH]; intros index; simpl.
  - reflexivity.
  - rewrite IH. f_equal.
    apply (filter_child_render tab0 tab index item Hitem).
Qed.

Lemma filter_rendered_grid tab0 tab items :
  Forall well_typed_highlight items ->
  map (filter_child tab) (rendered_grid tab0 items) = rendered_grid tab items.
Proof.
  intros H. destruct items as [|item rest].
  - reflexivity.
  - apply (filter_render_items tab0 tab _ H 0).
Qed.

Lemma visible_render_items tab items :
  forall index,
    length (filter visible (render_items tab index items)) =
    length (filter (fun item => passes_filter tab (field item "direction"))
                   items).
Proof.
  induction items as [|item rest IH]; intros index; simpl.
  - reflexivity.
  - destruct (passes_filter _ _); simpl; rewrite IH; reflexivity.
Qed.

Lemma hidden_render_items tab items :
  forall index,
    length (filter hidden (render_items tab index items)) =
    length (filter (fun item =>
                      negb (passes_filter tab (field item "direction")))
                   items).
Proof.
  induction items as [|item rest IH]; intros index; simpl.
  - reflexivity.
  - destruct (passes_filter _ _); simpl; rewrite IH; reflexivity.
Qed.

Lemma visible_rendered_grid tab items :
  length (filter visible (rendered_grid tab items)) =
  length (filter (fun item => passes_filter tab (field item "direction"))
                 items).
Proof.
  destruct items as [|item rest]; [reflexivity|].
  apply (visible_render_items tab (item :: rest) 0).
Qed.

Lemma hidden_rendered_grid tab items :
  length (filter hidden (rendered_grid tab items)) =
  length (filter (fun item =>
                    negb (passes_filter tab (field item "direction")))
                 items).
Proof.
  destruct items as [|item rest]; [reflexivity|].
  apply (hidden_render_items tab (item :: rest) 0).
Qed.

Lemma filterHighlights_with_result tab w :
  truthy (currentResults w) = true ->
  filterHighlights tab w =
  (Normal tt,
   set_dom (fun d => set_tabButtons (map (mark_tab tab) (d_tabButtons d)) d)
     (set_dom (fun d =>
        set_highlightsGrid (map (filter_child tab) (d_highlightsGrid d)) d)
        (set_currentTab tab w))).
Proof.
  intros H. unfold filterHighlights, bind, modify, gets.
  change (currentResults (set_currentTab tab w)) with (currentResults w).
  rewrite H. reflexivity.
Qed.

Lemma filterHighlights_without_result tab w :
  truthy (currentResults w) = false ->
  filterHighlights tab w = (Normal tt, set_currentTab tab w).
Proof.
  intros H. unfold filterHighlights, bind, modify, gets.
  change (currentResults (set_currentTab tab w)) with (currentResults w).
  rewrite H. reflexivity.
Qed.

(** C8.  Once a result is rendered, [filterHighlights] only toggles the
    visibility of the rendered highlight items, by their direction tag:
    the grid becomes what rendering the same highlights under the new tab
    gives (same items, same order, only [display] recomputed); under
    "all" no item is hidden, under "fake" or "real" the visible items are
    exactly those of that direction; the stored result, the log of network
    calls and the number of requests in flight are untouched. *)
Theorem filterHighlights_toggles_visibility_only :
  forall (w : World) (tab0 tab : option string) (items : list value),
    truthy (currentResults w) = true ->
    Forall well_typed_highlight items ->
    highlightsGrid w = rendered_grid tab0 items ->
    let w' := after (filterHighlights tab) w in
    highlightsGrid w' = rendered_grid tab items
    /\ length (filter visible (highlightsGrid w')) =
       length (filter (fun item => passes_filter tab (field item "direction"))
                      items)
    /\ length (filter hidden (highlightsGrid w')) =
       length (filter (fun item =>
                         negb (passes_filter tab (field item "direction")))
                      items)
    /\ (tab = Some "all" -> filter hidden (highlightsGrid w') = [])
    /\ (forall dir, dir = "fake" \/ dir = "real" -> tab = Some dir ->
        length (filter visible (highlightsGrid w')) =
        length (filter (fun item => is_str (field item "direction") dir) items))
    /\ currentResults w' = currentResults w
    /\ requests w' = requests w
    /\ in_flight w' = in_flight w.
Proof.
  intros w tab0 tab items Hres Hitems Hgrid w'.
  assert (Hg : highlightsGrid w' = rendered_grid tab items).
  { unfold w', after. rewrite (filterHighlights_with_result tab w Hres).
    simpl. rewrite Hgrid. apply filter_rendered_grid. exact Hitems. }
  assert (Hv := visible_rendered_grid tab items).
  assert (Hh := hidden_rendered_grid tab items).
  rewrite Hg. repeat split.
  - exact Hv.
  - exact Hh.
  - intros ->. apply length_zero_iff_nil. rewrite Hh.
    apply length_zero_iff_nil. apply filter_none. intros; reflexivity.
  - intros dir Hdir ->. rewrite Hv. f_equal. apply filter_ext_in.
    intros item Hin. rewrite Forall_forall in Hitems.
    destruct (Hitems item Hin) as [_ [Hd|Hd]]; rewrite Hd;
      destruct Hdir as [-> | ->]; reflexivity.
  - unfold w', after. rewrite (filterHighlights_with_result tab w Hres).
    reflexivity.
  - unfold w', after. rewrite (filterHighlights_with_result tab w Hres).
    reflexivity.
  - unfold w', after. rewrite (filterHighlights_with_result tab w Hres).
    reflexivity.
Qed.

(** Three rendered items, two of them fake: selecting "fake" leaves two
    visible and one hidden. *)
Lemma filterHighlights_toggles_visibility_only_witness :
  truthy (currentResults Samples.showing_first) = true
  /\ Forall well_typed_highlight Samples.three
  /\ highlightsGrid Samples.showing_first
     = rendered_grid (Some "all") Samples.three
  /\ length (filter visible (highlightsGrid
       (after (filterHighlights (Some "fake")) Samples.showing_first))) = 2
  /\ length (filter hidden (highlightsGrid
       (after (filterHighlights (Some "fake")) Samples.showing_first))) = 1
  /\ requests (after (filterHighlights (Some "fake")) Samples.showing_first)
     = requests Samples.showing_first.
Proof.
  assert (H1 : truthy (currentResults Samples.showing_first) = true)
    by (vm_compute; reflexivity).
  assert (H2 : Forall well_typed_highlight Samples.three).
  { repeat (constructor;
            [ split; [ reflexivity
                     | first [ left; reflexivity | right; reflexivity ] ] | ]).
    constructor. }
  assert (H3 : highlightsGrid Samples.showing_first
               = rendered_grid (Some "all") Samples.three)
    by (vm_compute; reflexivity).
  pose proof (filterHighlights_toggles_visibility_only
                Samples.showing_first (Some "all") (Some "fake")
                Samples.three H1 H2 H3) as T.
  cbv zeta in T.
  destruct T as (_ & Tv & Th & _ & _ & _ & Tr & _).
  split; [exact H1|]. split; [exact H2|]. split; [exact H3|].
  split; [exact Tv|]. split; [exact Th|]. exact Tr.
Defined.

(** C9.  A result whose [word_highlights] is the empty array makes the
    highlight renderer complete with the grid holding exactly one child,
    the "No word highlights available" note, and no highlight item.
    [showResults] reaches the renderer once the three percentages have
    converted, and the grid is then that one note; when one of them does
    not convert it has thrown before the renderer, and the grid is as it
    was. *)
Theorem empty_highlights_render_one_note :
  forall (w : World) (data : value),
    nullish data = false ->
    field data "word_highlights" = VArr [] ->
    fst (updateWordHighlights data w) = Normal tt
    /\ highlightsGrid (after (updateWordHighlights data) w) = [NoHighlightsNote]
    /\ length (filter is_note
                 (highlightsGrid (after (updateWordHighlights data) w))) = 1
    /\ filter is_highlight_item
         (highlightsGrid (after (updateWordHighlights data) w)) = []
    /\ (percentages_convert data = true ->
        highlightsGrid (after (showResults data) w) = [NoHighlightsNote])
    /\ (percentages_convert data = false ->
        highlightsGrid (after (showResults data) w) = highlightsGrid w).
Proof.
  intros w data Hd Hwh.
  destruct (updateWordHighlights_runs data [] w Hd Hwh eq_refl) as [Hn Hg].
  simpl in Hg. rewrite Hg. repeat split; try reflexivity.
  - exact Hn.
  - intros Hp. apply (showResults_grid data [] w Hd Hp Hwh eq_refl).
  - intros Hp. apply (showResults_keeps_grid_early data w Hd Hp).
Qed.

(** With no highlights the grid holds the note; with a [confidence] that
    does not convert on top of that, the three items shown before stay. *)
Lemma empty_highlights_render_one_note_witness :
  nullish Samples.no_highlights = false
  /\ field Samples.no_highlights "word_highlights" = VArr []
  /\ highlightsGrid
       (after (updateWordHighlights Samples.no_highlights) Samples.analysing)
     = [NoHighlightsNote]
  /\ percentages_convert Samples.no_highlights = true
  /\ highlightsGrid (after (showResults Samples.no_highlights)
                           Samples.showing_first)
     = [NoHighlightsNote]
  /\ percentages_convert Samples.odd_confidence = false
  /\ highlightsGrid (after (showResults Samples.odd_confidence)
                           Samples.showing_first)
     = highlightsGrid Samples.showing_first.
Proof.
  split; [reflexivity|]. split; [reflexivity|]. split.
  - exact (proj1 (proj2 (empty_highlights_render_one_note
                           Samples.analysing Samples.no_highlights
                           eq_refl eq_refl))).
  - split; [reflexivity|]. split.
    + exact (proj1 (proj2 (proj2 (proj2 (proj2
               (empty_highlights_render_one_note
                  Samples.showing_first Samples.no_highlights
                  eq_refl eq_refl))))) eq_refl).
    + split; [reflexivity|].
      exact (proj2 (proj2 (proj2 (proj2 (proj2
               (empty_highlights_render_one_note
                  Samples.showing_first Samples.odd_confidence
                  eq_refl eq_refl))))) eq_refl).
Defined.

(** C10.  While no result is stored, [filterHighlights tab] records
    [tab] as the current tab and changes nothing else -- no highlight
    item, no tab button (their [active] class included), nothing of the
    rest of the page -- and the recorded tab then decides the visibility
    of the highlight items of the next result shown: when [showResults]
    gets as far as rendering them (the percentages convert, and so do the
    fields of every item), each item is visible exactly when the recorded
    tab is "all" or equals its direction. *)
Theorem filterHighlights_before_first_result :
  forall (w : World) (tab : option string),
    truthy (currentResults w) = false ->
    let w' := after (filterHighlights tab) w in
    fst (filterHighlights tab w) = Normal tt
    /\ currentTab w' = tab
    /\ highlightsGrid w' = highlightsGrid w
    /\ tabButtons w' = tabButtons w
    /\ differs_only_in_tab w w'
    /\ forall data items,
         nullish data = false ->
         percentages_convert data = true ->
         field data "word_highlights" = VArr items ->
         forallb item_renders items = true ->
         highlightsGrid (after (showResults data) w') = rendered_grid tab items
         /\ length (filter visible (highlightsGrid (after (showResults data) w')))
            = length (filter (fun item =>
                                passes_filter tab (field item "direction"))
                             items).
Proof.
  intros w tab Hres w'.
  assert (Hw' : w' = set_currentTab tab w).
  { unfold w', after. rewrite (filterHighlights_without_result tab w Hres).
    reflexivity. }
  rewrite Hw', (filterHighlights_without_result tab w Hres).
  split; [reflexivity|]. split; [reflexivity|]. split; [reflexivity|].
  split; [reflexivity|]. split; [repeat split|].
  intros data items Hd Hp Hwh Hitems.
  rewrite (showResults_grid data items (set_currentTab tab w) Hd Hp Hwh Hitems).
  split; [reflexivity | apply visible_rendered_grid].
Qed.

Lemma filterHighlights_before_first_result_witness :
  truthy (currentResults Samples.analysing) = false
  /\ currentTab (after (filterHighlights (Some "real")) Samples.analysing)
     = Some "real"
  /\ tabButtons (after (filterHighlights (Some "real")) Samples.analysing)
     = tabButtons Samples.analysing
  /\ length (filter visible
       (highlightsGrid
          (after (showResults Samples.first_result)
             (after (filterHighlights (Some "real")) Samples.analysing)))) = 1.
Proof.
  pose proof (filterHighlights_before_first_result
                Samples.analysing (Some "real") eq_refl) as T.
  cbv zeta in T. destruct T as (_ & Tt & _ & Tb & _ & Tn).
  split; [reflexivity|]. split; [exact Tt|]. split; [exact Tb|].
  rewrite (proj2 (Tn Samples.first_result Samples.three
                     eq_refl eq_refl eq_refl eq_refl)).
  reflexivity.
Defined.

(* ================================================================== *)
(** ** Validation *)

Lemma showError_runs message w :
  showError message w = (Normal tt, after (showError message) w).
Proof.
  unfold after, showError, hideLoading, bind, gets, modify.
  destruct (loadingInterval w); reflexivity.
Qed.

Lemma showError_message message w :
  errorMessage (after (showError message) w) = message
  /\ shown (after (showError message) w) = only_error.
Proof.
  unfold after, showError, hideLoading, bind, gets, modify.
  destruct (loadingInterval w); split; reflexivity.
Qed.

Lemma reject_runs message w :
  (showError message ;; ret false) w
  = (Normal false, after (showError message) w).
Proof. unfold bind. rewrite showError_runs. reflexivity. Qed.

Lemma validateInputs_refines title text w :
  validateInputs title text w =
  match validate_spec title text with
  | None => (Normal true, w)
  | Some message => (Normal false, after (showError message) w)
  end.
Proof.
  unfold validateInputs, validate_spec.
  destruct (strlen title <? 5)%N; [apply reject_runs|].
  destruct (500 <? strlen title)%N; [apply reject_runs|].
  destruct (strlen text <? 20)%N; [apply reject_runs|].
  destruct (10000 <? strlen text)%N; [apply reject_runs|].
  reflexivity.
Qed.

Lemma handleFormSubmit_begin_validates w :
  isAnalyzing w = false ->
  match validate_spec (trim (newsTitle w)) (trim (newsText w)) with
  | None =>
      fst (handleFormSubmit_begin w)
      = Normal (Awaiting (trim (newsTitle w)) (trim (newsText w)))
  | Some message =>
      handleFormSubmit_begin w = (Normal Invalid, after (showError message) w)
  end.
Proof.
  intros Hidle.
  destruct (validate_spec _ _) as [message|] eqn:V;
    unfold handleFormSubmit_begin, bind, gets; cbv beta;
    rewrite Hidle, validateInputs_refines, V; reflexivity.
Qed.

(** C3.  On the trimmed title and text, [validateInputs] returns [true],
    leaving the page alone, exactly when the title length is in [5,500]
    and the text length in [20,10000]; otherwise it returns [false] after
    showing the message of the first rule that fails, the rules being
    taken in the order: title too short, title too long, text too short,
    text too long.  It agrees with the validator of the specification
    ([validate_spec]), and [handleFormSubmit] applies it to the trimmed
    field values. *)
Theorem validateInputs_accepts_exactly_the_ranges :
  forall (title text : string) (w : World),
    let reject message := (Normal false, after (showError message) w) in
    ((5 <= strlen title <= 500 /\ 20 <= strlen text <= 10000)%N
       <-> validateInputs title text w = (Normal true, w))
    /\ ((strlen title < 5)%N ->
        validateInputs title text w
        = reject "Title must be at least 5 characters long")
    /\ ((5 <= strlen title)%N -> (500 < strlen title)%N ->
        validateInputs title text w
        = reject "Title must be less than 500 characters")
    /\ ((5 <= strlen title <= 500)%N -> (strlen text < 20)%N ->
        validateInputs title text w
        = reject "Article text must be at least 20 characters long")
    /\ ((5 <= strlen title <= 500)%N -> (20 <= strlen text)%N ->
        (10000 < strlen text)%N ->
        validateInputs title text w
        = reject "Article text must be less than 10,000 characters")
    /\ (forall message,
          errorMessage (after (showError message) w) = message)
    /\ validateInputs title text w
       = match validate_spec title text with
         | None => (Normal true, w)
         | Some message => reject message
         end
    /\ (isAnalyzing w = false ->
        match validate_spec (trim (newsTitle w)) (trim (newsText w)) with
        | None =>
            fst (handleFormSubmit_begin w)
            = Normal (Awaiting (trim (newsTitle w)) (trim (newsText w)))
        | Some message =>
            handleFormSubmit_begin w
            = (Normal Invalid, after (showError message) w)
        end).
Proof.
  intros title text w reject. unfold reject.
  rewrite validateInputs_refines. unfold validate_spec.
  destruct (strlen title <? 5)%N eqn:E1;
    [apply N.ltb_lt in E1 | apply N.ltb_ge in E1];
  (destruct (500 <? strlen title)%N eqn:E2;
    [apply N.ltb_lt in E2 | apply N.ltb_ge in E2]);
  (destruct (strlen text <? 20)%N eqn:E3;
    [apply N.ltb_lt in E3 | apply N.ltb_ge in E3]);
  (destruct (10000 <? strlen text)%N eqn:E4;
    [apply N.ltb_lt in E4 | apply N.ltb_ge in E4]);
  (split; [split; [intros ?; first [reflexivity | lia]
                  | intros ?; first [discriminate | lia]] | ]);
  (split; [intros; first [reflexivity | lia] | ]);
  (split; [intros; first [reflexivity | lia] | ]);
  (split; [intros; first [reflexivity | lia] | ]);
  (split; [intros; first [reflexivity | lia] | ]);
  (split; [intros; apply showError_message | ]);
  (split; [reflexivity | ]);
  apply handleFormSubmit_begin_validates.
Qed.

Lemma validateInputs_accepts_exactly_the_ranges_witness :
  (strlen "Too" < 5)%N
  /\ validateInputs "Too" "Anonymous sources reveal." Samples.analysing
     = (Normal false,
        after (showError "Title must be at least 5 characters long")
              Samples.analysing)
  /\ (5 <= strlen "Miracle cure" <= 500)%N
  /\ (strlen "Too short." < 20)%N
  /\ validateInputs "Miracle cure" "Too short." Samples.analysing
     = (Normal false,
        after (showError "Article text must be at least 20 characters long")
              Samples.analysing).
Proof.
  assert (H1 : (strlen "Too" < 5)%N) by (vm_compute; reflexivity).
  assert (H2 : (5 <= strlen "Miracle cure" <= 500)%N)
    by (split; vm_compute; discriminate).
  assert (H3 : (strlen "Too short." < 20)%N) by (vm_compute; reflexivity).
  split; [exact H1|]. split.
  - exact (proj1 (proj2 (validateInputs_accepts_exactly_the_ranges
                           "Too" "Anonymous sources reveal."
                           Samples.analysing)) H1).
  - split; [exact H2|]. split; [exact H3|].
    exact (proj1 (proj2 (proj2 (proj2
             (validateInputs_accepts_exactly_the_ranges
                "Miracle cure" "Too short." Samples.analysing)))) H2 H3).
Defined.

(* ================================================================== *)
(** ** Transport *)

(** C4 as amended.  When [fetch] is still pending as the configured
    timeout elapses (no response has come by then, not even its status
    line: it comes later, or never), the abort fires and [detectFakeNews]
    resolves -- it does not stay pending, and it does not surface the
    AbortError -- with the failure outcome carrying the timeout message,
    which [handleFormSubmit] then shows in the error section. *)
Theorem detectFakeNews_times_out :
  forall (this : TruthLensAPI) (net : network),
    arrives_within (timeout this) net = false ->
    fetch (timeout this) net = Rejected AbortError
    /\ detectFakeNews this net = Some (Failure timeout_message)
    /\ timeout_message
       = "Request timed out. The analysis is taking longer than expected."
    /\ timeout_message <> err_message AbortError
    /\ forall w,
         errorMessage
           (after (handleFormSubmit_resume (Failure timeout_message)) w)
         = timeout_message.
Proof.
  intros this net Hlate. split; [|split; [|split; [|split]]].
  - unfold fetch.
    destruct net as [at_ms r|at_ms e|]; simpl in Hlate;
      try rewrite Hlate; reflexivity.
  - unfold detectFakeNews, makeRequest, makeRequest_try, fetch.
    destruct net as [at_ms r|at_ms e|]; simpl in Hlate;
      try rewrite Hlate; reflexivity.
  - reflexivity.
  - discriminate.
  - intros w. unfold handleFormSubmit_resume, try_finally, try_catch, after.
    rewrite showError_runs. simpl.
    apply showError_message.
Qed.

Lemma detectFakeNews_times_out_witness :
  arrives_within (timeout api)
    (Responds 600001 {| status := 200; body := BodyJson Samples.first_result |})
  = false
  /\ detectFakeNews api
       (Responds 600001
          {| status := 200; body := BodyJson Samples.first_result |})
     = Some (Failure timeout_message)
  /\ arrives_within (timeout api) Silent = false
  /\ detectFakeNews api Silent = Some (Failure timeout_message).
Proof.
  split; [reflexivity|]. split.
  - exact (proj1 (proj2 (detectFakeNews_times_out api
                           (Responds 600001
                              {| status := 200;
                                 body := BodyJson Samples.first_result |})
                           eq_refl))).
  - split; [reflexivity|].
    exact (proj1 (proj2 (detectFakeNews_times_out api Silent eq_refl))).
Defined.

(** The timer bounds the wait for [fetch] only.  Once [fetch] has
    resolved the timer is cleared, and [response.json()] is awaited
    without it: a response that has come in time and whose body never
    completes leaves [detectFakeNews] pending. *)
Remark body_read_is_not_bounded :
  forall (this : TruthLensAPI) (at_ms code : N),
    (at_ms <=? timeout this)%N = true ->
    detectFakeNews this
      (Responds at_ms {| status := code; body := BodyStalls |})
    = None.
Proof.
  intros this at_ms code Hin.
  unfold detectFakeNews, makeRequest, makeRequest_try, fetch, await_json.
  rewrite Hin. simpl. destruct (negb _); reflexivity.
Qed.

(** C4 as stated fails.  The status line and the headers of a 200
    response come after 150 ms, well within the timeout, and its body
    never completes.  [fetch] has resolved and the timer is cleared, so
    nothing aborts the reading of the body: the call does not resolve,
    within the timeout or ever.  No timeout failure is produced,
    [detectFakeNews] stays pending, and the page stays on the loading
    section with [isAnalyzing] set. *)
Lemma stalled_body_is_never_timed_out :
  let stalled := Responds 150 {| status := 200; body := BodyStalls |} in
  fetch (timeout api) stalled
  = Resolved {| status := 200; body := BodyStalls |}
  /\ makeRequest api stalled = Pending
  /\ detectFakeNews api stalled = None
  /\ detectFakeNews api stalled <> Some (Failure timeout_message)
  /\ isAnalyzing Samples.analysing = true
  /\ in_flight Samples.analysing = 1
  /\ dispatch (TransportSettles stalled) Samples.analysing = Samples.analysing
  /\ shown (dispatch (TransportSettles stalled) Samples.analysing)
     = only_loading.
Proof.
  cbv zeta. repeat split; try (vm_compute; reflexivity).
  vm_compute. discriminate.
Qed.




(* ================================================================== *)
(** ** The analysis flag *)

Lemma handleFormSubmit_resume_runs result w :
  fst (handleFormSubmit_resume result w) = Normal tt
  /\ isAnalyzing (after (handleFormSubmit_resume result) w) = false.
Proof.
  unfold handleFormSubmit_resume, try_finally, try_catch, after, modify.
  destruct result as [data|message].
  - destruct (showResults data w) as [[u|e] w1].
    + destruct u. split; reflexivity.
    + rewrite showError_runs. split; reflexivity.
  - rewrite showError_runs. split; reflexivity.
Qed.

Lemma handleFormSubmit_resume_unexpected data e w w1 :
  showResults data w = (Throw e, w1) ->
  errorMessage (after (handleFormSubmit_resume (Success data)) w)
  = "An unexpected error occurred. Please try again.".
Proof.
  intros H.
  unfold handleFormSubmit_resume, try_finally, try_catch, after, modify.
  rewrite H, showError_runs. simpl. apply showError_message.
Qed.

(** C2.  A submit that passes validation sets [isAnalyzing]; whatever
    the world is by the time the transport's promise resolves, and
    whatever outcome it resolves with, the rest of [handleFormSubmit]
    completes with [isAnalyzing] false: after a success that renders,
    after a failure, and after a success whose rendering throws (the
    [catch] then shows the "unexpected error" message).  In the event
    loop: once the transport settles, the flag is down. *)
Theorem isAnalyzing_is_always_cleared :
  forall (w w1 : World) (title text : string),
    handleFormSubmit_begin w = (Normal (Awaiting title text), w1) ->
    isAnalyzing w1 = true
    /\ (forall w2 result,
          fst (handleFormSubmit_resume result w2) = Normal tt
          /\ isAnalyzing (after (handleFormSubmit_resume result) w2) = false)
    /\ (forall w2 data e w3,
          showResults data w2 = (Throw e, w3) ->
          errorMessage (after (handleFormSubmit_resume (Success data)) w2)
          = "An unexpected error occurred. Please try again."
          /\ isAnalyzing (after (handleFormSubmit_resume (Success data)) w2)
             = false)
    /\ (forall net result,
          detectFakeNews api net = Some result ->
          isAnalyzing (dispatch (TransportSettles net) w1) = false).
Proof.
  intros w w1 title text Hbegin.
  assert (Hflag : isAnalyzing w1 = true /\ in_flight w1 = S (in_flight w)).
  { revert Hbegin. unfold handleFormSubmit_begin, bind, gets. cbv beta.
    destruct (isAnalyzing w); [discriminate|].
    rewrite validateInputs_refines.
    destruct (validate_spec _ _); [discriminate|].
    simpl. intros H. injection H as _ _ <-. split; reflexivity. }
  destruct Hflag as [Hflag Hfl].
  split; [exact Hflag|]. split; [|split].
  - intros w2 result. apply handleFormSubmit_resume_runs.
  - intros w2 data e w3 Hthrow. split.
    + apply (handleFormSubmit_resume_unexpected data e w2 w3 Hthrow).
    + apply handleFormSubmit_resume_runs.
  - intros net result Hnet. unfold dispatch, handle.
    rewrite after_bind. unfold gets. rewrite Hfl, Hnet.
    rewrite after_seq by (unfold settle_one; apply completes_modify).
    apply handleFormSubmit_resume_runs.
Qed.

(** An analysis is started; the answer is [null], on which rendering
    throws: the flag is cleared all the same. *)
Lemma isAnalyzing_is_always_cleared_witness :
  handleFormSubmit_begin Samples.article_typed
  = (Normal (Awaiting "Miracle cure found"
               "Anonymous sources reveal the shocking truth about it."),
     Samples.analysing)
  /\ isAnalyzing Samples.analysing = true
  /\ isAnalyzing
       (after (handleFormSubmit_resume (Success (VStr "not an object")))
              Samples.analysing) = false
  /\ errorMessage
       (after (handleFormSubmit_resume (Success (VStr "not an object")))
              Samples.analysing)
     = "An unexpected error occurred. Please try again.".
Proof.
  assert (H : handleFormSubmit_begin Samples.article_typed
              = (Normal (Awaiting "Miracle cure found"
                   "Anonymous sources reveal the shocking truth about it."),
                 Samples.analysing)) by (vm_compute; reflexivity).
  destruct (isAnalyzing_is_always_cleared _ _ _ _ H) as (T1 & T2 & T3 & _).
  split; [exact H|]. split; [exact T1|]. split.
  - exact (proj2 (T2 Samples.analysing (Success (VStr "not an object")))).
  - refine (proj1 (T3 Samples.analysing (VStr "not an object") _ _ _)).
    vm_compute. reflexivity.
Defined.

(* ================================================================== *)
(** ** The invariant of the event loop *)

Lemma consistent_gist w w' :
  gist w' = gist w -> consistent w -> consistent w'.
Proof.
  unfold gist. intros H [I1 I2 I3 I4].
  injection H as Hr Hl Hs Ha Hf.
  constructor.
  - rewrite Hr, Hl. exact I1.
  - unfold in_loading. rewrite Hl, Hs. exact I2.
  - rewrite Hl, Ha. exact I3.
  - rewrite Hf, Ha. exact I4.
Qed.

Lemma steady_gist {A} (c : js A) : stable steady c -> stable gist c.
Proof.
  intros H w. specialize (H w). unfold steady in H. unfold gist. congruence.
Qed.

Lemma quiet_consistent w :
  quiet w -> in_flight w = (if isAnalyzing w then 1 else 0) -> consistent w.
Proof.
  intros [Hr Hl] Hf. constructor.
  - rewrite Hr. intros t [].
  - rewrite Hl. discriminate.
  - intros _. exact Hl.
  - exact Hf.
Qed.

Lemma hideLoading_settles : settles hideLoading.
Proof.
  intros w H. split; [split|].
  - apply hideLoading_clears_rotation. exact H.
  - apply hideLoading_clears_field.
  - pose proof (hideLoading_frame w) as F. unfold beyond_timers in F.
    split; congruence.
Qed.

Lemma settles_then {A} (k : js A) :
  stable (fun w => (rotation_timers w, loadingInterval w,
                    isAnalyzing w, in_flight w)) k ->
  settles (hideLoading ;; k).
Proof.
  intros Hk w H.
  rewrite (after_seq hideLoading k w hideLoading_completes).
  destruct (hideLoading_settles w H) as ([Hr Hl] & Ha & Hf).
  specialize (Hk (after hideLoading w)). unfold quiet.
  injection Hk as Kr Kl Ka Kf.
  repeat split; congruence.
Qed.

Lemma showError_settles message : settles (showError message).
Proof.
  unfold showError. apply settles_then. repeat stable_step.
Qed.

Lemma resetToForm_settles : settles resetToForm.
Proof.
  unfold resetToForm. apply settles_then. repeat stable_step.
Qed.

Lemma showResults_settles data : settles (showResults data).
Proof.
  unfold showResults. apply settles_then.
  apply stable_bind; [apply stable_modify; reflexivity | intros _].
  apply stable_bind; [apply stable_modify; reflexivity | intros _].
  intros w. pose proof (updates_steady data w) as H.
  unfold steady, updates in H. cbv beta. congruence.
Qed.

Lemma quiet_held w :
  quiet w ->
  forall t, In t (rotation_timers w) -> loadingInterval w = Some (timer_id t).
Proof. intros [Hr _] t. rewrite Hr. intros []. Qed.

Lemma handleFormSubmit_resume_settles result w :
  (forall t, In t (rotation_timers w) ->
             loadingInterval w = Some (timer_id t)) ->
  quiet (after (handleFormSubmit_resume result) w)
  /\ isAnalyzing (after (handleFormSubmit_resume result) w) = false
  /\ in_flight (after (handleFormSubmit_resume result) w) = in_flight w.
Proof.
  intros H.
  assert (Hbody : exists body : js unit,
             settles body /\
             handleFormSubmit_resume result =
             try_finally
               (try_catch body
                  (fun _ => showError
                     "An unexpected error occurred. Please try again."))
               (modify (set_isAnalyzing false))).
  { destruct result as [data|message].
    - exists (showResults data). split;
        [apply showResults_settles | reflexivity].
    - exists (showError message). split;
        [apply showError_settles | reflexivity]. }
  destruct Hbody as (body & Hsettles & ->).
  destruct (Hsettles w H) as (Hq & Ha & Hf).
  unfold try_finally, try_catch, modify, after in *.
  destruct (body w) as [[u|e] w1]; simpl in *.
  - repeat split; try apply Hq. exact Hf.
  - rewrite showError_runs. simpl.
    destruct (showError_settles
                "An unexpected error occurred. Please try again." w1
                (quiet_held w1 Hq)) as (Hq' & Ha' & Hf').
    unfold after in *. repeat split; try apply Hq'. congruence.
Qed.

Lemma handleFormSubmit_begin_cases w :
  handleFormSubmit_begin w =
  if isAnalyzing w then (Normal Ignored, w)
  else
    let title := trim (newsTitle w) in
    let text := trim (newsText w) in
    match validate_spec title text with
    | Some message => (Normal Invalid, after (showError message) w)
    | None =>
        (Normal (Awaiting title text),
         after (issue_detect api title text)
           (after showLoading (set_isAnalyzing true w)))
    end.
Proof.
  unfold handleFormSubmit_begin, bind, gets. cbv beta zeta.
  destruct (isAnalyzing w); [reflexivity|].
  rewrite validateInputs_refines.
  destruct (validate_spec _ _); reflexivity.
Qed.

Lemma consistent_idle_quiet w :
  consistent w -> isAnalyzing w = false -> quiet w.
Proof.
  intros [I1 _ I3 _] Hidle. specialize (I3 Hidle). split; [|exact I3].
  destruct (rotation_timers w) as [|t rest] eqn:E; [reflexivity|].
  specialize (I1 t (or_introl eq_refl)). congruence.
Qed.

Lemma begin_preserves w :
  consistent w -> consistent (after handleFormSubmit_begin w).
Proof.
  intros Hc. unfold after. rewrite handleFormSubmit_begin_cases.
  destruct (isAnalyzing w) eqn:Hflag; [exact Hc|].
  pose proof (consistent_idle_quiet w Hc Hflag) as [Hr Hl].
  pose proof (one_in_flight w Hc) as Hf. rewrite Hflag in Hf.
  cbv zeta. destruct (validate_spec _ _) as [message|]; simpl snd.
  - destruct (showError_settles message w (rotation_is_held w Hc))
      as (Hq & Ha & Hf').
    apply quiet_consistent; [exact Hq|]. rewrite Ha, Hf', Hflag. exact Hf.
  - constructor.
    + unfold rotation_timers in *. simpl. rewrite Hr.
      intros t [<- | []]. reflexivity.
    + intros id _. reflexivity.
    + simpl. discriminate.
    + simpl. rewrite Hf. reflexivity.
Qed.

Lemma settle_preserves net w :
  consistent w -> consistent (dispatch (TransportSettles net) w).
Proof.
  intros Hc. unfold dispatch, handle. rewrite after_bind. unfold gets.
  destruct (in_flight w) as [|n] eqn:Hn; [exact Hc|].
  destruct (detectFakeNews api net) as [result|]; [|exact Hc].
  rewrite after_seq by (unfold settle_one; apply completes_modify).
  set (w1 := after settle_one w).
  assert (Hbusy : isAnalyzing w = true).
  { pose proof (one_in_flight w Hc) as Hf.
    destruct (isAnalyzing w); [reflexivity | congruence]. }
  assert (Hone : in_flight w = 1).
  { pose proof (one_in_flight w Hc) as Hf. rewrite Hbusy in Hf. exact Hf. }
  destruct (handleFormSubmit_resume_settles result w1
              (rotation_is_held w Hc)) as (Hq & Ha & Hf).
  apply quiet_consistent; [exact Hq|].
  rewrite Ha, Hf. unfold w1, after, settle_one, modify. simpl.
  rewrite Hone. reflexivity.
Qed.

Lemma filterHighlights_gist tab : stable gist (filterHighlights tab).
Proof.
  unfold filterHighlights. repeat stable_step.
  destruct (negb _); repeat stable_step.
Qed.

Lemma find_interval_In id l t :
  find_interval id l = Some t -> In t l /\ timer_id t = id.
Proof.
  induction l as [|x l IH]; simpl; [discriminate|].
  destruct (timer_id x =? id)%positive eqn:E.
  - intros H. injection H as <-. apply Pos.eqb_eq in E. auto.
  - intros H. destruct (IH H). auto.
Qed.

Lemma tick_preserves id done w :
  consistent w -> consistent (dispatch (IntervalFires id done) w).
Proof.
  intros Hc. unfold dispatch, handle. rewrite after_bind. unfold gets.
  destruct (find_interval id (intervals w)) as [t0|] eqn:Hfind; [|exact Hc].
  destruct (find_interval_In _ _ _ Hfind) as [Hin Hid].
  destruct (kind t0) as [messageIndex|text] eqn:Hkind.
  - assert (Hheld : loadingInterval w = Some id).
    { rewrite <- Hid. apply (rotation_is_held w Hc).
      apply filter_In. split; [exact Hin|].
      unfold is_rotation. rewrite Hkind. reflexivity. }
    destruct Hc as [I1 I2 I3 I4]. constructor.
    + intros t. unfold after, rotate_message, bind, modify, rotation_timers.
      simpl. rewrite filter_In, in_map_iff.
      intros [(t1 & Ht1 & Hin1) Hrot].
      destruct (timer_id t1 =? id)%positive eqn:E.
      * subst t. simpl. exact Hheld.
      * subst t. apply I1. apply filter_In. split; assumption.
    + exact I2.
    + exact I3.
    + exact I4.
  - destruct done; [|exact Hc].
    destruct Hc as [I1 I2 I3 I4]. constructor.
    + intros t. unfold after, clearInterval, modify, rotation_timers. simpl.
      rewrite !filter_In. intros [[Hint _] Hrot].
      apply I1. apply filter_In. split; assumption.
    + exact I2.
    + exact I3.
    + exact I4.
Qed.

Lemma dispatch_preserves e w :
  consistent w -> consistent (dispatch e w).
Proof.
  intros Hc. destruct e as [title text| |net|tab| |id done].
  - apply (consistent_gist w); [reflexivity | exact Hc].
  - unfold dispatch, handle. rewrite after_bind.
    pose proof (begin_preserves w Hc) as H. unfold after in H.
    destruct (handleFormSubmit_begin w) as [[phase|e] w1]; exact H.
  - apply settle_preserves. exact Hc.
  - apply (consistent_gist w); [apply filterHighlights_gist | exact Hc].
  - destruct (resetToForm_settles w (rotation_is_held w Hc))
      as (Hq & Ha & Hf).
    apply quiet_consistent; [exact Hq|].
    unfold dispatch, handle. rewrite Ha, Hf. apply (one_in_flight w Hc).
  - apply tick_preserves. exact Hc.
Qed.

Lemma consistent_initial page : consistent (initial_world page).
Proof.
  constructor; simpl.
  - intros t [].
  - discriminate.
  - reflexivity.
  - reflexivity.
Qed.

Lemma run_preserves events :
  forall w, consistent w -> consistent (run events w).
Proof.
  induction events as [|e rest IH]; intros w Hc; simpl.
  - exact Hc.
  - apply IH. apply dispatch_preserves. exact Hc.
Qed.

Lemma consistent_run page events :
  consistent (run events (initial_world page)).
Proof. apply run_preserves. apply consistent_initial. Qed.

(* ================================================================== *)
(** ** One analysis at a time; the rotation timer *)

(** C1.  While [isAnalyzing] is true a submit is a no-op:
    [handleFormSubmit] returns at the guard without throwing and leaves
    the whole world as it was -- no request is issued or queued, no
    section changes.  In every state the event loop can reach, one
    analysis request is in flight while [isAnalyzing] is true and none
    otherwise: never more than one. *)
Theorem submit_while_analyzing_is_ignored :
  (forall w : World,
      isAnalyzing w = true ->
      handleFormSubmit_begin w = (Normal Ignored, w)
      /\ dispatch Submit w = w
      /\ requests (dispatch Submit w) = requests w
      /\ in_flight (dispatch Submit w) = in_flight w)
  /\ (forall (page : dom) (events : list event),
        let w := run events (initial_world page) in
        in_flight w = (if isAnalyzing w then 1 else 0)
        /\ in_flight w <= 1
        /\ in_flight (dispatch Submit w) <= 1).
Proof.
  split.
  - intros w Hbusy.
    assert (H : handleFormSubmit_begin w = (Normal Ignored, w)).
    { rewrite handleFormSubmit_begin_cases, Hbusy. reflexivity. }
    assert (Hd : dispatch Submit w = w).
    { unfold dispatch, handle. rewrite after_bind, H. reflexivity. }
    rewrite Hd. repeat split. exact H.
  - intros page events w.
    assert (Hone : forall v, consistent v -> in_flight v <= 1).
    { intros v Hv. rewrite (one_in_flight v Hv).
      destruct (isAnalyzing v); lia. }
    pose proof (consistent_run page events) as Hc. fold w in Hc.
    split; [apply (one_in_flight w Hc)|]. split.
    + apply Hone. exact Hc.
    + apply Hone. apply dispatch_preserves. exact Hc.
Qed.

Lemma submit_while_analyzing_is_ignored_witness :
  isAnalyzing Samples.analysing = true
  /\ dispatch Submit Samples.analysing = Samples.analysing
  /\ length (requests (dispatch Submit Samples.analysing)) = 2
  /\ in_flight (dispatch Submit Samples.analysing) = 1.
Proof.
  destruct (proj1 submit_while_analyzing_is_ignored Samples.analysing eq_refl)
    as (_ & Td & Tr & Tf).
  split; [reflexivity|]. split; [exact Td|]. split.
  - rewrite Tr. reflexivity.
  - rewrite Tf. reflexivity.
Defined.

(** C6.  In every state the event loop can reach: if the loading
    section is not the one showing, no message-rotation timer is set;
    each of [showResults], [showError] and [resetToForm] leaves no
    rotation timer set and [loadingInterval] empty; and a submit that
    starts an analysis shows the loading section with exactly one
    rotation timer set, of period 30000 ms, held in [loadingInterval]. *)
Theorem rotation_timer_is_cancelled_on_leaving_loading :
  forall (page : dom) (events : list event),
    let w := run events (initial_world page) in
    (in_loading w = false -> rotation_timers w = [])
    /\ (forall data, quiet (after (showResults data) w))
    /\ (forall message, quiet (after (showError message) w))
    /\ quiet (after resetToForm w)
    /\ (forall title text w1,
          handleFormSubmit_begin w = (Normal (Awaiting title text), w1) ->
          in_loading w1 = true
          /\ loadingInterval w1 = Some (next_timer w)
          /\ rotation_timers w1
             = [ {| timer_id := next_timer w; period_ms := 30000;
                    kind := MessageRotation 0 |} ]).
Proof.
  intros page events w.
  pose proof (consistent_run page events) as Hc. fold w in Hc.
  split; [|split; [|split; [|split]]].
  - intros Hnot.
    destruct (rotation_timers w) as [|t rest] eqn:E; [reflexivity|].
    pose proof (rotation_is_held w Hc t) as Hheld. rewrite E in Hheld.
    specialize (Hheld (or_introl eq_refl)).
    pose proof (held_while_loading w Hc _ Hheld). congruence.
  - intros data. apply showResults_settles. apply (rotation_is_held w Hc).
  - intros message. apply showError_settles. apply (rotation_is_held w Hc).
  - apply resetToForm_settles. apply (rotation_is_held w Hc).
  - intros title text w1. rewrite handleFormSubmit_begin_cases.
    destruct (isAnalyzing w) eqn:Hflag; [discriminate|].
    cbv zeta. destruct (validate_spec _ _); [discriminate|].
    intros H. injection H as _ _ <-.
    destruct (consistent_idle_quiet w Hc Hflag) as [Hr _].
    split; [reflexivity|]. split; [reflexivity|].
    unfold rotation_timers in *. simpl. rewrite Hr. reflexivity.
Qed.

Lemma rotation_timer_is_cancelled_on_leaving_loading_witness :
  in_loading Samples.showing_first = false
  /\ rotation_timers Samples.showing_first = []
  /\ rotation_timers Samples.analysing
     = [ {| timer_id := 2; period_ms := 30000; kind := MessageRotation 0 |} ].
Proof.
  assert (E : run (Samples.submit_article
                   ++ [TransportSettles (Samples.answers Samples.first_result)])
                  (initial_world Samples.page)
              = Samples.showing_first) by (vm_compute; reflexivity).
  assert (H : in_loading Samples.showing_first = false)
    by (vm_compute; reflexivity).
  pose proof (rotation_timer_is_cancelled_on_leaving_loading Samples.page
                (Samples.submit_article
                 ++ [TransportSettles (Samples.answers Samples.first_result)]))
    as T.
  cbv zeta in T. rewrite E in T. destruct T as (T1 & _).
  assert (B : handleFormSubmit_begin Samples.article_typed
              = (Normal (Awaiting "Miracle cure found"
                   "Anonymous sources reveal the shocking truth about it."),
                 Samples.analysing)) by (vm_compute; reflexivity).
  pose proof (rotation_timer_is_cancelled_on_leaving_loading Samples.page
                [UserEdits "  Miracle cure found  "
                   "Anonymous sources reveal the shocking truth about it."])
    as U.
  cbv zeta in U. destruct U as (_ & _ & _ & _ & U5).
  split; [exact H|]. split.
  - exact (T1 H).
  - exact (proj2 (proj2 (U5 _ _ _ B))).
Defined.

(* ================================================================== *)
(** ** Transport: outcomes *)




(** X2.  [checkHealth] and [detectFakeNews] give the same outcome for the
    same behaviour of the network, except on a body that parses to
    [null]: [checkHealth] reports it as a success with [null] data,
    [detectFakeNews] as a failure carrying the TypeError of its log line. *)
Theorem detectFakeNews_agrees_with_checkHealth :
  forall (this : TruthLensAPI) (net : network),
    detectFakeNews this net =
    match checkHealth this net with
    | Some (Success data) =>
        match get_prop data "prediction" with
        | inl e => Some (Failure (err_message e))
        | inr _ => Some (Success data)
        end
    | other => other
    end
    /\ (checkHealth this net <> Some (Success VNull) ->
        checkHealth this net <> Some (Success VUndefined) ->
        detectFakeNews this net = checkHealth this net).
Proof.
  intros this net. unfold detectFakeNews, checkHealth.
  destruct (makeRequest this net) as [response|e|]; split;
    try reflexivity; try (intros; reflexivity).
  - destruct response; reflexivity.
  - intros Hnull Hundef. destruct response; try reflexivity; congruence.
Qed.

Lemma detectFakeNews_agrees_with_checkHealth_witness :
  checkHealth api (Samples.answers VNull) = Some (Success VNull)
  /\ detectFakeNews api (Samples.answers VNull)
     = Some (Failure "Cannot read properties of null (reading 'prediction')")
  /\ detectFakeNews api Silent = checkHealth api Silent.
Proof.
  split; [reflexivity|]. split; [reflexivity|].
  apply (proj2 (detectFakeNews_agrees_with_checkHealth api Silent));
    discriminate.
Defined.

(** X3.  Start-up survives a failed health check: whenever
    [checkHealth] resolves with a failure -- the backend is down, answers
    with an error status, or does not answer within the timeout --
    [init] goes on to install the listeners.  It does not when the health
    endpoint answers 2xx with the body [null] (the log line throws and
    [init] is rejected before [setupEventListeners]), nor when the body of
    a response never completes ([init] never settles). *)
Theorem init_survives_failed_health_check :
  forall (net : network),
    (forall message,
        checkHealth api net = Some (Failure message) ->
        init net = ListenersInstalled)
    /\ (arrives_within (timeout api) net = false ->
        init net = ListenersInstalled)
    /\ (forall at_ms r,
          net = Responds at_ms r -> (at_ms <=? timeout api)%N = true ->
          ok r = true -> body r = BodyJson VNull ->
          exists e, init net = InitRejected e)
    /\ (forall at_ms r,
          net = Responds at_ms r -> (at_ms <=? timeout api)%N = true ->
          body r = BodyStalls -> init net = InitPending)
    /\ (init net = ListenersInstalled <->
        exists result, checkHealth api net = Some result
                       /\ result <> Success VNull
                       /\ result <> Success VUndefined).
Proof.
  intros net. split; [|split; [|split; [|split]]].
  - intros message H. unfold init. rewrite H. reflexivity.
  - intros Hlate. unfold init, checkHealth, makeRequest, makeRequest_try, fetch.
    destruct net as [at_ms r|at_ms e|]; unfold arrives_within in Hlate;
      try rewrite Hlate; reflexivity.
  - intros at_ms r -> Hin Hok Hb. eexists.
    unfold init, checkHealth, makeRequest, makeRequest_try, fetch, await_json.
    rewrite Hin, Hok, Hb. reflexivity.
  - intros at_ms r -> Hin Hb.
    unfold init, checkHealth, makeRequest, makeRequest_try, fetch, await_json.
    rewrite Hin, Hb. destruct (negb (ok r)); reflexivity.
  - unfold init. destruct (checkHealth api net) as [[data|message]|]; split.
    + intros H. exists (Success data). split; [reflexivity|].
      destruct data; simpl in H; try discriminate; split; discriminate.
    + intros (result & Hr & Hnull & Hundef). injection Hr as <-.
      destruct data; simpl; try reflexivity; congruence.
    + intros _. exists (Failure message). repeat split; discriminate.
    + reflexivity.
    + discriminate.
    + intros (result & Hr & _). discriminate.
Qed.

Lemma init_survives_failed_health_check_witness :
  checkHealth api (Fails 30 (TypeError "Failed to fetch"))
  = Some (Failure "Failed to fetch")
  /\ init (Fails 30 (TypeError "Failed to fetch")) = ListenersInstalled
  /\ init Silent = ListenersInstalled
  /\ init (Samples.answers VNull)
     = InitRejected
         (TypeError "Cannot read properties of null (reading 'is_model_loaded')").
Proof.
  split; [reflexivity|]. split.
  - exact (proj1 (init_survives_failed_health_check
                    (Fails 30 (TypeError "Failed to fetch")))
                 "Failed to fetch" eq_refl).
  - split.
    + exact (proj1 (proj2 (init_survives_failed_health_check Silent)) eq_refl).
    + reflexivity.
Defined.

(* ================================================================== *)
(** ** Submitting *)

Lemma validate_spec_ok_iff title text :
  validate_spec title text = None <->
  (5 <= strlen title <= 500 /\ 20 <= strlen text <= 10000)%N.
Proof.
  unfold validate_spec.
  destruct (strlen title <? 5)%N eqn:E1;
    [apply N.ltb_lt in E1 | apply N.ltb_ge in E1];
  (destruct (500 <? strlen title)%N eqn:E2;
    [apply N.ltb_lt in E2 | apply N.ltb_ge in E2]);
  (destruct (strlen text <? 20)%N eqn:E3;
    [apply N.ltb_lt in E3 | apply N.ltb_ge in E3]);
  (destruct (10000 <? strlen text)%N eqn:E4;
    [apply N.ltb_lt in E4 | apply N.ltb_ge in E4]);
  split; intros H; first [discriminate | reflexivity | lia].
Qed.

Lemma showError_effect message w :
  let w' := after (showError message) w in
  shown w' = only_error /\ errorMessage w' = message
  /\ loadingInterval w' = None
  /\ requests w' = requests w /\ in_flight w' = in_flight w
  /\ isAnalyzing w' = isAnalyzing w
  /\ newsTitle w' = newsTitle w /\ newsText w' = newsText w
  /\ currentTab w' = currentTab w /\ currentResults w' = currentResults w
  /\ highlightsGrid w' = highlightsGrid w.
Proof.
  cbv zeta. unfold after, showError, hideLoading, bind, gets, modify.
  destruct (loadingInterval w) eqn:E; simpl; rewrite ?E; repeat split.
Qed.

(** X4.  A submit whose trimmed title or text is out of range, made
    while no analysis runs, is answered on the spot: the error section
    shows one of the four validation messages, no request is issued or
    counted in flight, [isAnalyzing] stays false, and what the user typed
    stays in the two fields. *)
Theorem rejected_submit_issues_no_request :
  forall (w : World),
    isAnalyzing w = false ->
    ~ ((5 <= strlen (trim (newsTitle w)) <= 500
        /\ 20 <= strlen (trim (newsText w)) <= 10000)%N) ->
    let w' := dispatch Submit w in
    fst (handleFormSubmit_begin w) = Normal Invalid
    /\ shown w' = only_error
    /\ In (errorMessage w')
          [ "Title must be at least 5 characters long";
            "Title must be less than 500 characters";
            "Article text must be at least 20 characters long";
            "Article text must be less than 10,000 characters" ]
    /\ requests w' = requests w
    /\ in_flight w' = in_flight w
    /\ isAnalyzing w' = false
    /\ newsTitle w' = newsTitle w
    /\ newsText w' = newsText w.
Proof.
  intros w Hidle Hout w'.
  assert (Hd : w' = after handleFormSubmit_begin w).
  { unfold w', dispatch, handle. rewrite after_bind. unfold after.
    destruct (handleFormSubmit_begin w) as [[p|e] w1]; reflexivity. }
  rewrite Hd. unfold after. rewrite handleFormSubmit_begin_cases, Hidle.
  cbv zeta.
  destruct (validate_spec _ _) as [message|] eqn:V.
  - simpl fst. simpl snd.
    destruct (showError_effect message w)
      as (Hs & Hm & _ & Hr & Hf & Ha & Ht & Hx & _).
    split; [reflexivity|]. split; [exact Hs|]. split.
    { rewrite Hm. revert V. unfold validate_spec.
      repeat match goal with
             | |- context [if ?b then _ else _] => destruct b
             end; intros V; try discriminate; injection V as <-;
        simpl; auto 6. }
    split; [exact Hr|]. split; [exact Hf|].
    split; [congruence|]. split; [exact Ht | exact Hx].
  - apply validate_spec_ok_iff in V. contradiction.
Qed.

Lemma rejected_submit_issues_no_request_witness :
  let w := dispatch ResetClick Samples.showing_first in
  isAnalyzing w = false
  /\ shown (dispatch Submit w) = only_error
  /\ requests (dispatch Submit w) = requests w.
Proof.
  cbv zeta.
  assert (H1 : isAnalyzing (dispatch ResetClick Samples.showing_first) = false)
    by (vm_compute; reflexivity).
  assert (H2 : ~ ((5 <= strlen (trim (newsTitle
                            (dispatch ResetClick Samples.showing_first))) <= 500
                   /\ 20 <= strlen (trim (newsText
                            (dispatch ResetClick Samples.showing_first)))
                      <= 10000)%N)).
  { assert (E : newsTitle (dispatch ResetClick Samples.showing_first) = "")
      by (vm_compute; reflexivity).
    rewrite E. vm_compute. intros [[H _] _]. apply H. reflexivity. }
  destruct (rejected_submit_issues_no_request _ H1 H2)
    as (_ & Ts & _ & Tr & _).
  split; [exact H1|]. split; [exact Ts | exact Tr].
Defined.

Lemma dispatch_Submit w :
  dispatch Submit w = after handleFormSubmit_begin w.
Proof.
  unfold dispatch, handle. rewrite after_bind. unfold after.
  destruct (handleFormSubmit_begin w) as [[p|e] w1]; reflexivity.
Qed.

(** X5.  A submit whose trimmed title and text are in range, made while
    no analysis runs, issues exactly one request: a POST to
    [http://localhost:8000/api/detect] whose payload holds the trimmed
    title and text (the fields keep what was typed, untrimmed); the
    loading section shows, [isAnalyzing] is set, and the result stored
    from an earlier analysis is still in place. *)
Theorem accepted_submit_posts_trimmed_article :
  forall (w : World),
    isAnalyzing w = false ->
    (5 <= strlen (trim (newsTitle w)) <= 500
     /\ 20 <= strlen (trim (newsText w)) <= 10000)%N ->
    let w' := dispatch Submit w in
    requests w'
    = {| req_url := "http://localhost:8000/api/detect";
         req_method := "POST";
         req_payload :=
           Some (VObj [("title", VStr (trim (newsTitle w)));
                       ("text", VStr (trim (newsText w)))]) |}
      :: requests w
    /\ in_flight w' = S (in_flight w)
    /\ isAnalyzing w' = true
    /\ shown w' = only_loading
    /\ newsTitle w' = newsTitle w
    /\ newsText w' = newsText w
    /\ currentResults w' = currentResults w
    /\ highlightsGrid w' = highlightsGrid w.
Proof.
  intros w Hidle Hrange w'. unfold w'.
  rewrite dispatch_Submit. unfold after.
  rewrite handleFormSubmit_begin_cases, Hidle. cbv zeta.
  apply validate_spec_ok_iff in Hrange. rewrite Hrange.
  repeat split.
Qed.

Lemma accepted_submit_posts_trimmed_article_witness :
  isAnalyzing Samples.article_typed = false
  /\ newsTitle Samples.article_typed = "  Miracle cure found  "
  /\ requests (dispatch Submit Samples.article_typed)
     = {| req_url := "http://localhost:8000/api/detect";
          req_method := "POST";
          req_payload :=
            Some (VObj [("title", VStr "Miracle cure found");
                        ("text", VStr "Anonymous sources reveal the shocking truth about it.")]) |}
       :: requests Samples.article_typed.
Proof.
  assert (H1 : isAnalyzing Samples.article_typed = false)
    by (vm_compute; reflexivity).
  assert (H2 : (5 <= strlen (trim (newsTitle Samples.article_typed)) <= 500
                /\ 20 <= strlen (trim (newsText Samples.article_typed))
                   <= 10000)%N)
    by (vm_compute; repeat split; discriminate).
  destruct (accepted_submit_posts_trimmed_article _ H1 H2) as (T & _).
  split; [exact H1|]. split; [vm_compute; reflexivity|].
  rewrite T. vm_compute. reflexivity.
Defined.

Lemma trim_start_all_space s : all_space s = true -> trim_start s = "".
Proof.
  induction s as [|c rest IH]; simpl; [reflexivity|].
  intros H. apply andb_prop in H. destruct H as [Hc Hrest].
  rewrite Hc. apply IH. exact Hrest.
Qed.

Lemma trim_all_space s : all_space s = true -> trim s = "".
Proof. intros H. unfold trim. rewrite (trim_start_all_space s H). reflexivity. Qed.

Lemma trim_start_length s :
  (String.length (trim_start s) <= String.length s)%nat.
Proof.
  induction s as [|c rest IH]; simpl; [lia|].
  destruct (is_js_space c); simpl; lia.
Qed.

Lemma trim_end_length s :
  (String.length (trim_end s) <= String.length s)%nat.
Proof.
  induction s as [|c rest IH]; simpl; [lia|].
  destruct (trim_end rest) as [|c' kept]; simpl in *.
  - destruct (is_js_space c); simpl; lia.
  - lia.
Qed.

Lemma trim_length s : (strlen (trim s) <= strlen s)%N.
Proof.
  unfold strlen, trim.
  pose proof (trim_end_length (trim_start s)).
  pose proof (trim_start_length s). lia.
Qed.

Lemma blank_title_rejected w :
  isAnalyzing w = false -> all_space (newsTitle w) = true ->
  handleFormSubmit_begin w
  = (Normal Invalid,
     after (showError "Title must be at least 5 characters long") w).
Proof.
  intros Hidle Hblank.
  rewrite handleFormSubmit_begin_cases, Hidle. cbv zeta.
  rewrite (trim_all_space _ Hblank). reflexivity.
Qed.

(** X6.  Only the trimmed length counts: a title made of white space
    alone, however long, is rejected as too short; and so is, once the
    title is in range, a text made of white space alone. *)
Theorem blank_fields_are_rejected :
  forall (w : World),
    isAnalyzing w = false ->
    (all_space (newsTitle w) = true ->
     handleFormSubmit_begin w
     = (Normal Invalid,
        after (showError "Title must be at least 5 characters long") w)
     /\ errorMessage (dispatch Submit w)
        = "Title must be at least 5 characters long")
    /\ ((5 <= strlen (trim (newsTitle w)) <= 500)%N ->
        all_space (newsText w) = true ->
        handleFormSubmit_begin w
        = (Normal Invalid,
           after (showError "Article text must be at least 20 characters long")
                 w)
        /\ errorMessage (dispatch Submit w)
           = "Article text must be at least 20 characters long").
Proof.
  intros w Hidle. split.
  - intros Hblank.
    pose proof (blank_title_rejected w Hidle Hblank) as H.
    split; [exact H|].
    rewrite dispatch_Submit. unfold after at 1. rewrite H. simpl snd.
    apply showError_message.
  - intros Htitle Hblank.
    assert (H : handleFormSubmit_begin w
                = (Normal Invalid,
                   after (showError
                            "Article text must be at least 20 characters long")
                         w)).
    { rewrite handleFormSubmit_begin_cases, Hidle. cbv zeta.
      rewrite (trim_all_space _ Hblank). unfold validate_spec.
      destruct (strlen (trim (newsTitle w)) <? 5)%N eqn:E1;
        [apply N.ltb_lt in E1; lia|].
      destruct (500 <? strlen (trim (newsTitle w)))%N eqn:E2;
        [apply N.ltb_lt in E2; lia|].
      reflexivity. }
    split; [exact H|].
    rewrite dispatch_Submit. unfold after at 1. rewrite H. simpl snd.
    apply showError_message.
Qed.

Lemma blank_fields_are_rejected_witness :
  let w := dispatch (UserEdits "          " "irrelevant")
                    (initial_world Samples.page) in
  isAnalyzing w = false
  /\ all_space (newsTitle w) = true
  /\ (10 <= strlen (newsTitle w))%N
  /\ errorMessage (dispatch Submit w)
     = "Title must be at least 5 characters long".
Proof.
  cbv zeta.
  split; [reflexivity|]. split; [reflexivity|].
  split; [vm_compute; discriminate|].
  exact (proj2 (proj1 (blank_fields_are_rejected
                         (dispatch (UserEdits "          " "irrelevant")
                                   (initial_world Samples.page))
                         eq_refl) eq_refl)).
Defined.

Lemma resetToForm_effect w :
  let w' := after resetToForm w in
  shown w' = only_form /\ newsTitle w' = "" /\ newsText w' = ""
  /\ loadingInterval w' = None
  /\ requests w' = requests w /\ in_flight w' = in_flight w
  /\ isAnalyzing w' = isAnalyzing w
  /\ currentTab w' = currentTab w /\ currentResults w' = currentResults w
  /\ highlightsGrid w' = highlightsGrid w
  /\ errorMessage w' = errorMessage w.
Proof.
  cbv zeta. unfold after, resetToForm, hideLoading, bind, gets, modify.
  destruct (loadingInterval w) eqn:E; simpl; rewrite ?E; repeat split.
Qed.

(** X7.  Going back to the form empties both fields but keeps the
    stored result, the rendered highlights and the selected tab; a submit
    right after it (no analysis running) is therefore rejected with the
    title message, and issues no request. *)
Theorem submit_after_reset_is_rejected :
  forall (w : World),
    isAnalyzing w = false ->
    let w1 := dispatch ResetClick w in
    let w2 := dispatch Submit w1 in
    shown w1 = only_form /\ newsTitle w1 = "" /\ newsText w1 = ""
    /\ currentResults w1 = currentResults w
    /\ highlightsGrid w1 = highlightsGrid w
    /\ currentTab w1 = currentTab w
    /\ shown w2 = only_error
    /\ errorMessage w2 = "Title must be at least 5 characters long"
    /\ requests w2 = requests w
    /\ isAnalyzing w2 = false.
Proof.
  intros w Hidle w1 w2.
  destruct (resetToForm_effect w)
    as (Hs & Ht & Hx & _ & Hr & _ & Ha & Htab & Hres & Hg & _).
  change (after resetToForm w) with w1 in *.
  assert (Hidle1 : isAnalyzing w1 = false) by congruence.
  assert (Hblank : all_space (newsTitle w1) = true) by (rewrite Ht; reflexivity).
  pose proof (blank_title_rejected w1 Hidle1 Hblank) as Hb.
  assert (H2 : w2 = after (showError "Title must be at least 5 characters long")
                          w1).
  { unfold w2. rewrite dispatch_Submit. unfold after at 1. rewrite Hb.
    reflexivity. }
  destruct (showError_effect "Title must be at least 5 characters long" w1)
    as (Hs' & Hm' & _ & Hr' & _ & Ha' & _).
  cbv zeta in *. rewrite <- H2 in *.
  repeat split; try assumption; congruence.
Qed.

Lemma submit_after_reset_is_rejected_witness :
  isAnalyzing Samples.showing_first = false
  /\ shown (dispatch Submit (dispatch ResetClick Samples.showing_first))
     = only_error
  /\ currentResults (dispatch ResetClick Samples.showing_first)
     = Samples.first_result.
Proof.
  assert (H1 : isAnalyzing Samples.showing_first = false)
    by (vm_compute; reflexivity).
  destruct (submit_after_reset_is_rejected Samples.showing_first H1)
    as (_ & _ & _ & Tr & _ & _ & Ts & _).
  split; [exact H1|]. split; [exact Ts|].
  rewrite Tr. vm_compute. reflexivity.
Defined.

(* ================================================================== *)
(** ** Rendering a result *)

Lemma forEach_highlight_step item rest index w :
  item_renders item = true ->
  forEach_highlight (item :: rest) index w =
  forEach_highlight rest (S index)
    (after (append_child (render_item (currentTab w) index item)) w).
Proof.
  intros Hitem. unfold item_renders in Hitem.
  apply andb_prop in Hitem. destruct Hitem as [Hitem Hw].
  apply andb_prop in Hitem. destruct Hitem as [Hitem Hi].
  apply andb_prop in Hitem. destruct Hitem as [Hn Hd].
  apply negb_true_iff in Hn.
  destruct (conversion_returns _ Hd) as (Ed & _).
  destruct (conversion_returns _ Hi) as (_ & Ei & _).
  destruct (conversion_returns _ Hw) as (_ & _ & _ & Ew).
  cbn [forEach_highlight]. unfold bind.
  rewrite !(get_prop_field item _ Hn). cbn [read ret].
  rewrite Ed. cbn [read ret]. rewrite Ei. cbn [read ret].
  rewrite Ew. cbn [read ret]. reflexivity.
Qed.

Lemma forEach_highlight_stops item rest index w :
  item_renders item = false ->
  exists e, forEach_highlight (item :: rest) index w = (Throw e, w).
Proof.
  intros Hitem. cbn [forEach_highlight]. unfold bind.
  destruct (nullish item) eqn:Hn.
  { destruct item; try discriminate Hn; eexists; reflexivity. }
  rewrite !(get_prop_field item _ Hn). cbn [read ret].
  unfold item_renders in Hitem. rewrite Hn in Hitem. cbn [negb andb] in Hitem.
  destruct (converts (field item "direction")) eqn:Hd.
  - destruct (conversion_returns _ Hd) as (-> & _). cbn [read ret].
    destruct (converts (field item "importance")) eqn:Hi.
    + destruct (conversion_returns _ Hi) as (_ & -> & _). cbn [read ret].
      cbn [andb] in Hitem.
      destruct (conversion_throws _ Hitem) as (e & _ & _ & _ & ->).
      exists e. reflexivity.
    + destruct (conversion_throws _ Hi) as (e & _ & -> & _).
      exists e. reflexivity.
  - destruct (conversion_throws _ Hd) as (e & -> & _).
    exists e. reflexivity.
Qed.

Lemma forEach_highlight_completes_iff items :
  forall index w,
    fst (forEach_highlight items index w) = Normal tt <->
    forallb item_renders items = true.
Proof.
  induction items as [|item rest IH]; intros index w.
  - simpl. split; reflexivity.
  - cbn [forallb]. destruct (item_renders item) eqn:Hitem.
    + rewrite (forEach_highlight_step item rest index w Hitem). apply IH.
    + destruct (forEach_highlight_stops item rest index w Hitem) as (e & ->).
      simpl. split; discriminate.
Qed.

Lemma updateWordHighlights_completes_iff data w :
  nullish data = false ->
  fst (updateWordHighlights data w) = Normal tt <->
  highlights_render (field data "word_highlights") = true.
Proof.
  intros Hd. unfold updateWordHighlights, highlights_render, bind.
  rewrite (get_prop_field data _ Hd). simpl read. unfold ret, modify.
  destruct (truthy (field data "word_highlights")) eqn:Ht.
  - destruct (length_is_zero (field data "word_highlights")) eqn:Hz.
    + simpl. split; reflexivity.
    + rewrite orb_false_l.
      destruct (field data "word_highlights");
        try (simpl; split; discriminate).
      apply forEach_highlight_completes_iff.
  - simpl. split; reflexivity.
Qed.

Lemma updateMetadata_completes_iff data w :
  nullish data = false ->
  fst (updateMetadata data w) = Normal tt <->
  metadata_renders data = true.
Proof.
  intros Hd. unfold updateMetadata, metadata_renders, bind.
  rewrite !(get_prop_field data _ Hd). cbn [read ret].
  destruct (converts (field data "processing_time_ms")) eqn:Hp.
  - destruct (conversion_returns _ Hp) as (_ & -> & _). cbn [read ret].
    destruct (field data "request_id"); cbn [is_string andb];
      try (split; discriminate).
    unfold modify.
    destruct (converts (field data "timestamp")) eqn:Ht.
    + destruct (conversion_returns _ Ht) as (_ & _ & (p & ->) & _).
      split; reflexivity.
    + destruct (conversion_throws _ Ht) as (e & _ & _ & -> & _).
      split; discriminate.
  - destruct (conversion_throws _ Hp) as (e & _ & -> & _).
    split; discriminate.
Qed.

Lemma updates_completes_iff data w :
  fst (updates data w) = Normal tt <-> renders_cleanly data = true.
Proof.
  unfold renders_cleanly.
  destruct (nullish data) eqn:Hd.
  - simpl. split; [|discriminate].
    destruct data; simpl in Hd; try discriminate; simpl; discriminate.
  - simpl negb. rewrite andb_true_l.
    destruct (percentages_convert data) eqn:Hp.
    + rewrite andb_true_l. unfold updates.
      rewrite fst_seq by (apply updateResultHeader_completes; assumption).
      rewrite fst_seq by (apply updateProbabilityBars_completes; assumption).
      rewrite fst_seq by (apply updateExplanation_completes; exact Hd).
      set (w3 := after (updateExplanation data) _).
      pose proof (updateWordHighlights_completes_iff data w3 Hd) as Hwh.
      unfold bind.
      destruct (updateWordHighlights data w3) as [[u|e] w4]; simpl in Hwh.
      * destruct u.
        rewrite (proj1 Hwh eq_refl), andb_true_l.
        apply updateMetadata_completes_iff. exact Hd.
      * simpl. split; [discriminate|].
        intros H. apply andb_prop in H. destruct H as [H _].
        apply Hwh in H. discriminate.
    + destruct (percentages_fail data w Hd Hp) as (e & w1 & Hfail).
      revert Hfail. unfold updates, bind.
      destruct (updateResultHeader data w) as [[u|e1] w2];
        [|intros _; simpl; split; discriminate].
      destruct (updateProbabilityBars data w2) as [[v|e2] w3];
        [discriminate | intros _; simpl; split; discriminate].
Qed.

Lemma showResults_completes_iff data w :
  fst (showResults data w) = Normal tt <-> renders_cleanly data = true.
Proof.
  unfold showResults.
  rewrite fst_seq by apply hideLoading_completes.
  rewrite fst_seq by apply completes_modify.
  rewrite fst_seq by apply completes_modify.
  apply (updates_completes_iff data).
Qed.
Lemma showResults_effect data w :
  let w' := after (showResults data) w in
  shown w' = only_results /\ currentResults w' = data
  /\ loadingInterval w' = None
  /\ currentTab w' = currentTab w
  /\ requests w' = requests w /\ in_flight w' = in_flight w
  /\ isAnalyzing w' = isAnalyzing w
  /\ errorMessage w' = errorMessage w
  /\ newsTitle w' = newsTitle w /\ newsText w' = newsText w
  /\ tabButtons w' = tabButtons w.
Proof.
  cbv zeta. rewrite showResults_split.
  pose proof (updates_steady data
    (with_dom (set_shown only_results (dom_of (after hideLoading w)))
       (set_currentResults data (after hideLoading w)))) as H.
  unfold steady in H. simpl in H. injection H; intros.
  pose proof (hideLoading_frame w) as F. unfold beyond_timers, dom_of in F.
  injection F; intros.
  pose proof (hideLoading_clears_field w) as C.
  repeat split; congruence.
Qed.

(** X8.  [showResults] renders without throwing exactly the payloads
    that are not [null], whose [confidence], [fake_probability] and
    [real_probability] convert to numbers, whose [word_highlights] is
    falsy, of length zero, or an array of items that are not [null] and
    have a [direction], an [importance] and a [word] that convert, whose
    [processing_time_ms] and [timestamp] convert, and whose [request_id]
    is a string.  (A value fails to convert when it is an object with a
    [toString] key of its own, or an array holding one.)  After a
    successful transport such a payload leaves the results section
    showing; any other leaves the error section showing "An unexpected
    error occurred. Please try again." -- in both cases with the payload
    stored as the current result. *)
Theorem showResults_renders_exactly_the_clean_payloads :
  forall (w : World) (data : value),
    (fst (showResults data w) = Normal tt <-> renders_cleanly data = true)
    /\ (renders_cleanly data = true ->
        shown (after (handleFormSubmit_resume (Success data)) w)
        = only_results)
    /\ (renders_cleanly data = false ->
        shown (after (handleFormSubmit_resume (Success data)) w) = only_error
        /\ errorMessage (after (handleFormSubmit_resume (Success data)) w)
           = "An unexpected error occurred. Please try again.")
    /\ currentResults (after (handleFormSubmit_resume (Success data)) w)
       = data.
Proof.
  intros w data.
  pose proof (showResults_completes_iff data w) as Hiff.
  pose proof (showResults_effect data w) as He. cbv zeta in He.
  destruct He as (Hs & Hr & _).
  split; [exact Hiff|].
  unfold handleFormSubmit_resume, try_finally, try_catch, modify.
  unfold after in *.
  destruct (showResults data w) as [[u|e] w1]; simpl in *.
  - split; [intros _; exact Hs|]. split; [|exact Hr].
    intros Hbad. destruct u. rewrite (proj1 Hiff eq_refl) in Hbad.
    discriminate.
  - rewrite showError_runs. simpl.
    destruct (showError_effect
                "An unexpected error occurred. Please try again." w1)
      as (Hs' & Hm' & _ & _ & _ & _ & _ & _ & _ & Hr' & _).
    cbv zeta in *. unfold after in *.
    split; [|split; [|congruence]].
    + intros Hclean. apply Hiff in Hclean. discriminate.
    + intros _. split; assumption.
Qed.

(** A full payload renders; one without [request_id] does not, and
    neither does one whose [confidence] is [{"toString": 0}]. *)
Lemma showResults_renders_exactly_the_clean_payloads_witness :
  renders_cleanly Samples.first_result = true
  /\ shown (after (handleFormSubmit_resume (Success Samples.first_result))
                  Samples.analysing) = only_results
  /\ renders_cleanly (VObj [("prediction", VStr "Fake")]) = false
  /\ shown (after (handleFormSubmit_resume
                     (Success (VObj [("prediction", VStr "Fake")])))
                  Samples.analysing) = only_error
  /\ renders_cleanly Samples.odd_confidence = false
  /\ shown (after (handleFormSubmit_resume (Success Samples.odd_confidence))
                  Samples.analysing) = only_error.
Proof.
  split; [reflexivity|]. split.
  - exact (proj1 (proj2 (showResults_renders_exactly_the_clean_payloads
                           Samples.analysing Samples.first_result)) eq_refl).
  - split; [reflexivity|]. split.
    + exact (proj1 (proj1 (proj2 (proj2
               (showResults_renders_exactly_the_clean_payloads
                  Samples.analysing (VObj [("prediction", VStr "Fake")]))))
               eq_refl)).
    + split; [reflexivity|].
      exact (proj1 (proj1 (proj2 (proj2
               (showResults_renders_exactly_the_clean_payloads
                  Samples.analysing Samples.odd_confidence)))
               eq_refl)).
Defined.

Lemma updateWordHighlights_completes data :
  nullish data = false ->
  highlights_render (field data "word_highlights") = true ->
  completes (updateWordHighlights data).
Proof.
  intros Hd Hwh w. exists tt.
  apply (updateWordHighlights_completes_iff data w Hd). exact Hwh.
Qed.

Lemma updates_unfolded data w :
  nullish data = false ->
  percentages_convert data = true ->
  highlights_render (field data "word_highlights") = true ->
  after (updates data) w =
  after (updateMetadata data)
    (after (updateWordHighlights data)
       (after (updateExplanation data)
          (after (updateProbabilityBars data)
             (after (updateResultHeader data) w)))).
Proof.
  intros Hd Hp Hwh. unfold updates.
  rewrite after_seq by (apply updateResultHeader_completes; assumption).
  rewrite after_seq by (apply updateProbabilityBars_completes; assumption).
  rewrite after_seq by (apply updateExplanation_completes; exact Hd).
  rewrite after_seq by (apply updateWordHighlights_completes; assumption).
  reflexivity.
Qed.

Lemma forEach_highlight_keeps_badge items :
  forall index, stable badge (forEach_highlight items index).
Proof.
  induction items as [|item rest IH]; intros index; simpl.
  - stable_step.
  - repeat stable_step. apply IH.
Qed.

Lemma after_header_keeps_badge data :
  stable badge (updateProbabilityBars data ;;
                updateExplanation data ;;
                updateWordHighlights data ;;
                updateMetadata data).
Proof.
  apply stable_bind;
    [unfold updateProbabilityBars; repeat stable_step;
     try (intro; reflexivity)
    | intros _].
  apply stable_bind;
    [unfold updateExplanation; repeat stable_step; try (intro; reflexivity)
    | intros _].
  apply stable_bind; [|intros _].
  - unfold updateWordHighlights. repeat stable_step.
    destruct (length_is_zero _); [stable_step|].
    destruct (if truthy _ then _ else _); try stable_step.
    apply forEach_highlight_keeps_badge.
  - unfold updateMetadata. repeat stable_step.
    match goal with |- stable _ (match ?v with _ => _ end) => destruct v end;
      repeat stable_step.
Qed.

(** The badge is written before the first conversion, and by nothing
    after it. *)
Lemma showResults_badge data w :
  nullish data = false ->
  badge (after (showResults data) w) =
  if is_str (field data "prediction") "Fake"
  then ("result-badge fake", "Fake News Detected")
  else ("result-badge real", "Likely Credible").
Proof.
  intros Hd. rewrite showResults_split. set (w0 := with_dom _ _).
  assert (Hh : badge (after (updateResultHeader data) w0) =
               if is_str (field data "prediction") "Fake"
               then ("result-badge fake", "Fake News Detected")
               else ("result-badge real", "Likely Credible")).
  { unfold after, updateResultHeader, bind.
    rewrite !(get_prop_field data _ Hd). cbn [read ret]. unfold modify.
    destruct (to_number (field data "confidence"));
      destruct (is_str _ _); reflexivity. }
  unfold updates. rewrite after_bind. unfold after in Hh.
  destruct (updateResultHeader data w0) as [[u|e] w1]; cbn [snd] in Hh.
  - rewrite after_header_keeps_badge. exact Hh.
  - exact Hh.
Qed.

(** X9.  The badge follows a strict comparison with the string "Fake":
    for a payload other than [null], [showResults] writes "Fake News
    Detected" when [prediction] is exactly that string and "Likely
    Credible" for anything else -- another spelling, another type, or no
    [prediction] at all -- whether or not the rest of the rendering
    completes. *)
Theorem badge_follows_exact_prediction :
  forall (w : World) (data : value),
    nullish data = false ->
    let w' := after (showResults data) w in
    (field data "prediction" = VStr "Fake" ->
     badgeText w' = "Fake News Detected"
     /\ badgeClass w' = "result-badge fake")
    /\ (field data "prediction" <> VStr "Fake" ->
        badgeText w' = "Likely Credible"
        /\ badgeClass w' = "result-badge real").
Proof.
  intros w data Hd w'.
  pose proof (showResults_badge data w Hd) as Hb. fold w' in Hb.
  unfold badge in Hb. split.
  - intros Hp. rewrite Hp in Hb. simpl in Hb. injection Hb as -> ->. auto.
  - intros Hp.
    assert (Hs : is_str (field data "prediction") "Fake" = false).
    { destruct (field data "prediction") as [| | | |s| |]; try reflexivity.
      simpl. destruct (s =? "Fake") eqn:E; [|reflexivity].
      apply String.eqb_eq in E. subst. contradiction. }
    rewrite Hs in Hb. injection Hb as -> ->. auto.
Qed.

Lemma badge_follows_exact_prediction_witness :
  nullish (Samples.result "fake" "1b9d6bcd-bbfd-4b2d" []) = false
  /\ field (Samples.result "fake" "1b9d6bcd-bbfd-4b2d" []) "prediction"
     <> VStr "Fake"
  /\ badgeText (after (showResults
                         (Samples.result "fake" "1b9d6bcd-bbfd-4b2d" []))
                      Samples.analysing)
     = "Likely Credible".
Proof.
  assert (H : field (Samples.result "fake" "1b9d6bcd-bbfd-4b2d" []) "prediction"
              <> VStr "Fake") by (vm_compute; discriminate).
  split; [reflexivity|]. split; [exact H|].
  exact (proj1 (proj2 (badge_follows_exact_prediction Samples.analysing
                         (Samples.result "fake" "1b9d6bcd-bbfd-4b2d" [])
                         eq_refl) H)).
Defined.

Lemma substring_prefix_length n s :
  String.length (substring 0 n s) = Nat.min n (String.length s).
Proof.
  revert s. induction n as [|n IH]; intros [|c rest]; simpl; try reflexivity.
  rewrite IH. reflexivity.
Qed.

Lemma substring_prefix_short n s :
  (String.length s <= n)%nat -> substring 0 n s = s.
Proof.
  revert s. induction n as [|n IH]; intros [|c rest]; simpl;
    intros H; try reflexivity; try lia.
  rewrite IH by lia. reflexivity.
Qed.

Lemma substring_prefix_is_prefix n s : prefix (substring 0 n s) s = true.
Proof.
  revert s. induction n as [|n IH]; intros [|c rest]; simpl; try reflexivity.
  destruct (ascii_dec c c) as [_|H]; [apply IH | contradiction].
Qed.

Lemma append_length a b :
  String.length (a ++ b) = (String.length a + String.length b)%nat.
Proof. induction a as [|c a IH]; simpl; [reflexivity | rewrite IH; reflexivity]. Qed.

Lemma updateMetadata_writes_id data id w :
  nullish data = false ->
  converts (field data "processing_time_ms") = true ->
  field data "request_id" = VStr id ->
  requestIdTitle (after (updateMetadata data) w) = id
  /\ requestIdText (after (updateMetadata data) w) = substring 0 13 id ++ "...".
Proof.
  intros Hd Hpt Hid. unfold after, updateMetadata, bind.
  rewrite !(get_prop_field data _ Hd). cbn [read ret].
  destruct (conversion_returns _ Hpt) as (_ & -> & _). cbn [read ret].
  rewrite Hid. unfold modify.
  destruct (to_primitive (field data "timestamp")); split; reflexivity.
Qed.

(** X10.  For a payload that renders, the request id is shown cut to
    its first 13 characters followed by "..." -- the three dots are
    appended to shorter ids as well, so the text never exceeds 16
    characters -- and the whole id is kept, as it came, in the element's
    title. *)
Theorem request_id_is_truncated_and_kept :
  forall (w : World) (data : value) (id : string),
    renders_cleanly data = true ->
    field data "request_id" = VStr id ->
    let w' := after (showResults data) w in
    requestIdTitle w' = id
    /\ requestIdText w' = substring 0 13 id ++ "..."
    /\ prefix (substring 0 13 id) id = true
    /\ (String.length (requestIdText w') <= 16)%nat
    /\ ((String.length id <= 13)%nat -> requestIdText w' = id ++ "...").
Proof.
  intros w data id Hclean Hid w'.
  unfold renders_cleanly in Hclean.
  apply andb_prop in Hclean. destruct Hclean as [Hclean Hm].
  apply andb_prop in Hclean. destruct Hclean as [Hclean Hwh].
  apply andb_prop in Hclean. destruct Hclean as [Hd Hp].
  apply negb_true_iff in Hd. unfold metadata_renders in Hm.
  apply andb_prop in Hm. destruct Hm as [Hm _].
  apply andb_prop in Hm. destruct Hm as [Hpt _].
  assert (Hw : requestIdTitle w' = id
               /\ requestIdText w' = substring 0 13 id ++ "...").
  { unfold w'. rewrite showResults_split, (updates_unfolded _ _ Hd Hp Hwh).
    apply (updateMetadata_writes_id data id _ Hd Hpt Hid). }
  destruct Hw as [Ht Hx]. rewrite Hx.
  split; [exact Ht|]. split; [reflexivity|].
  split; [apply substring_prefix_is_prefix|]. split.
  - rewrite append_length, substring_prefix_length.
    change (String.length "...") with 3%nat. lia.
  - intros Hshort. rewrite (substring_prefix_short 13 id Hshort). reflexivity.
Qed.

(** An id of 18 characters is cut, one of 3 is not; a payload whose
    [confidence] does not convert is not among those that render. *)
Lemma request_id_is_truncated_and_kept_witness :
  renders_cleanly Samples.first_result = true
  /\ requestIdText Samples.showing_first = "1b9d6bcd-bbfd..."
  /\ requestIdTitle Samples.showing_first = "1b9d6bcd-bbfd-4b2d"
  /\ requestIdText (after (showResults (Samples.result "Real" "abc" []))
                          Samples.analysing) = "abc..."
  /\ renders_cleanly Samples.odd_confidence = false.
Proof.
  destruct (request_id_is_truncated_and_kept Samples.analysing
              (Samples.result "Real" "abc" []) "abc" eq_refl eq_refl)
    as (_ & _ & _ & _ & T).
  split; [reflexivity|].
  split; [vm_compute; reflexivity|]. split; [vm_compute; reflexivity|].
  split; [|reflexivity].
  apply T. simpl. lia.
Defined.

(* ================================================================== *)
(** ** The filter across results *)

Lemma handleFormSubmit_resume_keeps_tab result w :
  currentTab (after (handleFormSubmit_resume result) w) = currentTab w.
Proof.
  unfold handleFormSubmit_resume, try_finally, try_catch, modify, after.
  assert (Herr : forall m v,
             currentTab (after (showError m) v) = currentTab v).
  { intros m v. apply (showError_effect m v). }
  destruct result as [data|message].
  - pose proof (showResults_keeps_tab data w) as Hs. unfold after in Hs.
    destruct (showResults data w) as [[u|e] w1]; cbn [snd] in Hs.
    + exact Hs.
    + rewrite showError_runs. simpl. rewrite Herr. exact Hs.
  - rewrite showError_runs. simpl. apply Herr.
Qed.

(** Only a click on a tab changes the current tab. *)
Lemma dispatch_keeps_tab e w :
  is_tab_click e = false -> currentTab (dispatch e w) = currentTab w.
Proof.
  destruct e as [title text| |net|tab| |id done]; intros Hno;
    try discriminate Hno.
  - reflexivity.
  - rewrite dispatch_Submit. unfold after.
    rewrite handleFormSubmit_begin_cases.
    destruct (isAnalyzing w); [reflexivity|]. cbv zeta.
    destruct (validate_spec _ _) as [message|]; cbn [snd].
    + apply (showError_effect message w).
    + reflexivity.
  - unfold dispatch, handle. rewrite after_bind. unfold gets.
    destruct (in_flight w); [reflexivity|].
    destruct (detectFakeNews api net) as [result|]; [|reflexivity].
    rewrite after_seq by (unfold settle_one; apply completes_modify).
    rewrite handleFormSubmit_resume_keeps_tab. reflexivity.
  - apply (resetToForm_effect w).
  - unfold dispatch, handle. rewrite after_bind. unfold gets.
    destruct (find_interval id (intervals w)) as [t|]; [|reflexivity].
    destruct (kind t); [reflexivity|].
    destruct done; reflexivity.
Qed.

Lemma run_keeps_tab events :
  forall w, existsb is_tab_click events = false ->
            currentTab (run events w) = currentTab w.
Proof.
  induction events as [|e rest IH]; intros w Hno; [reflexivity|].
  cbn [existsb] in Hno. apply orb_false_iff in Hno. destruct Hno as [He Hrest].
  cbn [run fold_left]. change (fold_left _ rest ?v) with (run rest v).
  rewrite (IH _ Hrest). apply dispatch_keeps_tab. exact He.
Qed.

Lemma run_app events later w :
  run (events ++ later) w = run later (run events w).
Proof. unfold run. apply fold_left_app. Qed.

Lemma filterHighlights_sets_tab tab w :
  currentTab (after (filterHighlights tab) w) = tab.
Proof.
  unfold after, filterHighlights, bind, modify, gets.
  change (currentResults (set_currentTab tab w)) with (currentResults w).
  destruct (negb (truthy (currentResults w))); reflexivity.
Qed.

(** C7 as amended.  [showResults] never touches the highlight filter:
    the current tab after it is the current tab before it, for every
    result, whether or not the rendering completes; when it gets as far as
    rendering the highlight items (the percentages convert, and so do the
    fields of every item), they are rendered under that tab, each one
    visible exactly when the tab is "all" or equals the item's direction,
    so that none is hidden while the tab is "all".  Over the runs of the
    page the tab is "all" as long as no tab has been clicked, and from then
    on it is the tab clicked last, however many results have been shown in
    between. *)
Theorem showResults_keeps_the_filter :
  (forall (w : World) (data : value),
      currentTab (after (showResults data) w) = currentTab w
      /\ forall items,
           nullish data = false ->
           percentages_convert data = true ->
           field data "word_highlights" = VArr items ->
           forallb item_renders items = true ->
           highlightsGrid (after (showResults data) w)
           = rendered_grid (currentTab w) items
           /\ length (filter visible
                        (highlightsGrid (after (showResults data) w)))
              = length (filter (fun item =>
                                  passes_filter (currentTab w)
                                                (field item "direction"))
                               items)
           /\ (currentTab w = Some "all" ->
               filter hidden (highlightsGrid (after (showResults data) w))
               = []))
  /\ (forall (page : dom) (events : list event),
        existsb is_tab_click events = false ->
        currentTab (run events (initial_world page)) = Some "all")
  /\ (forall (page : dom) (events later : list event) (tab : option string),
        existsb is_tab_click later = false ->
        currentTab (run (events ++ TabClick tab :: later) (initial_world page))
        = tab).
Proof.
  split; [|split].
  - intros w data. split; [apply showResults_keeps_tab|].
    intros items Hd Hp Hwh Hitems.
    rewrite (showResults_grid data items w Hd Hp Hwh Hitems).
    split; [reflexivity|]. split; [apply visible_rendered_grid|].
    intros Hall. apply length_zero_iff_nil.
    rewrite hidden_rendered_grid, Hall.
    apply length_zero_iff_nil. apply filter_none. intros; reflexivity.
  - intros page events Hno. rewrite (run_keeps_tab events _ Hno). reflexivity.
  - intros page events later tab Hno. rewrite run_app.
    cbn [run fold_left]. change (fold_left _ later ?v) with (run later v).
    rewrite (run_keeps_tab later _ Hno).
    apply filterHighlights_sets_tab.
Qed.

(** The "fake" tab is picked on a first result and a second one is shown:
    the tab is still "fake" and the one item of the new result, a "real"
    one, is not visible; on a page where no tab has been clicked the tab
    is "all". *)
Lemma showResults_keeps_the_filter_witness :
  nullish Samples.second_result = false
  /\ percentages_convert Samples.second_result = true
  /\ currentTab (after (showResults Samples.second_result)
                   (after (filterHighlights (Some "fake")) Samples.showing_first))
     = Some "fake"
  /\ length (filter visible (highlightsGrid
       (after (showResults Samples.second_result)
          (after (filterHighlights (Some "fake")) Samples.showing_first)))) = 0
  /\ existsb is_tab_click
       (Samples.submit_article
        ++ [TransportSettles (Samples.answers Samples.first_result)]) = false
  /\ currentTab Samples.showing_first = Some "all".
Proof.
  destruct showResults_keeps_the_filter as (Tshow & Tall & _).
  destruct (Tshow (after (filterHighlights (Some "fake")) Samples.showing_first)
                  Samples.second_result) as [Tt Tg].
  assert (E : run (Samples.submit_article
                   ++ [TransportSettles (Samples.answers Samples.first_result)])
                  (initial_world Samples.page)
              = Samples.showing_first) by (vm_compute; reflexivity).
  split; [reflexivity|]. split; [reflexivity|]. split; [exact Tt|]. split.
  - destruct (Tg [Samples.highlight "reported" "0.55" "real"]
                 eq_refl eq_refl eq_refl eq_refl) as (_ & Tv & _).
    exact Tv.
  - split; [reflexivity|].
    rewrite <- E. apply (Tall Samples.page). reflexivity.
Defined.

(** C7 as stated fails.  A first result is shown, the user picks the
    "fake" tab, goes back to the form and submits another article; when
    the second result is shown the current tab is still "fake", not
    "all", and the only highlight item of the new result, a "real" one,
    is rendered hidden. *)
Lemma showResults_does_not_reset_filter :
  let w := run ([TabClick (Some "fake"); ResetClick]
                ++ Samples.submit_article
                ++ [TransportSettles (Samples.answers Samples.second_result)])
               Samples.showing_first in
  currentResults w = Samples.second_result
  /\ currentTab w = Some "fake"
  /\ currentTab w <> Some "all"
  /\ map visible (highlightsGrid w) = [false]
  /\ map hidden (highlightsGrid w) = [true].
Proof.
  cbv zeta. repeat split; try (vm_compute; reflexivity).
  vm_compute. discriminate.
Qed.

(* ================================================================== *)
(** ** Properties kept by every turn of the event loop *)

Lemma keeps_ret {A} (P : World -> Prop) (a : A) : keeps P (ret a).
Proof. intros w H; exact H. Qed.

Lemma keeps_throw {A} (P : World -> Prop) (e : error) : keeps P (@throw A e).
Proof. intros w H; exact H. Qed.

Lemma keeps_gets {A} (P : World -> Prop) (g : World -> A) : keeps P (gets g).
Proof. intros w H; exact H. Qed.

Lemma keeps_read {A} (P : World -> Prop) (r : error + A) : keeps P (read r).
Proof. destruct r; intros w H; exact H. Qed.

Lemma keeps_modify (P : World -> Prop) (g : World -> World) :
  (forall w, P w -> P (g w)) -> keeps P (modify g).
Proof. intros H w Hw; apply H; exact Hw. Qed.

Lemma keeps_bind {A B} (P : World -> Prop) (c : js A) (k : A -> js B) :
  keeps P c -> (forall a, keeps P (k a)) -> keeps P (bind c k).
Proof.
  intros Hc Hk w Hw. rewrite after_bind.
  specialize (Hc w Hw). unfold after in Hc.
  destruct (c w) as [[a|e] w']; simpl in Hc.
  - apply Hk. exact Hc.
  - exact Hc.
Qed.

Lemma keeps_try_catch {A} (P : World -> Prop) (c : js A) (h : error -> js A) :
  keeps P c -> (forall e, keeps P (h e)) -> keeps P (try_catch c h).
Proof.
  intros Hc Hh w Hw. specialize (Hc w Hw). unfold after, try_catch in *.
  destruct (c w) as [[a|e] w']; simpl in *.
  - exact Hc.
  - apply (Hh e w'). exact Hc.
Qed.

Lemma keeps_try_finally {A} (P : World -> Prop) (c : js A) (f : js unit) :
  keeps P c -> keeps P f -> keeps P (try_finally c f).
Proof.
  intros Hc Hf w Hw. specialize (Hc w Hw). unfold after, try_finally in *.
  destruct (c w) as [r w']; simpl in *.
  specialize (Hf w' Hc). unfold after in Hf.
  destruct (f w') as [[u|e] w'']; exact Hf.
Qed.

Lemma keeps_of_stable {X A} (f : World -> X) (Q : X -> Prop) (c : js A) :
  stable f c -> keeps (fun w => Q (f w)) c.
Proof. intros H w Hw. rewrite H. exact Hw. Qed.

Ltac keeps_step :=
  first [ apply keeps_ret | apply keeps_throw | apply keeps_gets
        | apply keeps_read
        | apply keeps_bind; [ | intros ? ] ].

Lemma validateInputs_keeps (P : World -> Prop) title text :
  (forall m, keeps P (showError m)) -> keeps P (validateInputs title text).
Proof.
  intros H. unfold validateInputs.
  repeat match goal with
         | |- keeps _ (if ?b then _ else _) => destruct b
         | |- keeps _ (bind _ _) => apply keeps_bind; [apply H | intros _]
         | |- keeps _ (ret _) => apply keeps_ret
         end.
Qed.

(** What it takes for [P] to hold after every event once it holds. *)
Lemma event_loop_keeps (P : World -> Prop) :
  (forall t x, keeps P (modify (set_dom (set_form_fields t x)))) ->
  (forall b, keeps P (modify (set_isAnalyzing b))) ->
  keeps P showLoading ->
  (forall t x, keeps P (issue_detect api t x)) ->
  (forall m, keeps P (showError m)) ->
  (forall d, keeps P (showResults d)) ->
  keeps P settle_one ->
  (forall tab, keeps P (filterHighlights tab)) ->
  keeps P resetToForm ->
  (forall w id i t,
      P w -> find_interval id (intervals w) = Some t ->
      kind t = MessageRotation i -> P (after (rotate_message id i) w)) ->
  (forall id, keeps P (clearInterval id)) ->
  forall events w, P w -> P (run events w).
Proof.
  intros Hedit Hflag Hload Hissue Herr Hres Hsettle Htab Hreset Hrot Hclear.
  assert (Hone : forall e, keeps P (handle e)).
  { intros [title text| |net|tab| |id done]; simpl.
    - apply Hedit.
    - apply keeps_bind; [|intros _; apply keeps_ret].
      unfold handleFormSubmit_begin.
      keeps_step. keeps_step. destruct a; [apply keeps_ret|].
      do 3 (apply keeps_bind; [try apply keeps_gets | intros ?]).
      + apply validateInputs_keeps. exact Herr.
      + destruct (negb _); [apply keeps_ret|].
        apply keeps_bind; [apply Hflag | intros _].
        apply keeps_bind; [apply Hload | intros _].
        apply keeps_bind; [apply Hissue | intros _]. apply keeps_ret.
    - keeps_step. keeps_step. destruct a; [apply keeps_ret|].
      destruct (detectFakeNews api net) as [result|]; [|apply keeps_ret].
      apply keeps_bind; [apply Hsettle | intros _].
      unfold handleFormSubmit_resume.
      apply keeps_try_finally; [|apply Hflag].
      apply keeps_try_catch; [|intros _; apply Herr].
      destruct result; [apply Hres | apply Herr].
    - apply Htab.
    - apply Hreset.
    - intros w Hw. rewrite after_bind. unfold gets.
      destruct (find_interval id (intervals w)) as [t|] eqn:Hfind;
        [|exact Hw].
      destruct (kind t) as [i|text] eqn:Hkind.
      + apply (Hrot w id i t Hw Hfind Hkind).
      + destruct done; [apply Hclear; exact Hw | exact Hw]. }
  induction events as [|e rest IH]; intros w Hw; simpl.
  - exact Hw.
  - apply IH. apply (Hone e w Hw).
Qed.

(* ================================================================== *)
(** ** Escaping *)

Lemma no_angle_append a b :
  no_angle (a ++ b) = no_angle a && no_angle b.
Proof.
  induction a as [|c a IH]; simpl; [reflexivity|].
  rewrite IH. rewrite !andb_assoc. reflexivity.
Qed.

Lemma html_text_no_angle s : no_angle (html_text s) = true.
Proof.
  induction s as [|c rest IH]; simpl; [reflexivity|].
  rewrite no_angle_append, IH, andb_true_r.
  destruct (c =? "&")%char eqn:E1; [reflexivity|].
  destruct (c =? "<")%char eqn:E2; [reflexivity|].
  destruct (c =? ">")%char eqn:E3; [reflexivity|].
  destruct (nat_of_ascii c =? 160)%nat; [reflexivity|].
  simpl. rewrite E2, E3. reflexivity.
Qed.

Lemma escapeHtml_no_angle v :
  match escapeHtml v with
  | inr markup => no_angle markup = true
  | inl e => to_string v = inl e
  end.
Proof.
  unfold escapeHtml.
  destruct v; try reflexivity;
    (destruct (to_string _) as [e|text]; [reflexivity | apply html_text_no_angle]).
Qed.

Lemma keeps_bind_read {A B} (P : World -> Prop) (r : error + A)
    (k : A -> js B) :
  (forall a, r = inr a -> keeps P (k a)) -> keeps P (bind (read r) k).
Proof.
  intros H. destruct r as [e|a].
  - intros w Hw. exact Hw.
  - exact (H a eq_refl).
Qed.

Lemma html_text_plain s :
  (forall c, In c (list_ascii_of_string s) ->
             c <> "&"%char /\ c <> "<"%char /\ c <> ">"%char
             /\ nat_of_ascii c <> 160%nat) ->
  html_text s = s.
Proof.
  induction s as [|c rest IH]; simpl; intros H; [reflexivity|].
  destruct (H c (or_introl eq_refl)) as (H1 & H2 & H3 & H4).
  apply Ascii.eqb_neq in H1, H2, H3. apply Nat.eqb_neq in H4.
  rewrite H1, H2, H3, H4. simpl. rewrite IH; [reflexivity|].
  intros c' Hc'. apply H. right. exact Hc'.
Qed.

Lemma keeps_grid_of_stable {A} (c : js A) :
  stable highlightsGrid c -> keeps grid_is_escaped c.
Proof. intros H w Hw. unfold grid_is_escaped. rewrite H. exact Hw. Qed.

Lemma forEach_highlight_keeps_escaped items :
  forall index, keeps grid_is_escaped (forEach_highlight items index).
Proof.
  induction items as [|item rest IH]; intros index; simpl.
  - apply keeps_ret.
  - apply keeps_bind; [apply keeps_read | intros direction].
    apply keeps_bind; [apply keeps_read | intros direction_text].
    apply keeps_bind; [apply keeps_read | intros importance].
    apply keeps_bind; [apply keeps_read | intros _].
    apply keeps_bind; [apply keeps_read | intros word].
    apply keeps_bind_read. intros word_markup Hmarkup.
    apply keeps_bind; [apply keeps_gets | intros tab].
    apply keeps_bind; [|intros _; apply IH].
    apply keeps_modify. intros w Hw. unfold grid_is_escaped in *. simpl.
    rewrite forallb_app, Hw. simpl.
    pose proof (escapeHtml_no_angle word) as Hn. rewrite Hmarkup in Hn.
    rewrite Hn. reflexivity.
Qed.

Lemma updateWordHighlights_keeps_escaped data :
  keeps grid_is_escaped (updateWordHighlights data).
Proof.
  unfold updateWordHighlights. keeps_step. keeps_step.
  apply keeps_bind; [apply keeps_modify; intros; reflexivity | intros _].
  destruct (length_is_zero _).
  - apply keeps_modify. intros; reflexivity.
  - destruct (if truthy _ then _ else _); try apply keeps_throw.
    apply forEach_highlight_keeps_escaped.
Qed.

Lemma hideLoading_keeps_grid : stable highlightsGrid hideLoading.
Proof.
  intro w. pose proof (hideLoading_frame w) as F.
  unfold beyond_timers, dom_of in F. injection F; intros. assumption.
Qed.

Lemma showResults_keeps_escaped data :
  keeps grid_is_escaped (showResults data).
Proof.
  unfold showResults.
  apply keeps_bind;
    [apply keeps_grid_of_stable, hideLoading_keeps_grid | intros _].
  apply keeps_bind; [apply keeps_modify; intros w H; exact H | intros _].
  apply keeps_bind; [apply keeps_modify; intros w H; exact H | intros _].
  apply keeps_bind;
    [apply keeps_grid_of_stable; unfold updateResultHeader;
     repeat stable_step | intros _].
  apply keeps_bind;
    [apply keeps_grid_of_stable; unfold updateProbabilityBars;
     repeat stable_step; intro; reflexivity | intros _].
  apply keeps_bind;
    [apply keeps_grid_of_stable; unfold updateExplanation;
     repeat stable_step; intro; reflexivity | intros _].
  apply keeps_bind; [apply updateWordHighlights_keeps_escaped | intros _].
  apply keeps_grid_of_stable, updateMetadata_keeps_grid.
Qed.

Lemma filter_child_keeps_escaped tab c :
  word_is_escaped (filter_child tab c) = word_is_escaped c.
Proof.
  destruct c as [|h]; [reflexivity|]. unfold filter_child.
  destruct (is_highlight_item _); [|reflexivity].
  destruct (_ || _); reflexivity.
Qed.

(** X11.  The word of a highlight reaches the grid escaped: for every
    value, [escapeHtml] either returns markup without [<] or [>] or throws
    what the conversion of the value to a string throws; it returns a
    string that has none of [&], [<], [>] and the no-break space as it is;
    and, started on a page whose grid is escaped (an empty one, say), the
    event loop keeps the word of every highlight item free of [<] and [>],
    whatever payloads the backend sends. *)
Theorem highlight_words_are_escaped :
  (forall v, match escapeHtml v with
             | inr markup => no_angle markup = true
             | inl e => to_string v = inl e
             end)
  /\ (forall s,
        (forall c, In c (list_ascii_of_string s) ->
                   c <> "&"%char /\ c <> "<"%char /\ c <> ">"%char
                   /\ nat_of_ascii c <> 160%nat) ->
        escapeHtml (VStr s) = inr s)
  /\ (forall (page : dom) (events : list event),
        forallb word_is_escaped (d_highlightsGrid page) = true ->
        forallb word_is_escaped
                (highlightsGrid (run events (initial_world page))) = true).
Proof.
  split; [apply escapeHtml_no_angle|]. split.
  - intros s H. unfold escapeHtml. cbn [to_string].
    rewrite (html_text_plain s H). reflexivity.
  - intros page events Hpage.
    apply (event_loop_keeps grid_is_escaped); try exact Hpage.
    + intros t x. apply keeps_modify. intros w H; exact H.
    + intros b. apply keeps_modify. intros w H; exact H.
    + apply keeps_grid_of_stable. unfold showLoading.
      repeat stable_step; try (intro; reflexivity).
    + intros t x. apply keeps_grid_of_stable. unfold issue_detect.
      repeat stable_step; try (intro; reflexivity).
    + intros m. apply keeps_grid_of_stable. intro w.
      apply (showError_effect m w).
    + apply showResults_keeps_escaped.
    + apply keeps_modify. intros w H; exact H.
    + intros tab. unfold filterHighlights.
      apply keeps_bind; [apply keeps_modify; intros w H; exact H | intros _].
      keeps_step. keeps_step. destruct (negb _); [apply keeps_ret|].
      apply keeps_bind; [|intros _; apply keeps_modify; intros w H; exact H].
      apply keeps_modify. intros w H. unfold grid_is_escaped in *. simpl.
      rewrite forallb_forall in *. intros c Hc.
      apply in_map_iff in Hc. destruct Hc as (c0 & <- & Hc0).
      rewrite filter_child_keeps_escaped. apply H. exact Hc0.
    + apply keeps_grid_of_stable. intro w. apply (resetToForm_effect w).
    + intros w id i t H _ _. exact H.
    + intros id. apply keeps_modify. intros w H; exact H.
Qed.

Lemma highlight_words_are_escaped_witness :
  escapeHtml (VStr "<img src=x onerror=alert(1)>")
  = inr "&lt;img src=x onerror=alert(1)&gt;"
  /\ escapeHtml (VStr "plain word") = inr "plain word"
  /\ forallb word_is_escaped (highlightsGrid Samples.showing_first) = true.
Proof.
  split; [reflexivity|]. split.
  - apply (proj1 (proj2 highlight_words_are_escaped) "plain word").
    simpl. intros c H.
    repeat (destruct H as [<-|H];
            [repeat split; discriminate|]).
    destruct H.
  - assert (E : run (Samples.submit_article
                     ++ [TransportSettles (Samples.answers Samples.first_result)])
                    (initial_world Samples.page)
                = Samples.showing_first) by (vm_compute; reflexivity).
    rewrite <- E.
    apply (proj2 (proj2 highlight_words_are_escaped)). reflexivity.
Defined.

(* ================================================================== *)
(** ** One section at a time *)

Lemma handleFormSubmit_resume_shown result w :
  let w' := after (handleFormSubmit_resume result) w in
  (shown w' = only_results \/ shown w' = only_error)
  /\ isAnalyzing w' = false.
Proof.
  cbv zeta. split; [|apply handleFormSubmit_resume_runs].
  unfold handleFormSubmit_resume, try_finally, try_catch, modify, after.
  destruct result as [data|message].
  - pose proof (showResults_effect data w) as He. cbv zeta in He.
    unfold after in He. destruct He as (Hs & _).
    destruct (showResults data w) as [[u|e] w1]; simpl in *.
    + left. exact Hs.
    + rewrite showError_runs. simpl. right. apply showError_message.
  - rewrite showError_runs. simpl. right. apply showError_message.
Qed.

Lemma dispatch_presentation_ok e w :
  presentation_ok w -> presentation_ok (dispatch e w).
Proof.
  unfold presentation_ok, one_section_shows.
  intros [Hone Hbusy]. destruct e as [title text| |net|tab| |id done].
  - split; [exact Hone | exact Hbusy].
  - rewrite dispatch_Submit. unfold after.
    rewrite handleFormSubmit_begin_cases.
    destruct (isAnalyzing w) eqn:Hflag;
      [simpl snd; rewrite Hflag; split; assumption|].
    cbv zeta. destruct (validate_spec _ _) as [message|]; simpl snd.
    + destruct (showError_effect message w)
        as (Hs & _ & _ & _ & _ & Ha & _). cbv zeta in *.
      rewrite Hs, Ha, Hflag. split; [auto|discriminate].
    + simpl. split; auto.
  - unfold dispatch, handle. rewrite after_bind. unfold gets.
    destruct (in_flight w); [split; assumption|].
    destruct (detectFakeNews api net) as [result|]; [|split; assumption].
    rewrite after_seq by (unfold settle_one; apply completes_modify).
    destruct (handleFormSubmit_resume_shown result (after settle_one w))
      as [Hs Ha]. cbv zeta in *. rewrite Ha.
    split; [|discriminate]. destruct Hs as [-> | ->]; auto.
  - pose proof (filterHighlights_gist tab w) as G. unfold gist in G.
    injection G; intros G1 G2 G3 _ _. unfold dispatch, handle.
    rewrite G2, G3. split; assumption.
  - destruct (resetToForm_effect w) as (Hs & _). cbv zeta in Hs.
    unfold dispatch, handle. rewrite Hs. split; auto.
  - unfold dispatch, handle. rewrite after_bind. unfold gets.
    destruct (find_interval id (intervals w)) as [t|]; [|split; assumption].
    destruct (kind t);
      [unfold after, rotate_message, bind, modify; simpl; split; assumption|].
    destruct done; [unfold after, clearInterval, modify; simpl|];
      split; assumption.
Qed.

Lemma run_presentation_ok events :
  forall w, presentation_ok w -> presentation_ok (run events w).
Proof.
  induction events as [|e rest IH]; intros w H; simpl.
  - exact H.
  - apply IH. apply dispatch_presentation_ok. exact H.
Qed.

(** X12.  Started on a page where exactly one of the four sections
    shows, the event loop keeps it so: after every event exactly one of
    form, loading, results and error is visible.  And while an analysis
    runs that section is the loading one or the form: whenever the results
    or the error section shows, [isAnalyzing] is false. *)
Theorem exactly_one_section_shows :
  forall (page : dom) (events : list event),
    one_section_shows (d_shown page) ->
    let w := run events (initial_world page) in
    one_section_shows (shown w)
    /\ (isAnalyzing w = true -> shown w = only_loading \/ shown w = only_form)
    /\ (results_hidden (shown w) = false \/ error_hidden (shown w) = false ->
        isAnalyzing w = false).
Proof.
  intros page events Hpage w.
  assert (H : presentation_ok w).
  { apply run_presentation_ok. split; [exact Hpage | discriminate]. }
  destruct H as [Hone Hbusy]. split; [exact Hone|]. split; [exact Hbusy|].
  intros Hvis. destruct (isAnalyzing w); [|reflexivity].
  destruct (Hbusy eq_refl) as [E|E]; rewrite E in Hvis;
    destruct Hvis; discriminate.
Qed.

Lemma exactly_one_section_shows_witness :
  one_section_shows (d_shown Samples.page)
  /\ shown Samples.showing_first = only_results
  /\ isAnalyzing Samples.showing_first = false.
Proof.
  assert (H : one_section_shows (d_shown Samples.page))
    by (left; reflexivity).
  assert (E : run (Samples.submit_article
                   ++ [TransportSettles (Samples.answers Samples.first_result)])
                  (initial_world Samples.page)
              = Samples.showing_first) by (vm_compute; reflexivity).
  pose proof (exactly_one_section_shows Samples.page
                (Samples.submit_article
                 ++ [TransportSettles (Samples.answers Samples.first_result)])
                H) as T.
  cbv zeta in T. rewrite E in T. destruct T as (_ & _ & T).
  assert (S : shown Samples.showing_first = only_results)
    by (vm_compute; reflexivity).
  split; [exact H|]. split; [exact S|].
  apply T. left. rewrite S. reflexivity.
Defined.

(* ================================================================== *)
(** ** Timers *)

Lemma timers_ok_same w w' :
  timer_state w' = timer_state w -> timers_ok w -> timers_ok w'.
Proof.
  unfold timer_state. intros H [I1 I2 I3 I4]. injection H as Hi Hn Hl.
  constructor; rewrite ?Hi, ?Hn, ?Hl; assumption.
Qed.

Lemma keeps_timers_of_stable {A} (c : js A) :
  stable timer_state c -> keeps timers_ok c.
Proof. intros H w Hw. apply (timers_ok_same w); [apply H | exact Hw]. Qed.

Lemma setTimeout_keeps_timers : keeps timers_ok setTimeout.
Proof.
  intros w [I1 I2 I3 I4]. unfold after, setTimeout. simpl.
  constructor; simpl.
  - exact I1.
  - intros t Ht. specialize (I2 t Ht). lia.
  - intros id Hid. specialize (I3 id Hid). lia.
  - exact I4.
Qed.

Lemma fresh_id_not_in w :
  (forall t, In t (intervals w) -> (timer_id t < next_timer w)%positive) ->
  ~ In (next_timer w) (map timer_id (intervals w)).
Proof.
  intros H Hin. apply in_map_iff in Hin. destruct Hin as (t & Ht & Hin).
  specialize (H t Hin). lia.
Qed.

Lemma setInterval_typing_keeps_timers period text :
  keeps timers_ok (setInterval period (TypingEffect text)).
Proof.
  intros w [I1 I2 I3 I4]. unfold after, setInterval. simpl.
  constructor; simpl.
  - constructor; [apply fresh_id_not_in; exact I2 | exact I1].
  - intros t [<- | Ht]; simpl; [lia|]. specialize (I2 t Ht). lia.
  - intros id Hid. specialize (I3 id Hid). lia.
  - intros id t Hid [<- | Ht] Heq; simpl in *.
    + specialize (I3 id Hid). lia.
    + apply (I4 id t Hid Ht Heq).
Qed.

Lemma kept_ids_in (keep : interval -> bool) (timers : list interval) id :
  In id (map timer_id (filter keep timers)) -> In id (map timer_id timers).
Proof.
  rewrite !in_map_iff. intros (t & Hid & Hin).
  apply filter_In in Hin. exists t. tauto.
Qed.

Lemma distinct_ids_filter (keep : interval -> bool) (timers : list interval) :
  NoDup (map timer_id timers) -> NoDup (map timer_id (filter keep timers)).
Proof.
  induction timers as [|t rest IH]; intros Hdistinct; [constructor|].
  cbn [map] in Hdistinct. apply NoDup_cons_iff in Hdistinct.
  destruct Hdistinct as [Hfresh Hrest]. cbn [filter].
  destruct (keep t); [|apply IH; exact Hrest].
  cbn [map]. apply NoDup_cons_iff. split; [|apply IH; exact Hrest].
  intros Hin. apply Hfresh. apply (kept_ids_in keep rest _ Hin).
Qed.

Lemma clearInterval_keeps_timers id : keeps timers_ok (clearInterval id).
Proof.
  intros w [I1 I2 I3 I4]. unfold after, clearInterval, modify. simpl.
  constructor; simpl.
  - apply distinct_ids_filter. exact I1.
  - intros t Ht. apply filter_In in Ht. apply I2. tauto.
  - exact I3.
  - intros id' t Hid Ht Heq. apply filter_In in Ht.
    apply (I4 id' t Hid (proj1 Ht) Heq).
Qed.

Lemma hideLoading_keeps_timers : keeps timers_ok hideLoading.
Proof.
  unfold hideLoading. keeps_step. keeps_step.
  destruct a as [id|]; [|apply keeps_ret].
  apply keeps_bind; [apply clearInterval_keeps_timers | intros _].
  apply keeps_modify. intros w [I1 I2 I3 I4].
  constructor; simpl; try assumption; discriminate.
Qed.

Lemma showLoading_keeps_timers : keeps timers_ok showLoading.
Proof.
  intros w [I1 I2 I3 I4].
  unfold after, showLoading, bind, modify, setInterval. simpl.
  constructor; simpl.
  - constructor; [apply fresh_id_not_in; exact I2 | exact I1].
  - intros t [<- | Ht]; simpl; [lia|]. specialize (I2 t Ht). lia.
  - intros id Hid. injection Hid as <-. lia.
  - intros id t Hid [<- | Ht] Heq; [reflexivity|].
    injection Hid as <-. specialize (I2 t Ht). lia.
Qed.

Ltac timers_leaf :=
  first [ apply setTimeout_keeps_timers
        | apply setInterval_typing_keeps_timers
        | apply hideLoading_keeps_timers
        | apply keeps_timers_of_stable; apply stable_modify;
          intros ?; reflexivity ].

Ltac timers_auto := repeat first [ timers_leaf | keeps_step ].

Lemma forEach_highlight_keeps_timers items :
  forall index, keeps timers_ok (forEach_highlight items index).
Proof.
  induction items as [|item rest IH]; intros index; simpl.
  - apply keeps_ret.
  - unfold append_child. timers_auto. apply IH.
Qed.

Lemma showResults_keeps_timers data : keeps timers_ok (showResults data).
Proof.
  unfold showResults, updateResultHeader, updateProbabilityBars,
    updateExplanation, updateWordHighlights, updateMetadata.
  timers_auto.
  - destruct (length_is_zero _); [timers_auto|].
    destruct (if truthy _ then _ else _); try apply keeps_throw.
    apply forEach_highlight_keeps_timers.
  - match goal with |- keeps _ (match ?v with _ => _ end) => destruct v end;
      timers_auto.
Qed.

Lemma rotate_message_keeps_timers w id i t :
  timers_ok w -> find_interval id (intervals w) = Some t ->
  kind t = MessageRotation i -> timers_ok (after (rotate_message id i) w).
Proof.
  intros [I1 I2 I3 I4] Hfind Hkind.
  unfold after, rotate_message, bind, modify. simpl.
  set (f := fun t0 : interval => _).
  assert (Hid : forall t0, timer_id (f t0) = timer_id t0).
  { intros t0. unfold f. destruct (timer_id t0 =? id)%positive eqn:E;
      [apply Pos.eqb_eq in E; subst; reflexivity | reflexivity]. }
  assert (Hmap : map timer_id (map f (intervals w)) = map timer_id (intervals w)).
  { rewrite map_map. apply map_ext. exact Hid. }
  constructor; simpl.
  - rewrite Hmap. exact I1.
  - intros t' Ht'. apply in_map_iff in Ht'. destruct Ht' as (t0 & <- & Ht0).
    rewrite Hid. apply I2. exact Ht0.
  - exact I3.
  - intros id' t' Hheld Ht' Heq. apply in_map_iff in Ht'.
    destruct Ht' as (t0 & <- & Ht0). rewrite Hid in Heq.
    unfold f. destruct (timer_id t0 =? id)%positive; [reflexivity|].
    apply (I4 id' t0 Hheld Ht0 Heq).
Qed.

Lemma run_keeps_timers events :
  forall w, timers_ok w -> timers_ok (run events w).
Proof.
  apply (event_loop_keeps timers_ok).
  - intros t x. timers_leaf.
  - intros b. timers_leaf.
  - apply showLoading_keeps_timers.
  - intros t x. unfold issue_detect. timers_auto.
  - intros m. unfold showError. timers_auto.
  - apply showResults_keeps_timers.
  - unfold settle_one. timers_leaf.
  - intros tab. unfold filterHighlights. timers_auto.
    destruct (negb _); timers_auto.
  - unfold resetToForm. timers_auto.
  - apply rotate_message_keeps_timers.
  - apply clearInterval_keeps_timers.
Qed.

Lemma timers_ok_initial page : timers_ok (initial_world page).
Proof.
  constructor; simpl.
  - constructor.
  - intros t [].
  - discriminate.
  - discriminate.
Qed.

Lemma filter_filter_same {A} (p q : A -> bool) (l : list A) :
  (forall x, In x l -> p x = true -> q x = true) ->
  filter p (filter q l) = filter p l.
Proof.
  induction l as [|x l IH]; intros H; simpl; [reflexivity|].
  assert (IH' := IH (fun y Hy => H y (or_intror Hy))).
  destruct (q x) eqn:Hq; simpl.
  - rewrite IH'. reflexivity.
  - rewrite IH'. destruct (p x) eqn:Hp; [|reflexivity].
    rewrite (H x (or_introl eq_refl) Hp) in Hq. discriminate.
Qed.

Lemma hideLoading_keeps_typing w :
  timers_ok w ->
  typing_timers (after hideLoading w) = typing_timers w
  /\ next_timer (after hideLoading w) = next_timer w.
Proof.
  intros [I1 I2 I3 I4]. unfold typing_timers, after, hideLoading, bind, gets.
  destruct (loadingInterval w) as [id|] eqn:E; simpl; [|split; reflexivity].
  split; [|reflexivity]. apply filter_filter_same.
  intros t Ht Htyping.
  destruct (timer_id t =? id)%positive eqn:Eid; [|reflexivity].
  apply Pos.eqb_eq in Eid. rewrite (I4 id t eq_refl Ht Eid) in Htyping.
  discriminate.
Qed.

Lemma forEach_highlight_keeps_intervals items :
  forall index, stable intervals (forEach_highlight items index).
Proof.
  induction items as [|item rest IH]; intros index; simpl.
  - stable_step.
  - repeat stable_step. apply IH.
Qed.

Lemma showResults_arms_typing data w0 :
  nullish data = false ->
  percentages_convert data = true ->
  intervals (after (updates data) w0)
  = {| timer_id := Pos.succ (next_timer w0);
       period_ms := CONFIG.TYPING_DELAY;
       kind := TypingEffect (field data "explanation") |} :: intervals w0.
Proof.
  intros Hd Hp. unfold updates.
  rewrite after_seq by (apply updateResultHeader_completes; assumption).
  rewrite after_seq by (apply updateProbabilityBars_completes; assumption).
  rewrite after_seq by (apply updateExplanation_completes; exact Hd).
  assert (Hs : stable intervals
                 (updateWordHighlights data ;; updateMetadata data)).
  { apply stable_bind; [|intros _].
    - unfold updateWordHighlights. repeat stable_step.
      destruct (length_is_zero _); [stable_step|].
      destruct (if truthy _ then _ else _); try stable_step.
      apply forEach_highlight_keeps_intervals.
    - unfold updateMetadata. repeat stable_step.
      match goal with |- stable _ (match ?v with _ => _ end) => destruct v end;
        repeat stable_step. }
  rewrite Hs.
  unfold percentages_convert in Hp.
  apply andb_prop in Hp. destruct Hp as [Hp Hr].
  apply andb_prop in Hp. destruct Hp as [Hc Hf].
  destruct (conversion_returns _ Hc) as (_ & Ec & _).
  destruct (conversion_returns _ Hf) as (_ & Ef & _).
  destruct (conversion_returns _ Hr) as (_ & Er & _).
  unfold after, updateExplanation, updateProbabilityBars, updateResultHeader,
    bind.
  rewrite !(get_prop_field data _ Hd). cbn [read ret].
  rewrite Ec, Ef, Er. reflexivity.
Qed.

Lemma showResults_arms_nothing data w :
  negb (nullish data) && percentages_convert data = false ->
  intervals (after (showResults data) w) = intervals (after hideLoading w).
Proof.
  intros H. destruct (nullish data) eqn:Hd.
  - rewrite showResults_split.
    destruct data; try discriminate Hd; reflexivity.
  - cbn [negb andb] in H. rewrite (showResults_stops_early data w Hd H).
    assert (Hs : stable intervals
                   (updateResultHeader data ;; updateProbabilityBars data)).
    { unfold updateResultHeader, updateProbabilityBars.
      repeat stable_step; try (intro; reflexivity). }
    rewrite Hs. reflexivity.
Qed.

(** X13.  In every state the event loop can reach, the ids of the timers
    set are pairwise distinct and below the next id to be handed out.
    Leaving the results never cancels a typing effect: [showError] and
    [resetToForm] leave the typing timers exactly as they are.  Showing a
    result adds one, of period 50 ms, on top of those still running, when
    the payload is not [null] and its three percentages convert, so that
    [showResults] gets as far as the explanation; when it does not, the
    typing timers are left as they are. *)
Theorem typing_timers_are_never_cancelled :
  forall (page : dom) (events : list event),
    let w := run events (initial_world page) in
    NoDup (map timer_id (intervals w))
    /\ (forall t, In t (intervals w) -> (timer_id t < next_timer w)%positive)
    /\ (forall message,
          typing_timers (after (showError message) w) = typing_timers w)
    /\ typing_timers (after resetToForm w) = typing_timers w
    /\ (forall data,
          nullish data = false ->
          percentages_convert data = true ->
          exists id,
            (next_timer w <= id)%positive
            /\ typing_timers (after (showResults data) w)
               = {| timer_id := id; period_ms := 50;
                    kind := TypingEffect (field data "explanation") |}
                 :: typing_timers w)
    /\ (forall data,
          negb (nullish data) && percentages_convert data = false ->
          typing_timers (after (showResults data) w) = typing_timers w).
Proof.
  intros page events w.
  assert (Hok : timers_ok w)
    by (apply run_keeps_timers, timers_ok_initial).
  destruct (hideLoading_keeps_typing w Hok) as [Hty Hnext].
  split; [apply (ids_distinct w Hok)|].
  split; [apply (ids_below_next w Hok)|].
  split; [|split; [|split]].
  - intros message. unfold showError.
    rewrite after_seq by apply hideLoading_completes.
    rewrite after_seq by apply completes_modify. exact Hty.
  - unfold resetToForm.
    rewrite after_seq by apply hideLoading_completes.
    rewrite after_seq by apply completes_modify. exact Hty.
  - intros data Hd Hp. exists (Pos.succ (next_timer w)). split; [lia|].
    rewrite showResults_split.
    unfold typing_timers at 1.
    rewrite (showResults_arms_typing data _ Hd Hp). simpl.
    unfold typing_timers in Hty. rewrite Hty, Hnext. reflexivity.
  - intros data Hno. unfold typing_timers at 1.
    rewrite (showResults_arms_nothing data w Hno). exact Hty.
Qed.

(** A second result adds a second typing timer; going back to the form
    cancels none; a result whose [confidence] does not convert adds none. *)
Lemma typing_timers_are_never_cancelled_witness :
  nullish Samples.first_result = false
  /\ percentages_convert Samples.first_result = true
  /\ length (typing_timers Samples.showing_first) = 1
  /\ length (typing_timers (dispatch ResetClick Samples.showing_first)) = 1
  /\ length (typing_timers
       (after (showResults Samples.second_result) Samples.showing_first)) = 2
  /\ negb (nullish Samples.odd_confidence)
     && percentages_convert Samples.odd_confidence = false
  /\ length (typing_timers
       (after (showResults Samples.odd_confidence) Samples.showing_first)) = 1.
Proof.
  assert (E : run (Samples.submit_article
                   ++ [TransportSettles (Samples.answers Samples.first_result)])
                  (initial_world Samples.page)
              = Samples.showing_first) by (vm_compute; reflexivity).
  pose proof (typing_timers_are_never_cancelled Samples.page
                (Samples.submit_article
                 ++ [TransportSettles (Samples.answers Samples.first_result)]))
    as T.
  cbv zeta in T. rewrite E in T. destruct T as (_ & _ & _ & Tr & Ta & Tn).
  assert (L : length (typing_timers Samples.showing_first) = 1)
    by (vm_compute; reflexivity).
  split; [reflexivity|]. split; [reflexivity|]. split; [exact L|]. split.
  - change (dispatch ResetClick Samples.showing_first)
      with (after resetToForm Samples.showing_first).
    rewrite Tr. exact L.
  - split.
    + destruct (Ta Samples.second_result eq_refl eq_refl) as (id & _ & ->).
      cbn [length]. rewrite L. reflexivity.
    + split; [reflexivity|].
      rewrite (Tn Samples.odd_confidence eq_refl). exact L.
Defined.

Lemma run_snoc events e w :
  run (events ++ [e]) w = dispatch e (run events w).
Proof. unfold run. rewrite fold_left_app. reflexivity. Qed.

Lemma repeat_snoc {A} (x : A) n : repeat x (S n) = (repeat x n ++ [x])%list.
Proof.
  induction n as [|n IH]; [reflexivity|].
  simpl in *. rewrite <- IH. reflexivity.
Qed.

Lemma rotation_tick w id done i rest :
  intervals w
  = {| timer_id := id; period_ms := 30000; kind := MessageRotation i |}
    :: rest ->
  let w' := dispatch (IntervalFires id done) w in
  (exists rest',
      intervals w'
      = {| timer_id := id; period_ms := 30000;
           kind := MessageRotation ((i + 1) mod 4) |} :: rest')
  /\ loadingStep w' = nth ((i + 1) mod 4) CONFIG.LOADING_MESSAGES ""
  /\ loadingInterval w' = loadingInterval w.
Proof.
  intros Hi. cbv zeta.
  unfold dispatch, handle. rewrite after_bind. unfold gets.
  rewrite Hi. cbn [find_interval timer_id]. rewrite Pos.eqb_refl.
  cbn [kind]. unfold after, rotate_message, bind, modify.
  change (length CONFIG.LOADING_MESSAGES) with 4.
  cbn [snd]. split; [|split; reflexivity].
  cbn [intervals set_dom with_dom with_platform]. rewrite Hi.
  cbn [map timer_id]. rewrite Pos.eqb_refl. eexists. reflexivity.
Qed.

Lemma rotation_after_ticks w done n :
  let id := next_timer w in
  let wn := run (repeat (IntervalFires id done) n) (after showLoading w) in
  (exists rest,
      intervals wn
      = {| timer_id := id; period_ms := 30000;
           kind := MessageRotation (n mod 4) |} :: rest)
  /\ (0 < n -> loadingStep wn = nth (n mod 4) CONFIG.LOADING_MESSAGES "")
  /\ loadingInterval wn = Some id.
Proof.
  cbv zeta. induction n as [|n IH].
  - split; [|split].
    + eexists. reflexivity.
    + intros H. inversion H.
    + reflexivity.
  - rewrite repeat_snoc, run_snoc.
    set (wn := run _ _) in *. destruct IH as ((rest & Hi) & _ & Hl).
    assert (Hm : (n mod 4 + 1) mod 4 = S n mod 4).
    { replace (S n) with (n + 1) by lia.
      rewrite Nat.Div0.add_mod_idemp_l. reflexivity. }
    destruct (rotation_tick wn (next_timer w) done (n mod 4) rest Hi)
      as (Hi' & Hs' & Hl').
    cbv zeta in *. rewrite Hm in Hi', Hs'.
    split; [exact Hi'|]. split; [intros _; exact Hs' | congruence].
Qed.

(** X14.  The loading messages rotate in a cycle of four: after [n]
    ticks of the timer set by [showLoading], the timer's index is
    [n mod 4] and (from the first tick on) the step line shows the message
    of that index, so every message shown is one of the four configured
    ones and the line is back at the same message every four ticks. *)
Theorem loading_messages_cycle :
  forall (w : World) (done : bool) (n : nat),
    let id := next_timer w in
    let after_ticks k :=
      run (repeat (IntervalFires id done) k) (after showLoading w) in
    find_interval id (intervals (after_ticks n))
    = Some {| timer_id := id; period_ms := 30000;
              kind := MessageRotation (n mod 4) |}
    /\ (0 < n ->
        loadingStep (after_ticks n) = nth (n mod 4) CONFIG.LOADING_MESSAGES ""
        /\ In (loadingStep (after_ticks n)) CONFIG.LOADING_MESSAGES
        /\ loadingStep (after_ticks (n + 4)) = loadingStep (after_ticks n))
    /\ loadingInterval (after_ticks n) = Some id.
Proof.
  intros w done n id after_ticks.
  destruct (rotation_after_ticks w done n) as ((rest & Hi) & Hs & Hl).
  fold id in Hi, Hs, Hl. fold (after_ticks n) in Hi, Hs, Hl.
  split; [|split; [|exact Hl]].
  - rewrite Hi. simpl. rewrite Pos.eqb_refl. reflexivity.
  - intros Hn. specialize (Hs Hn). split; [exact Hs|]. split.
    + rewrite Hs. apply nth_In.
      change (length CONFIG.LOADING_MESSAGES) with 4.
      apply Nat.mod_upper_bound. discriminate.
    + destruct (rotation_after_ticks w done (n + 4)) as (_ & Hs4 & _).
      fold id in Hs4. fold (after_ticks (n + 4)) in Hs4.
      rewrite Hs4 by lia. rewrite Hs.
      replace (n + 4) with (n + 1 * 4) by lia.
      rewrite Nat.Div0.mod_add. reflexivity.
Qed.

Lemma loading_messages_cycle_witness :
  let ticks k :=
    run (repeat (IntervalFires (next_timer Samples.article_typed) false) k)
        (after showLoading Samples.article_typed) in
  loadingStep (ticks 5) = "Analyzing text patterns..."
  /\ loadingStep (ticks 9) = loadingStep (ticks 5).
Proof.
  cbv zeta.
  destruct (loading_messages_cycle Samples.article_typed false 5)
    as (_ & T & _).
  cbv zeta in T. assert (H : 0 < 5) by lia.
  destruct (T H) as (T1 & _ & T3).
  split; [rewrite T1; reflexivity | exact T3].
Defined.

(* ================================================================== *)
(** ** The typing effect *)








(* ================================================================== *)
(** ** The filter, again *)

Lemma filter_child_twice t1 t2 c :
  filter_child t2 (filter_child t1 c) = filter_child t2 c.
Proof.
  destruct c as [|h]; [reflexivity|]. unfold filter_child at 2.
  destruct (is_highlight_item (HighlightItem h)) eqn:Hi; [|reflexivity].
  destruct (_ || _); unfold filter_child; simpl in *; rewrite Hi;
    reflexivity.
Qed.

Lemma mark_tab_twice t1 t2 b : mark_tab t2 (mark_tab t1 b) = mark_tab t2 b.
Proof. reflexivity. Qed.

Lemma opt_string_eqb_eq a b : opt_string_eqb a b = true <-> a = b.
Proof.
  destruct a as [s|], b as [t|]; simpl; split; intros H;
    try discriminate; try reflexivity.
  - apply String.eqb_eq in H. subst. reflexivity.
  - injection H as ->. apply String.eqb_refl.
Qed.

Lemma filterHighlights_effect tab w :
  truthy (currentResults w) = true ->
  let w' := after (filterHighlights tab) w in
  highlightsGrid w' = map (filter_child tab) (highlightsGrid w)
  /\ tabButtons w' = map (mark_tab tab) (tabButtons w)
  /\ currentTab w' = tab
  /\ currentResults w' = currentResults w.
Proof.
  intros H. cbv zeta. unfold after.
  rewrite (filterHighlights_with_result tab w H). repeat split.
Qed.

(** X16.  With a result stored, the last tab clicked decides alone:
    [filterHighlights t2] after [filterHighlights t1] leaves the grid, the
    tab buttons and the current tab exactly as [filterHighlights t2] by
    itself does (so clicking a tab twice changes nothing the second time).
    Exactly the buttons whose [data-tab] is the clicked tab are active
    afterwards; and a tab that is none of "all", "fake", "real" -- [tab]
    is [undefined] when the click lands on an element without [data-tab]
    -- hides every highlight item. *)
Theorem last_tab_click_wins :
  forall (w : World) (t1 t2 : option string),
    truthy (currentResults w) = true ->
    let w2 := after (filterHighlights t2) w in
    let w12 := after (filterHighlights t2) (after (filterHighlights t1) w) in
    highlightsGrid w12 = highlightsGrid w2
    /\ tabButtons w12 = tabButtons w2
    /\ currentTab w12 = t2
    /\ (forall b, In b (tabButtons w2) ->
                  (active b = true <-> data_tab b = t2))
    /\ map data_tab (tabButtons w2) = map data_tab (tabButtons w)
    /\ (t2 <> Some "all" -> t2 <> Some "fake" -> t2 <> Some "real" ->
        forall c, In c (highlightsGrid w2) ->
                  is_highlight_item c = true -> hidden c = true).
Proof.
  intros w t1 t2 Hres w2 w12.
  destruct (filterHighlights_effect t2 w Hres) as (G2 & B2 & T2 & _).
  destruct (filterHighlights_effect t1 w Hres) as (G1 & B1 & _ & R1).
  assert (Hres1 : truthy (currentResults (after (filterHighlights t1) w)) = true)
    by (cbv zeta in R1; rewrite R1; exact Hres).
  destruct (filterHighlights_effect t2 _ Hres1) as (G12 & B12 & T12 & _).
  cbv zeta in *. fold w2 in G2, B2, T2. fold w12 in G12, B12, T12.
  rewrite G12, B12, T12, G1, B1, G2, B2.
  split; [|split; [|split; [|split; [|split]]]].
  - rewrite map_map. apply map_ext. intros c. apply filter_child_twice.
  - rewrite map_map. apply map_ext. intros b. reflexivity.
  - reflexivity.
  - intros b Hb. apply in_map_iff in Hb. destruct Hb as (b0 & <- & _).
    simpl. destruct (opt_string_eqb (data_tab b0) t2) eqn:E.
    + apply opt_string_eqb_eq in E. tauto.
    + split; [discriminate|]. intros H. apply opt_string_eqb_eq in H.
      congruence.
  - rewrite map_map. apply map_ext. reflexivity.
  - intros Hall Hfake Hreal c Hc Hitem.
    apply in_map_iff in Hc. destruct Hc as (c0 & <- & _).
    destruct c0 as [|h]; [discriminate|].
    unfold filter_child in *.
    destruct (is_highlight_item (HighlightItem h)) eqn:Hi;
      [|rewrite Hi in Hitem; discriminate].
    assert (Hno : forall s, t2 <> Some s -> opt_string_eqb t2 (Some s) = false).
    { intros s Hs. destruct (opt_string_eqb t2 (Some s)) eqn:E;
        [|reflexivity]. apply opt_string_eqb_eq in E. contradiction. }
    rewrite (Hno "all" Hall).
    destruct (classList_contains (className h) "fake");
      [rewrite (Hno "fake" Hfake) | rewrite (Hno "real" Hreal)]; reflexivity.
Qed.

Lemma last_tab_click_wins_witness :
  truthy (currentResults Samples.showing_first) = true
  /\ map active (tabButtons (after (filterHighlights (Some "real"))
                                   Samples.showing_first))
     = [false; false; true]
  /\ highlightsGrid (after (filterHighlights (Some "real"))
                       (after (filterHighlights (Some "fake"))
                              Samples.showing_first))
     = highlightsGrid (after (filterHighlights (Some "real"))
                             Samples.showing_first)
  /\ length (filter hidden (highlightsGrid
               (after (filterHighlights None) Samples.showing_first))) = 3.
Proof.
  assert (H : truthy (currentResults Samples.showing_first) = true)
    by (vm_compute; reflexivity).
  destruct (last_tab_click_wins Samples.showing_first (Some "fake")
              (Some "real") H) as (T & _).
  split; [exact H|]. split; [vm_compute; reflexivity|].
  split; [exact T | vm_compute; reflexivity].
Defined.

Lemma class_tokens_item d :
  class_tokens ("highlight-item " ++ d) = "highlight-item" :: class_tokens d.
Proof. reflexivity. Qed.

(** X17.  The renderer and the filter agree on the directions "fake"
    and "real" only.  The filter reads the direction off the class: an
    item whose class has the token [fake] counts as fake, any other as
    real.  So for an item whose [direction] is not exactly the string so
    obtained (another word, several words, no direction at all), the
    renderer hides the item under that tab whereas clicking the tab shows
    it; for a direction "fake" or "real" filtering gives what rendering
    under the tab gives. *)
Theorem renderer_and_filter_agree_on_contract_only :
  forall (tab0 : option string) (index : nat) (item : value),
    let direction := field item "direction" in
    let tag :=
      if classList_contains
           ("highlight-item " ++ or_empty (to_string direction)) "fake"
      then "fake" else "real" in
    (direction <> VStr tag ->
     hidden (render_item (Some tag) index item) = true
     /\ visible (filter_child (Some tag) (render_item tab0 index item)) = true)
    /\ (well_typed_highlight item ->
        forall tab,
          filter_child tab (render_item tab0 index item)
          = render_item tab index item).
Proof.
  intros tab0 index item. cbv zeta. split.
  - remember (field item "direction") as direction eqn:Ed.
    remember (if classList_contains
                   ("highlight-item " ++ or_empty (to_string direction))
                   "fake"
              then "fake" else "real") as tag eqn:Etag.
    intros Hoff.
    assert (Htag : tag = "fake" \/ tag = "real").
    { rewrite Etag. destruct (classList_contains _ _); auto. }
    assert (Hitem : classList_contains
                      ("highlight-item " ++ or_empty (to_string direction))
                      "highlight-item" = true).
    { unfold classList_contains. rewrite class_tokens_item.
      cbn [existsb]. rewrite String.eqb_refl. reflexivity. }
    split.
    + unfold render_item, hidden, passes_filter. cbn [display].
      rewrite <- Ed.
      assert (Hp : opt_string_eqb (Some tag) (Some "all")
                   || tab_eq (Some tag) direction = false).
      { clear Etag Hitem Ed.
        destruct direction as [| | | |s| |];
          try (destruct Htag as [-> | ->]; reflexivity).
        simpl. destruct (tag =? s) eqn:E.
        - apply String.eqb_eq in E. subst s. contradiction.
        - destruct Htag as [-> | ->]; reflexivity. }
      rewrite Hp. reflexivity.
    + unfold render_item, filter_child, is_highlight_item.
      cbn [className]. rewrite <- Ed, Hitem, <- Etag.
      assert (Hsame : opt_string_eqb (Some tag) (Some tag) = true)
        by (simpl; apply String.eqb_refl).
      rewrite Hsame, orb_true_r. reflexivity.
  - intros Hwt tab. apply filter_child_render. exact Hwt.
Qed.

Lemma renderer_and_filter_agree_on_contract_only_witness :
  let item := Samples.highlight "alleged" "0.30" "neutral" in
  field item "direction" <> VStr "real"
  /\ hidden (render_item (Some "real") 0 item) = true
  /\ visible (filter_child (Some "real") (render_item (Some "real") 0 item))
     = true.
Proof.
  cbv zeta.
  assert (H : field (Samples.highlight "alleged" "0.30" "neutral") "direction"
              <> VStr "real") by (vm_compute; discriminate).
  destruct (proj1 (renderer_and_filter_agree_on_contract_only
                     (Some "real") 0
                     (Samples.highlight "alleged" "0.30" "neutral")) H)
    as [T1 T2].
  split; [exact H|]. split; [exact T1 | exact T2].
Defined.

(* ================================================================== *)
(** ** The character counter and the samples *)

Lemma showError_message_injective m1 m2 w :
  after (showError m1) w = after (showError m2) w -> m1 = m2.
Proof.
  intros H.
  pose proof (proj1 (showError_message m1 w)) as H1.
  pose proof (proj1 (showError_message m2 w)) as H2.
  rewrite H in H1. congruence.
Qed.

(** X18.  The counter is red whenever the text is too long for the
    validator: if a submit is rejected with "Article text must be less
    than 10,000 characters", [updateCharCount] colours the counter of that
    text red.  (The counter goes by the length of the text as typed, the
    validator by its trimmed length, so the counter may be red for a text
    that is accepted.) *)
Theorem counter_is_red_when_text_is_too_long :
  forall (w : World),
    isAnalyzing w = false ->
    handleFormSubmit_begin w
    = (Normal Invalid,
       after (showError "Article text must be less than 10,000 characters") w)
    ->
    (10000 < strlen (trim (newsText w)))%N
    /\ (10000 < strlen (newsText w))%N
    /\ charCount_color (newsText w) = "var(--fake-red)".
Proof.
  intros w Hidle Hrej.
  rewrite handleFormSubmit_begin_cases, Hidle in Hrej. cbv zeta in Hrej.
  assert (Hlong : (10000 < strlen (trim (newsText w)))%N).
  { revert Hrej. unfold validate_spec.
    destruct (strlen (trim (newsTitle w)) <? 5)%N;
      [intros H; injection H as H;
       apply showError_message_injective in H; discriminate|].
    destruct (500 <? strlen (trim (newsTitle w)))%N;
      [intros H; injection H as H;
       apply showError_message_injective in H; discriminate|].
    destruct (strlen (trim (newsText w)) <? 20)%N;
      [intros H; injection H as H;
       apply showError_message_injective in H; discriminate|].
    destruct (10000 <? strlen (trim (newsText w)))%N eqn:E;
      [intros _; apply N.ltb_lt; exact E | discriminate]. }
  pose proof (trim_length (newsText w)) as Hle.
  assert (Hraw : (10000 < strlen (newsText w))%N) by lia.
  split; [exact Hlong|]. split; [exact Hraw|].
  unfold charCount_color. apply N.ltb_lt in Hraw. rewrite Hraw. reflexivity.
Qed.

Lemma counter_is_red_when_text_is_too_long_witness :
  let w := dispatch (UserEdits "Miracle cure found" (filler "a" 10001))
                    (initial_world Samples.page) in
  isAnalyzing w = false
  /\ charCount_color (newsText w) = "var(--fake-red)"
  /\ charCount_color (filler "a" 9990 ++ filler " " 20) = "var(--fake-red)"
  /\ validate_spec "Miracle cure found"
       (trim (filler "a" 9990 ++ filler " " 20)) = None.
Proof.
  cbv zeta.
  assert (H : handleFormSubmit_begin
                (dispatch (UserEdits "Miracle cure found" (filler "a" 10001))
                          (initial_world Samples.page))
              = (Normal Invalid,
                 after (showError
                          "Article text must be less than 10,000 characters")
                       (dispatch (UserEdits "Miracle cure found"
                                            (filler "a" 10001))
                                 (initial_world Samples.page))))
    by (vm_compute; reflexivity).
  assert (Hidle : isAnalyzing
                    (dispatch (UserEdits "Miracle cure found"
                                         (filler "a" 10001))
                              (initial_world Samples.page)) = false)
    by reflexivity.
  destruct (counter_is_red_when_text_is_too_long _ Hidle H) as (_ & _ & T).
  split; [reflexivity|]. split; [exact T|].
  split; vm_compute; reflexivity.
Defined.







(* ================================================================== *)
(** ** From the wire to the error section *)

Lemma dispatch_settles_with w net result n :
  in_flight w = S n ->
  detectFakeNews api net = Some result ->
  dispatch (TransportSettles net) w
  = after (handleFormSubmit_resume result) (after settle_one w).
Proof.
  intros Hn Hnet. unfold dispatch, handle. rewrite after_bind. unfold gets.
  rewrite Hn, Hnet.
  rewrite after_seq by (unfold settle_one; apply completes_modify).
  reflexivity.
Qed.

Lemma failure_is_shown message w :
  let w' := after (handleFormSubmit_resume (Failure message)) w in
  shown w' = only_error /\ errorMessage w' = message
  /\ isAnalyzing w' = false /\ in_flight w' = in_flight w
  /\ currentResults w' = currentResults w
  /\ highlightsGrid w' = highlightsGrid w.
Proof.
  cbv zeta.
  unfold handleFormSubmit_resume, try_finally, try_catch, modify, after.
  rewrite showError_runs. simpl.
  destruct (showError_effect message w)
    as (Hs & Hm & _ & _ & Hf & _ & _ & _ & _ & Hr & Hg).
  cbv zeta in *. unfold after in *. repeat split; assumption.
Qed.

(** X20.  What went wrong on the wire is what the user reads.  When the
    awaited call settles with a failure, the error section shows, the
    analysis is over ([isAnalyzing] false, nothing in flight any more) and
    the result stored from an earlier analysis is untouched; the message
    shown is the backend's [error] string for a non-success status with
    such a payload, and the message of the network error when the request
    fails in time -- unless that error is itself named "AbortError", which
    is reported as a timeout. *)
Theorem transport_failures_reach_the_error_section :
  forall (w : World) (n : nat),
    in_flight w = S n ->
    (forall net message,
        detectFakeNews api net = Some (Failure message) ->
        let w' := dispatch (TransportSettles net) w in
        shown w' = only_error /\ errorMessage w' = message
        /\ isAnalyzing w' = false /\ in_flight w' = n
        /\ currentResults w' = currentResults w)
    /\ (forall at_ms r errorData message,
          (at_ms <=? timeout api)%N = true -> ok r = false ->
          body r = BodyJson errorData -> nullish errorData = false ->
          field errorData "error" = VStr message -> message <> "" ->
          errorMessage (dispatch (TransportSettles (Responds at_ms r)) w)
          = message)
    /\ (forall at_ms e,
          (at_ms <=? timeout api)%N = true ->
          errorMessage (dispatch (TransportSettles (Fails at_ms e)) w)
          = if err_name e =? "AbortError" then timeout_message
            else err_message e).
Proof.
  intros w n Hn.
  assert (Hfail : forall net message,
             detectFakeNews api net = Some (Failure message) ->
             let w' := dispatch (TransportSettles net) w in
             shown w' = only_error /\ errorMessage w' = message
             /\ isAnalyzing w' = false /\ in_flight w' = n
             /\ currentResults w' = currentResults w).
  { intros net message Hnet. cbv zeta.
    rewrite (dispatch_settles_with w net _ n Hn Hnet).
    destruct (failure_is_shown message (after settle_one w))
      as (Hs & Hm & Ha & Hf & Hr & _).
    cbv zeta in *. rewrite Hs, Hm, Ha, Hf, Hr.
    unfold after, settle_one, modify. simpl. rewrite Hn. repeat split. }
  split; [exact Hfail|]. split.
  - intros at_ms r errorData message Hin Hok Hbody Hd Hmsg Hne.
    apply Hfail.
    unfold detectFakeNews, makeRequest, makeRequest_try, fetch, await_json.
    rewrite Hin, Hok, Hbody, (get_prop_field errorData "error" Hd), Hmsg.
    cbv beta iota. simpl truthy.
    destruct (message =? "") eqn:E;
      [apply String.eqb_eq in E; contradiction | reflexivity].
  - intros at_ms e Hin.
    destruct (err_name e =? "AbortError") eqn:E; apply Hfail;
      unfold detectFakeNews, makeRequest, makeRequest_try, fetch;
      rewrite Hin, E; reflexivity.
Qed.

Lemma transport_failures_reach_the_error_section_witness :
  in_flight Samples.analysing = 1
  /\ errorMessage
       (dispatch (TransportSettles (Fails 30 (TypeError "Failed to fetch")))
                 Samples.analysing)
     = "Failed to fetch"
  /\ shown
       (dispatch (TransportSettles (Fails 30 (TypeError "Failed to fetch")))
                 Samples.analysing)
     = only_error.
Proof.
  assert (H : in_flight Samples.analysing = 1) by (vm_compute; reflexivity).
  destruct (transport_failures_reach_the_error_section
              Samples.analysing 0 H) as (T1 & _ & T3).
  split; [exact H|]. split.
  - exact (T3 30%N (TypeError "Failed to fetch") eq_refl).
  - refine (proj1 (T1 (Fails 30 (TypeError "Failed to fetch"))
                      "Failed to fetch" _)).
    reflexivity.
Defined.
